(** * The query-answering pipeline of [dlai/backend/modern_chatbot.py]

    A shallow embedding of the semantic cache, the session memory, the
    business-concept matcher and the [ask] orchestrator, with the external
    collaborators (embedding model, language model, query engine, clock,
    uuid source, JSON encoders, numpy) taken as services over an abstract
    world.

    Conventions.
    - Python [str] is [string], the UTF-8 bytes of the text. [PyStr.lower]
      folds the ASCII letters, [PyStr.strip] removes ASCII white space and
      [PyStr.take] counts bytes: on a text in ASCII ([PyStr.is_ascii])
      these are [str.lower], [str.strip] and the slice [s[:n]], and
      [.encode()] returns the text. A statement that says what a lowered,
      stripped or cut text is, or which questions share a cache key, is
      made for texts in ASCII.
    - Python floats are IEEE 754 binary64 ([float]). The arithmetic of
      numpy on embeddings (element type, order of summation, conversion of
      a Python float that meets a numpy scalar) is a component of the
      services, [Numpy]: its results are carried as [float], and only its
      behaviour on zeros and NaN is fixed. Division by zero yields an
      infinity or a NaN, as numpy does (it warns, it does not raise).
      [numpy64] is numpy on arrays of float64; the examples run on it, on
      values that it computes exactly (the one underflow example is marked
      as binary64).
    - [json.dumps] and [jsonify] are services that return or raise.
    - A Python exception is a value [Raise e] of [res]; state changes made
      before the exception stay. *)

From Stdlib Require Import ZArith Floats String Ascii List Lia Bool.
From stdpp Require Import base option list gmap strings vector pretty.

Local Open Scope Z_scope.
Set Warnings "-inexact-float".

(* ====================================================================== *)
(** ** IEEE comparisons, as Python's [<], [>] on floats *)

Module PyFloat.

(** A rank for the non-NaN values: sign class, then exponent, then
    mantissa, all reversed for the negative numbers. *)
Definition rank (f : spec_float) : option (Z * Z * Z) :=
  match f with
  | S754_nan => None
  | S754_zero _ => Some (0, 0, 0)
  | S754_infinity true => Some (-2, 0, 0)
  | S754_infinity false => Some (2, 0, 0)
  | S754_finite true m e => Some (-1, - e, - Z.pos m)
  | S754_finite false m e => Some (1, e, Z.pos m)
  end.

Definition lex_lt (a b : Z * Z * Z) : Prop :=
  let '(c1, e1, m1) := a in
  let '(c2, e2, m2) := b in
  c1 < c2 \/ (c1 = c2 /\ (e1 < e2 \/ (e1 = e2 /\ m1 < m2))).

Definition lex_le (a b : Z * Z * Z) : Prop :=
  let '(c1, e1, m1) := a in
  let '(c2, e2, m2) := b in
  c1 < c2 \/ (c1 = c2 /\ (e1 < e2 \/ (e1 = e2 /\ m1 <= m2))).

(** Python's [a > b] and [a >= b]. *)
Definition gt (a b : float) : bool := PrimFloat.ltb b a.
Definition ge (a b : float) : bool := PrimFloat.leb b a.

(** [a] is a number (not a NaN). *)
Definition is_num (a : float) : Prop := rank (Prim2SF a) <> None.

(** Zero of either sign, or NaN: what arithmetic on zero vectors yields. *)
Definition zero_or_nan (a : float) : Prop :=
  match Prim2SF a with
  | S754_zero _ | S754_nan => True
  | _ => False
  end.

Definition is_zero (a : float) : Prop :=
  match Prim2SF a with
  | S754_zero _ => True
  | _ => False
  end.

(** [float(z)] for a Python int. *)
Definition of_Z (z : Z) : float :=
  match z with
  | Z0 => 0%float
  | Zpos p => PrimFloat.of_uint63 (Uint63.of_Z (Z.pos p))
  | Zneg p => PrimFloat.opp (PrimFloat.of_uint63 (Uint63.of_Z (Z.pos p)))
  end.

End PyFloat.

(* ====================================================================== *)
(** ** Python string operations *)

Module PyStr.

Local Open Scope string_scope.

Definition lower_ascii (c : ascii) : ascii :=
  let n := nat_of_ascii c in
  if (Nat.leb 65 n && Nat.leb n 90)%bool then ascii_of_nat (n + 32) else c.

(** [s.lower()] *)
Fixpoint lower (s : string) : string :=
  match s with
  | EmptyString => EmptyString
  | String c s' => String (lower_ascii c) (lower s')
  end.

(** The ASCII characters for which [str.isspace] holds. *)
Definition is_space (c : ascii) : bool :=
  let n := nat_of_ascii c in
  ((Nat.leb 9 n && Nat.leb n 13) || (Nat.leb 28 n && Nat.leb n 32))%bool.

Fixpoint lstrip (s : string) : string :=
  match s with
  | EmptyString => EmptyString
  | String c s' => if is_space c then lstrip s' else s
  end.

(** [rstrip] keeps a character when it is not white space or when
    something is kept after it. *)
Fixpoint rstrip (s : string) : string :=
  match s with
  | EmptyString => EmptyString
  | String c s' =>
      match rstrip s' with
      | EmptyString => if is_space c then EmptyString else String c EmptyString
      | r => String c r
      end
  end.

(** [s.strip()] *)
Definition strip (s : string) : string := rstrip (lstrip s).

(** [sub in s] *)
Fixpoint contains (sub s : string) : bool :=
  if String.prefix sub s then true
  else match s with
       | EmptyString => false
       | String _ s' => contains sub s'
       end.

(** [s[:n]] for a literal [n >= 0] *)
Fixpoint take (n : nat) (s : string) : string :=
  match n, s with
  | S n', String c s' => String c (take n' s')
  | _, _ => EmptyString
  end.

(** [sep.join(parts)] *)
Fixpoint join (sep : string) (parts : list string) : string :=
  match parts with
  | [] => ""
  | [p] => p
  | p :: rest => p ++ sep ++ join sep rest
  end.

(** [any(k in s for k in keywords)] *)
Definition any_in (keywords : list string) (s : string) : bool :=
  existsb (fun k => contains k s) keywords.

(** [s.isascii()]: every character is below U+0080. On such a text
    characters are bytes and the functions above are Python's. *)
Fixpoint is_ascii (s : string) : bool :=
  match s with
  | EmptyString => true
  | String c s' => Nat.ltb (nat_of_ascii c) 128 && is_ascii s'
  end.

End PyStr.

(* ====================================================================== *)
(** ** [hashlib.md5(bytes).hexdigest()] (RFC 1321) *)

Module MD5.

Definition w32 (x : Z) : Z := x mod 2 ^ 32.
Definition add32 (a b : Z) : Z := w32 (a + b).
Definition not32 (a : Z) : Z := Z.lxor a 0xffffffff.
Definition rotl32 (x : Z) (n : Z) : Z :=
  w32 (Z.lor (Z.shiftl x n) (Z.shiftr x (32 - n))).

Definition shifts : list Z :=
  [7; 12; 17; 22; 7; 12; 17; 22; 7; 12; 17; 22; 7; 12; 17; 22;
   5; 9; 14; 20; 5; 9; 14; 20; 5; 9; 14; 20; 5; 9; 14; 20;
   4; 11; 16; 23; 4; 11; 16; 23; 4; 11; 16; 23; 4; 11; 16; 23;
   6; 10; 15; 21; 6; 10; 15; 21; 6; 10; 15; 21; 6; 10; 15; 21].

Definition sines : list Z :=
  [0xd76aa478; 0xe8c7b756; 0x242070db; 0xc1bdceee;
   0xf57c0faf; 0x4787c62a; 0xa8304613; 0xfd469501;
   0x698098d8; 0x8b44f7af; 0xffff5bb1; 0x895cd7be;
   0x6b901122; 0xfd987193; 0xa679438e; 0x49b40821;
   0xf61e2562; 0xc040b340; 0x265e5a51; 0xe9b6c7aa;
   0xd62f105d; 0x02441453; 0xd8a1e681; 0xe7d3fbc8;
   0x21e1cde6; 0xc33707d6; 0xf4d50d87; 0x455a14ed;
   0xa9e3e905; 0xfcefa3f8; 0x676f02d9; 0x8d2a4c8a;
   0xfffa3942; 0x8771f681; 0x6d9d6122; 0xfde5380c;
   0xa4beea44; 0x4bdecfa9; 0xf6bb4b60; 0xbebfbc70;
   0x289b7ec6; 0xeaa127fa; 0xd4ef3085; 0x04881d05;
   0xd9d4d039; 0xe6db99e5; 0x1fa27cf8; 0xc4ac5665;
   0xf4292244; 0x432aff97; 0xab9423a7; 0xfc93a039;
   0x655b59c3; 0x8f0ccc92; 0xffeff47d; 0x85845dd1;
   0x6fa87e4f; 0xfe2ce6e0; 0xa3014314; 0x4e0811a1;
   0xf7537e82; 0xbd3af235; 0x2ad7d2bb; 0xeb86d391].

(** little-endian bytes of a word, and back *)
Definition le_bytes (n : nat) (x : Z) : list Z :=
  map (fun i => Z.land (Z.shiftr x (8 * Z.of_nat i)) 0xff) (seq 0 n).

Definition le_word (bs : list Z) : Z :=
  fold_right (fun b acc => b + 256 * acc) 0 bs.

(** the message, a 1 bit, zeros up to 56 mod 64, the bit length on 8 bytes *)
Definition pad (msg : list Z) : list Z :=
  let len := Z.of_nat (length msg) in
  let zeros := Z.to_nat ((55 - len) mod 64) in
  msg ++ [0x80] ++ repeat 0 zeros ++ le_bytes 8 ((8 * len) mod 2 ^ 64).

Fixpoint chunks (fuel : nat) (n : nat) (bs : list Z) : list (list Z) :=
  match fuel, bs with
  | S fuel', _ :: _ => firstn n bs :: chunks fuel' n (skipn n bs)
  | _, _ => []
  end.

Definition words (block : list Z) : list Z :=
  map le_word (chunks 16 4 block).

Definition round (m : list Z) (st : Z * Z * Z * Z) (i : nat) : Z * Z * Z * Z :=
  let '(a, b, c, d) := st in
  let iz := Z.of_nat i in
  let '(f, g) :=
    if iz <? 16 then (Z.lor (Z.land b c) (Z.land (not32 b) d), iz)
    else if iz <? 32 then (Z.lor (Z.land d b) (Z.land (not32 d) c), (5 * iz + 1) mod 16)
    else if iz <? 48 then (Z.lxor (Z.lxor b c) d, (3 * iz + 5) mod 16)
    else (Z.lxor c (Z.lor b (not32 d)), (7 * iz) mod 16) in
  let f' := add32 (add32 (add32 f a) (nth i sines 0)) (nth (Z.to_nat g) m 0) in
  (d, add32 b (rotl32 f' (nth i shifts 0)), b, c).

Definition block_step (h : Z * Z * Z * Z) (block : list Z) : Z * Z * Z * Z :=
  let '(a0, b0, c0, d0) := h in
  let '(a, b, c, d) := fold_left (round (words block)) (seq 0 64) h in
  (add32 a0 a, add32 b0 b, add32 c0 c, add32 d0 d).

Definition digest (msg : list Z) : list Z :=
  let p := pad msg in
  let '(a, b, c, d) :=
    fold_left block_step (chunks (length p) 64 p)
              (0x67452301, 0xefcdab89, 0x98badcfe, 0x10325476) in
  le_bytes 4 a ++ le_bytes 4 b ++ le_bytes 4 c ++ le_bytes 4 d.

Definition hex_digit (n : Z) : ascii :=
  ascii_of_nat (Z.to_nat (if n <? 10 then 48 + n else 87 + n)).

Fixpoint hex (bs : list Z) : string :=
  match bs with
  | [] => EmptyString
  | b :: bs' => String (hex_digit (b / 16)) (String (hex_digit (b mod 16)) (hex bs'))
  end.

(** [s.encode()]: the bytes of the text *)
Fixpoint encode (s : string) : list Z :=
  match s with
  | EmptyString => []
  | String c s' => Z.of_nat (nat_of_ascii c) :: encode s'
  end.

Definition hexdigest (s : string) : string := hex (digest (encode s)).

End MD5.

(* ====================================================================== *)
(** ** Python values, dictionaries in insertion order, slices *)

(** The JSON-like values that travel in a response. *)
#[warnings="-register-all"]
Inductive value : Type :=
| VNone
| VBool (b : bool)
| VInt (z : Z)
| VFloat (f : float)
| VStr (s : string)
| VList (l : list value)
| VDict (d : list (string * value)).

Module PyDict.
Section Dict.
Context {V : Type}.

(** [d.get(k)] *)
Fixpoint get (k : string) (d : list (string * V)) : option V :=
  match d with
  | [] => None
  | (k', v) :: d' => if String.eqb k k' then Some v else get k d'
  end.

(** [d[k] = v]: an existing key keeps its place, a new key goes last. *)
Fixpoint set (k : string) (v : V) (d : list (string * V)) : list (string * V) :=
  match d with
  | [] => [(k, v)]
  | (k', v') :: d' =>
      if String.eqb k k' then (k, v) :: d' else (k', v') :: set k v d'
  end.

(** [d.values()] and [d.keys()], in iteration order *)
Definition values (d : list (string * V)) : list V := map snd d.
Definition keys (d : list (string * V)) : list string := map fst d.

(** [dict(zip(ks, vs))] *)
Definition of_zip (ks : list string) (vs : list V) : list (string * V) :=
  fold_left (fun d kv => set (fst kv) (snd kv) d) (zip ks vs) [].
End Dict.
End PyDict.

(** [l[start:]] for a Python int [start]: a negative start counts from the
    end and is clamped at the beginning. *)
Definition slice_from {A : Type} (start : Z) (l : list A) : list A :=
  let len := Z.of_nat (length l) in
  if start <? 0 then drop (Z.to_nat (Z.max 0 (len + start))) l
  else drop (Z.to_nat start) l.

(** The last [n] elements of a list. *)
Definition last_n {A : Type} (n : nat) (l : list A) : list A :=
  drop (length l - n) l.

(** [l[:n]] for a literal [n >= 0] *)
Definition slice_to {A : Type} (n : nat) (l : list A) : list A := take n l.

(** [min(a, b)] on floats *)
Definition py_min (a b : float) : float := if PrimFloat.ltb b a then b else a.

(** [repr] of a list of plain strings *)
Definition repr_str_list (l : list string) : string :=
  ("[" ++ PyStr.join ", " (map (fun s => "'" ++ s ++ "'") l) ++ "]")%string.

(* ====================================================================== *)
(** ** Exceptions and results *)

Record exn : Type := Exception { exn_class : string; exn_str : string }.

Inductive res (A : Type) : Type :=
| Ok (a : A)
| Raise (e : exn).
Arguments Ok {A} a.
Arguments Raise {A} e.

Definition KeyError (k : string) : exn := Exception "KeyError" ("'" ++ k ++ "'").

(* ====================================================================== *)
(** ** numpy

    [np.dot], [np.linalg.norm] and the arithmetic of numpy scalars work in
    the element type of the arrays that the embedding model returns
    (float32 for the model the source loads); [np.dot] adds the products up
    in an order of its own; and a Python float that is compared with a numpy
    scalar is first converted as the promotion rules of the installed numpy
    say (to the type of the scalar, since numpy 2). The source fixes none of
    this, so the operations are taken as the library gives them. Their
    results are carried as [float]: every number of a narrower IEEE format
    is a binary64 number, and two such numbers compare the same in either
    format. What is known of the operations is IEEE 754 on zeros and NaN,
    whatever the element type and the order of summation: a product with a
    zero is a zero or a NaN, so are the sums of such products and the norm
    of a zero vector, and a zero or a NaN divided by a zero or a NaN is a
    NaN; nothing raises (numpy warns). *)
(** Every component of the vector is a zero. *)
Definition all_zero {n : nat} (v : vec float n) : Prop :=
  Forall PyFloat.is_zero (vec_to_list v).

Record Numpy (dim : nat) : Type := mkNumpy {
  (** [np.dot(a, b)] *)
  np_dot : vec float dim -> vec float dim -> float;
  (** [np.linalg.norm(a)] *)
  np_norm : vec float dim -> float;
  (** [x * y] and [x / y] on numpy scalars *)
  np_mul : float -> float -> float;
  np_div : float -> float -> float;
  (** a Python float, as the operand of a comparison with a numpy scalar *)
  np_float : float -> float;
  np_dot_zero :
    forall a b, all_zero a \/ all_zero b -> PyFloat.zero_or_nan (np_dot a b);
  np_norm_zero :
    forall a, all_zero a -> PyFloat.zero_or_nan (np_norm a);
  np_mul_zero :
    forall x y, PyFloat.zero_or_nan x \/ PyFloat.zero_or_nan y ->
                PyFloat.zero_or_nan (np_mul x y);
  np_div_zero :
    forall x y, PyFloat.zero_or_nan x -> PyFloat.zero_or_nan y ->
                Prim2SF (np_div x y) = S754_nan
}.
Arguments np_dot {dim}.
Arguments np_norm {dim}.
Arguments np_mul {dim}.
Arguments np_div {dim}.
Arguments np_float {dim}.
Arguments np_dot_zero {dim}.
Arguments np_norm_zero {dim}.
Arguments np_mul_zero {dim}.
Arguments np_div_zero {dim}.

(** The similarity of two embeddings, as the source writes it in
    [get_similar_query] and in [find_relevant_concept]: no test of the
    denominator. *)
Definition cosine_similarity {dim : nat} (np : Numpy dim) (a b : vec float dim)
  : float :=
  np_div np (np_dot np a b) (np_mul np (np_norm np a) (np_norm np b)).

(** One numpy: arrays of float64, the products added up from the left, a
    Python float compared as it is. [np.linalg.norm] is the square root of
    [x.dot(x)]. *)
Definition dot {n : nat} (a b : vec float n) : float :=
  fold_left (fun acc xy => (acc + fst xy * snd xy)%float)
            (zip (vec_to_list a) (vec_to_list b)) 0%float.

Definition norm {n : nat} (a : vec float n) : float := PrimFloat.sqrt (dot a a).

Definition cosine {n : nat} (a b : vec float n) : float :=
  (dot a b / (norm a * norm b))%float.

(** Zeros and NaN in binary64 arithmetic. *)
Module PyFloatZero.
Import PyFloat.

Lemma zero_or_nan_mul_l a b : zero_or_nan a -> zero_or_nan (a * b)%float.
Proof.
  unfold zero_or_nan. rewrite mul_spec. unfold SF64mul, SFmul.
  destruct (Prim2SF a); try contradiction; intros _; destruct (Prim2SF b); exact I.
Qed.

Lemma zero_or_nan_mul_r a b : zero_or_nan b -> zero_or_nan (a * b)%float.
Proof.
  unfold zero_or_nan. rewrite mul_spec. unfold SF64mul, SFmul.
  destruct (Prim2SF b); try contradiction; intros _; destruct (Prim2SF a); exact I.
Qed.

Lemma zero_or_nan_mul a b : zero_or_nan a \/ zero_or_nan b -> zero_or_nan (a * b)%float.
Proof. intros [H|H]; [apply zero_or_nan_mul_l|apply zero_or_nan_mul_r]; exact H. Qed.

Lemma zero_or_nan_add a b : zero_or_nan a -> zero_or_nan b -> zero_or_nan (a + b)%float.
Proof.
  unfold zero_or_nan. rewrite add_spec. unfold SF64add, SFadd.
  destruct (Prim2SF a); try contradiction; intros _;
    destruct (Prim2SF b); try contradiction; intros _; try exact I.
  destruct s, s0; exact I.
Qed.

Lemma zero_or_nan_sqrt a : zero_or_nan a -> zero_or_nan (PrimFloat.sqrt a).
Proof.
  unfold zero_or_nan. rewrite sqrt_spec. unfold SF64sqrt, SFsqrt.
  destruct (Prim2SF a); try contradiction; intros _; exact I.
Qed.

Lemma zero_or_nan_div a b :
  zero_or_nan a -> zero_or_nan b -> Prim2SF (a / b)%float = S754_nan.
Proof.
  unfold zero_or_nan. rewrite div_spec. unfold SF64div, SFdiv.
  destruct (Prim2SF a); try contradiction; intros _;
    destruct (Prim2SF b); try contradiction; intros _; reflexivity.
Qed.

Lemma is_zero_zero_or_nan a : is_zero a -> zero_or_nan a.
Proof. unfold is_zero, zero_or_nan. destruct (Prim2SF a); auto. Qed.

Lemma zero_or_nan_0 : zero_or_nan 0%float.
Proof. unfold zero_or_nan. vm_compute. exact I. Qed.

Lemma fold_dot_zero (la lb : list float) (acc : float) :
  zero_or_nan acc ->
  Forall is_zero la \/ Forall is_zero lb ->
  zero_or_nan (fold_left (fun acc xy => (acc + fst xy * snd xy)%float) (zip la lb) acc).
Proof.
  revert lb acc. induction la as [|x la IH]; intros lb acc Hacc Hz.
  - exact Hacc.
  - destruct lb as [|y lb]; [exact Hacc|].
    simpl. apply IH.
    + apply zero_or_nan_add; [exact Hacc|].
      destruct Hz as [Hz|Hz]; inversion Hz; subst.
      * apply zero_or_nan_mul_l, is_zero_zero_or_nan. assumption.
      * apply zero_or_nan_mul_r, is_zero_zero_or_nan. assumption.
    + destruct Hz as [Hz|Hz]; inversion Hz; subst; auto.
Qed.

Lemma dot_zero {n : nat} (a b : vec float n) :
  all_zero a \/ all_zero b -> zero_or_nan (dot a b).
Proof. intros H. apply fold_dot_zero; [exact zero_or_nan_0|exact H]. Qed.

Lemma norm_zero {n : nat} (a : vec float n) : all_zero a -> zero_or_nan (norm a).
Proof. intros H. unfold norm. apply zero_or_nan_sqrt, dot_zero. auto. Qed.

End PyFloatZero.

Definition numpy64 (dim : nat) : Numpy dim :=
  mkNumpy dim dot norm PrimFloat.mul PrimFloat.div (fun threshold => threshold)
          PyFloatZero.dot_zero PyFloatZero.norm_zero
          PyFloatZero.zero_or_nan_mul PyFloatZero.zero_or_nan_div.

(* ====================================================================== *)
(** ** Structured outputs and stored records *)

Record SQLQuery : Type := mkSQLQuery {
  sql : string;
  reasoning : string;
  business_context : string;
  confidence : float;
  requires_execution : bool   (* default True *)
}.

Record DataInsight : Type := mkDataInsight {
  key_finding : string;
  supporting_metrics : list string;
  recommendations : list string;
  related_questions : list string
}.

Record BusinessConcept : Type := mkBusinessConcept {
  natural_term : string;
  sql_pattern : string;
  required_columns : list string;
  context_keywords : list string
}.

Record ConversationTurn : Type := mkConversationTurn {
  turn_question : string;
  turn_answer : string;
  turn_sql_used : string;
  turn_timestamp : Z;
  turn_session_id : string
}.

(** Embeddings have the fixed dimension of the model. *)
Record CacheEntry (dim : nat) : Type := mkCacheEntry {
  query_embedding : vec float dim;
  sql_query : string;
  results : gmap string value;
  entry_timestamp : Z;
  hit_count : Z   (* default 0 *)
}.
Arguments mkCacheEntry {dim}.
Arguments query_embedding {dim}.
Arguments sql_query {dim}.
Arguments results {dim}.
Arguments entry_timestamp {dim}.
Arguments hit_count {dim}.

(** External calls, as they are logged. *)
Inductive Call : Type :=
| CallEncode (text : string)
| CallChat (schema_name prompt : string) (temperature : float)
| CallExecute (sql_text : string)
| CallNow
| CallUuid.

(** The SQL texts handed to the query engine, in call order. *)
Definition executes (cs : list Call) : list string :=
  flat_map (fun c => match c with CallExecute s => [s] | _ => [] end) cs.

(** The collaborators. Each may depend on and change the world; [encode],
    the chat completion and the query engine may raise, and so may the two
    JSON encoders, on a value they cannot serialize. *)
Record Services (W : Type) (dim : nat) : Type := mkServices {
  (** [SentenceTransformer.encode([text])[0]] *)
  svc_encode : string -> W -> res (vec float dim) * W;
  (** [openai.chat.completions.create(...).choices[0].message.content] for
      the schema name, the prompt and the temperature *)
  svc_chat : string -> string -> float -> W -> res string * W;
  (** [db.execute(sql)]: the names of [cursor.description] and [fetchall()] *)
  svc_execute : string -> W -> res (list string * list (list value)) * W;
  (** [datetime.now()], in microseconds *)
  svc_now : W -> Z * W;
  (** [str(uuid.uuid4())] *)
  svc_uuid4 : W -> string * W;
  (** [SQLQuery( **json.loads(content))] *)
  decode_SQLQuery : string -> res SQLQuery;
  (** [DataInsight( **json.loads(content))] *)
  decode_DataInsight : string -> res DataInsight;
  (** [json.dumps(v, indent=2, default=str)] *)
  json_dumps : value -> res string;
  (** [flask.jsonify(v)]: whether the value is serialized; the JSON text is
      read as the value itself *)
  jsonify : value -> res unit;
  (** numpy, as installed *)
  numpy : Numpy dim
}.
Arguments svc_encode {W dim}.
Arguments svc_chat {W dim}.
Arguments svc_execute {W dim}.
Arguments svc_now {W dim}.
Arguments svc_uuid4 {W dim}.
Arguments decode_SQLQuery {W dim}.
Arguments decode_DataInsight {W dim}.
Arguments json_dumps {W dim}.
Arguments jsonify {W dim}.
Arguments numpy {W dim}.

(** The configuration of one chatbot instance. *)
Record Config (dim : nat) : Type := mkConfig {
  similarity_threshold : float;    (* SemanticCache.similarity_threshold *)
  max_turns : Z;                   (* SessionMemory.max_turns *)
  temperature : float;             (* config temperature *)
  debug : bool;
  (** the schema text built from [schema_info], fixed after start-up *)
  schema_context : string;
  (** [BusinessIntelligence.concept_embeddings[natural_term]]: the table is
      filled for every concept when the chatbot is built *)
  concept_embeddings : string -> vec float dim
}.
Arguments similarity_threshold {dim}.
Arguments max_turns {dim}.
Arguments temperature {dim}.
Arguments debug {dim}.
Arguments schema_context {dim}.
Arguments concept_embeddings {dim}.

Definition nl : string := String (ascii_of_nat 10) EmptyString.

(** Python truthiness of a value *)
Definition truthy (v : value) : bool :=
  match v with
  | VNone => false
  | VBool b => b
  | VInt z => negb (z =? 0)
  | VFloat f => negb (PrimFloat.eqb f 0)
  | VStr s => negb (String.eqb s "")
  | VList l => match l with [] => false | _ => true end
  | VDict d => match d with [] => false | _ => true end
  end.

(** [SemanticCache._get_query_key] *)
Definition _get_query_key (query : string) : string :=
  MD5.hexdigest (PyStr.strip (PyStr.lower query)).

(** [hit_count += 1] *)
Definition bump_hit {dim : nat} (e : CacheEntry dim) : CacheEntry dim :=
  mkCacheEntry (query_embedding e) (sql_query e) (results e)
               (entry_timestamp e) (hit_count e + 1).

(** The loop of [get_similar_query] over [cache.values()]: the best match so
    far is the position of the entry (its identity) with the entry. The
    similarity is a numpy scalar; it is compared with the best so far (the
    int 0 at first, which is the number 0 in every type, then a numpy
    scalar) and with the threshold, a Python float. *)
Fixpoint scan_cache {dim : nat} (np : Numpy dim) (threshold : float) (q : vec float dim)
    (entries : list (CacheEntry dim)) (i : nat)
    (best_match : option (nat * CacheEntry dim)) (best_similarity : float)
  : option (nat * CacheEntry dim) :=
  match entries with
  | [] => best_match
  | entry :: rest =>
      let similarity := cosine_similarity np q (query_embedding entry) in
      if PyFloat.gt similarity best_similarity
         && PyFloat.gt similarity (np_float np threshold)
      then scan_cache np threshold q rest (S i) (Some (i, entry)) similarity
      else scan_cache np threshold q rest (S i) best_match best_similarity
  end.

(** [SessionMemory.validate_follow_up_question]: its keywords *)
Definition follow_up_keywords : list string :=
  ["anteriormente"; "mencionÃ©"; "mencionaste"; "dijiste";
   "esa"; "ese"; "esos"; "esas"; "aquella"; "aquel";
   "la anterior"; "el anterior"; "antes"; "previamente"]%string.

(** [SessionMemory.get_conversation_context] *)
Definition get_conversation_context
    (sessions : gmap string (list ConversationTurn)) (session_id : string) : string :=
  match sessions !! session_id with
  | None | Some [] => ""%string
  | Some turns =>
      PyStr.join nl
        (["CONVERSATION HISTORY (Previous questions in this session):"%string]
         ++ concat (imap (fun i turn =>
              [("Turn " ++ pretty (S i) ++ ":")%string;
               ("  User asked: " ++ turn_question turn)%string;
               ("  Response summary: " ++ PyStr.take 150 (turn_answer turn) ++ "...")%string;
               ("  SQL executed: " ++ turn_sql_used turn)%string;
               ""%string]) (slice_from (-5) turns))
         ++ ["IMPORTANT: Only reference information that was actually mentioned in previous questions."%string])
  end.

(** [SessionMemory.get_related_queries] *)
Definition get_related_queries
    (sessions : gmap string (list ConversationTurn)) (session_id : string) : list string :=
  match sessions !! session_id with
  | None => []
  | Some turns => map turn_sql_used (slice_from (-3) turns)
  end.

(** [SessionMemory.validate_follow_up_question] *)
Definition validate_follow_up_question
    (sessions : gmap string (list ConversationTurn)) (session_id question : string)
  : gmap string value :=
  match sessions !! session_id with
  | None | Some [] => list_to_map [("valid", VBool true); ("message", VStr "")]%string
  | Some turns =>
      let question_lower := PyStr.lower question in
      let is_follow_up := PyStr.any_in follow_up_keywords question_lower in
      if is_follow_up then
        let previous_questions := map (fun turn => PyStr.lower (turn_question turn)) turns in
        let context_summary := PyStr.join " " previous_questions in
        list_to_map
          [("valid", VBool true);
           ("is_follow_up", VBool true);
           ("context_available", VStr context_summary);
           ("message", VStr ("Follow-up question detected. Previous context: "
                             ++ PyStr.take 200 context_summary ++ "..."))]%string
      else
        list_to_map [("valid", VBool true); ("is_follow_up", VBool false);
                     ("message", VStr "")]%string
  end.

(** [validation.get("is_follow_up", False)] *)
Definition is_follow_up_flag (validation : gmap string value) : bool :=
  truthy (default (VBool false) (validation !! "is_follow_up"%string)).

(** [BusinessIntelligence._initialize_business_concepts] *)
Definition concepts : list BusinessConcept :=
  [ mkBusinessConcept "performance por regiÃ³n"
      "SELECT region, SUM(revenue) as total_revenue, AVG(conversion_rate) as avg_conversion FROM {table} GROUP BY region"
      ["region"; "revenue"; "conversion_rate"]
      ["regiÃ³n"; "area"; "zona"; "geographical"; "performance regional"];
    mkBusinessConcept "mejor tipo de tienda"
      "SELECT tipo_tienda, COUNT(*) as tiendas, AVG(revenue) as avg_revenue FROM {table} GROUP BY tipo_tienda ORDER BY avg_revenue DESC"
      ["tipo_tienda"; "revenue"]
      ["tipo"; "formato"; "mall"; "street"; "outlet"; "store type"];
    mkBusinessConcept "impacto del experimento"
      "SELECT experimento, AVG(conversion_rate) as avg_conversion, AVG(revenue) as avg_revenue FROM {table} GROUP BY experimento"
      ["experimento"; "conversion_rate"; "revenue"]
      ["a/b test"; "experiment"; "control"; "test"; "treatment"];
    mkBusinessConcept "tiendas con mejor conversiÃ³n"
      "SELECT tienda_id, tipo_tienda, region, conversion_rate, revenue FROM {table} WHERE conversion_rate > (SELECT AVG(conversion_rate) FROM {table}) ORDER BY conversion_rate DESC"
      ["tienda_id"; "tipo_tienda"; "region"; "conversion_rate"; "revenue"]
      ["top performers"; "best stores"; "high conversion"; "mejores tiendas"]
  ]%string.

(** The second loop of [find_relevant_concept], over the concepts and their
    stored embeddings; the best similarity starts at the float 0.0 and the
    threshold is the Python float 0.6. *)
Fixpoint scan_concepts {dim : nat} (np : Numpy dim) (embeddings : string -> vec float dim)
    (q : vec float dim) (cs : list BusinessConcept)
    (best_concept : option BusinessConcept) (best_similarity : float)
  : option BusinessConcept :=
  match cs with
  | [] => best_concept
  | concept :: rest =>
      let concept_embedding := embeddings (natural_term concept) in
      let similarity := cosine_similarity np q concept_embedding in
      if PyFloat.gt similarity best_similarity
         && PyFloat.gt similarity (np_float np 0.6%float)
      then scan_concepts np embeddings q rest (Some concept) similarity
      else scan_concepts np embeddings q rest best_concept best_similarity
  end.

(** The double quote, for the texts that hold one. *)
Definition dq : string := String (ascii_of_nat 34) EmptyString.

(** The fixed text of the f-string templates, between their holes, as the
    source has it (line breaks and indentation included). *)
Definition sql_prompt_text_0 : string :=
  (nl
  ++ "        You are a helpful business analytics assistant for Gatorade. You must ALWAYS respond in the same language as the user's question."
  ++ nl ++ "        " ++ nl ++ "        LANGUAGE DETECTION:" ++ nl
  ++ "        - If question is in Spanish, respond entirely in Spanish" ++ nl
  ++ "        - If question is in English, respond entirely in English" ++ nl
  ++ "        - Match the user's language for ALL parts of your response" ++ nl ++ "        " ++ nl
  ++ "        QUESTION TYPES:" ++ nl
  ++ "        1. DATA QUERIES: Generate SQL for business data analysis" ++ nl
  ++ "        2. TRIVIAL/GENERAL QUESTIONS: Answer directly without SQL (like " ++ dq
  ++ "Â¿sos chatgpt?" ++ dq ++ ", " ++ dq ++ "hola" ++ dq ++ ", etc.)" ++ nl
  ++ "        3. META QUESTIONS: About the conversation itself" ++ nl ++ "        " ++ nl
  ++ "        ")%string.

Definition sql_prompt_text_1 : string :=
  (nl ++ "        ")%string.

Definition sql_prompt_text_2 : string :=
  (nl ++ "        ")%string.

Definition sql_prompt_text_3 : string :=
  (nl ++ "        ")%string.

Definition sql_prompt_text_4 : string :=
  (nl ++ "        ")%string.

Definition sql_prompt_text_5 : string :=
  (nl ++ "        " ++ nl ++ "        QUESTION: ")%string.

Definition sql_prompt_text_6 : string :=
  (nl ++ "        " ++ nl ++ "        DETECT QUESTION TYPE:" ++ nl
  ++ "        - If it's about identity, greetings, or general topics NOT related to data â†’ Set requires_execution: false"
  ++ nl ++ "        - If it's about business data, experiments, stores â†’ Generate SQL query" ++ nl
  ++ "        " ++ nl ++ "        REQUIREMENTS FOR DATA QUERIES:" ++ nl
  ++ "        - Use available tables: tiendas, maestro_tiendas (if loaded)" ++ nl
  ++ "        - JOIN tables when business context requires store names or master data" ++ nl
  ++ "        - Generate clean SQL without markdown backticks" ++ nl
  ++ "        - Focus on business insights, not just raw data" ++ nl
  ++ "        - Use proper aggregations and filters" ++ nl
  ++ "        - Limit results to most relevant (TOP 10 unless specified)" ++ nl
  ++ "        - For experiment queries use column 'experimento' (values: Control, etc.)" ++ nl
  ++ "        - For control stores specifically: WHERE experimento = 'Control'  " ++ nl
  ++ "        - Available experiment columns: experimento, tienda_id, region, tipo_tienda, usuarios, conversiones, revenue, conversion_rate"
  ++ nl
  ++ "        - Example JOIN: SELECT t.*, m.nombre_tienda FROM tiendas t JOIN maestro_tiendas m ON t.tienda_id = m.tienda_id"
  ++ nl ++ "        " ++ nl ++ "        CONVERSATION CONTEXT RULES:" ++ nl
  ++ "        - If this is a follow-up question (contains " ++ dq ++ "anteriormente" ++ dq ++ ", "
  ++ dq ++ "mencionÃ©" ++ dq ++ ", " ++ dq ++ "esa" ++ dq ++ ", " ++ dq ++ "ese" ++ dq ++ ", " ++ dq
  ++ "esos" ++ dq ++ ", etc.), carefully check the conversation history" ++ nl
  ++ "        - If the user asks about something NOT mentioned in previous questions, you MUST respond with:"
  ++ nl ++ "          * reasoning: " ++ dq
  ++ "El usuario pregunta sobre [tema] que no fue mencionado en conversaciones anteriores." ++ dq
  ++ nl ++ "          * business_context: " ++ dq
  ++ "No puedo responder esta pregunta porque se refiere a informaciÃ³n que no fue discutida previamente."
  ++ dq ++ nl ++ "          * sql: " ++ dq
  ++ "SELECT 'No hay informaciÃ³n previa sobre este tema' as mensaje;" ++ dq ++ nl
  ++ "          * confidence: 0.1" ++ nl ++ "          * requires_execution: false" ++ nl
  ++ "        - For meta-questions about the conversation itself (like " ++ dq
  ++ "Â¿quÃ© te preguntÃ© primero?" ++ dq ++ "), set requires_execution: false" ++ nl
  ++ "        - Only build upon previous results if they are logically connected" ++ nl
  ++ "        - DO NOT generate new analysis for topics not previously discussed in follow-up questions"
  ++ nl ++ "        " ++ nl
  ++ "        Return a structured response with SQL, reasoning, business context, and confidence."
  ++ nl ++ "        ")%string.

Definition insight_prompt_text_0 : string :=
  (nl
  ++ "        You are a business analyst for Gatorade. RESPOND IN THE SAME LANGUAGE AS THE QUESTION."
  ++ nl ++ "        " ++ nl ++ "        ORIGINAL QUESTION: ")%string.

Definition insight_prompt_text_1 : string :=
  (nl ++ "        " ++ nl ++ "        QUERY RESULTS:" ++ nl ++ "        ")%string.

Definition insight_prompt_text_2 : string :=
  (nl ++ "        " ++ nl ++ "        Provide:" ++ nl
  ++ "        1. Key finding in business terms (in the question's language)" ++ nl
  ++ "        2. Supporting metrics from the data" ++ nl ++ "        3. Actionable recommendations"
  ++ nl ++ "        4. Follow-up questions to explore" ++ nl ++ "        " ++ nl
  ++ "        Focus on business value and actionable insights." ++ nl ++ "        ")%string.

Definition concept_context_text_0 : string :=
  (nl ++ "            RELEVANT BUSINESS PATTERN:" ++ nl ++ "            Term: ")%string.

Definition concept_context_text_1 : string :=
  (nl ++ "            SQL Pattern: ")%string.

Definition concept_context_text_2 : string :=
  (nl ++ "            Required Columns: ")%string.

Definition concept_context_text_3 : string :=
  (nl ++ "            ")%string.

Definition follow_up_head : string :=
  (nl ++ "                FOLLOW-UP QUESTION DETECTED:" ++ nl
  ++ "                The user is referencing something from previous conversation. " ++ nl
  ++ "                Previous context: ")%string.

Definition follow_up_tail : string :=
  (nl ++ "                " ++ nl
  ++ "                CRITICAL: Only answer based on what was ACTUALLY mentioned in previous questions."
  ++ nl ++ "                If the user asks about something NOT mentioned before, state clearly:"
  ++ nl ++ "                " ++ dq
  ++ "En la conversaciÃ³n anterior no mencionaste [tema]. Las preguntas anteriores fueron sobre [resumen real]."
  ++ dq ++ nl ++ "                ")%string.

(** [concept_context] *)
Definition concept_context_of (c : option BusinessConcept) : string :=
  match c with
  | None => ""%string
  | Some relevant_concept =>
      (concept_context_text_0 ++ natural_term relevant_concept
       ++ concept_context_text_1 ++ sql_pattern relevant_concept
       ++ concept_context_text_2 ++ repr_str_list (required_columns relevant_concept)
       ++ concept_context_text_3)%string
  end.

(** [follow_up_instruction], with
    [validation.get('context_available', '')[:300]] in its hole *)
Definition follow_up_instruction_of (validation : gmap string value) : string :=
  if is_follow_up_flag validation then
    (follow_up_head
     ++ match default (VStr "") (validation !! "context_available"%string) with
        | VStr s => PyStr.take 300 s
        | _ => ""
        end
     ++ follow_up_tail)%string
  else ""%string.

(** The prompt of the SQL generation *)
Definition sql_prompt (schema conceptc conversation follow_up context question : string)
  : string :=
  (sql_prompt_text_0 ++ schema ++ sql_prompt_text_1 ++ conceptc
   ++ sql_prompt_text_2 ++ conversation ++ sql_prompt_text_3 ++ follow_up
   ++ sql_prompt_text_4 ++ context ++ sql_prompt_text_5 ++ question
   ++ sql_prompt_text_6)%string.

(** The prompt of the insight synthesis *)
Definition insight_prompt (question results_summary : string) : string :=
  (insight_prompt_text_0 ++ question ++ insight_prompt_text_1 ++ results_summary
   ++ insight_prompt_text_2)%string.

(** The answer of [_generate_sql_with_structured_output] when the guarded
    call fails. *)
Definition fallback_SQLQuery (e : exn) : SQLQuery :=
  mkSQLQuery "SELECT * FROM tiendas LIMIT 10"
             ("Error in SQL generation: " ++ exn_str e)
             "Unable to generate proper query"
             0.1%float
             true.

Definition fallback_DataInsight : DataInsight :=
  mkDataInsight "Unable to generate insights" [] [] [].

Definition trivial_patterns : list string :=
  ["chatgpt"; "gpt"; "openai"; "sos"; "eres"; "who are you"; "what are you";
   "hola"; "hello"; "hi"; "buenos dÃ­as"; "good morning"; "como estas";
   "how are you"; "gracias"; "thank you"; "adiÃ³s"; "goodbye"]%string.

Definition identity_insight : DataInsight :=
  mkDataInsight
    "Soy un asistente de anÃ¡lisis de datos para Gatorade, basado en IA pero especializado en el anÃ¡lisis de experimentos y mÃ©tricas de negocio."
    ["Capacidad de anÃ¡lisis de datos de tiendas"; "Memoria conversacional"; "Consultas SQL automÃ¡ticas"]
    ["Prueba preguntas como 'Â¿CuÃ¡ntas tiendas tenemos por regiÃ³n?'";
     "Explora los experimentos con 'Â¿QuÃ© experimentos se han realizado?'"]
    ["Â¿QuÃ© puedes hacer?"; "Â¿QuÃ© datos tienes disponibles?"; "Â¿CÃ³mo puedo analizar experimentos?"]%string.

Definition greeting_insight : DataInsight :=
  mkDataInsight
    "Â¡Hola! Soy tu asistente de anÃ¡lisis de datos para Gatorade. Estoy aquÃ­ para ayudarte a analizar experimentos, mÃ©tricas de tiendas y datos de negocio."
    ["200 tiendas en la base de datos"; "AnÃ¡lisis por regiones disponible"; "Datos de experimentos A/B"]
    ["Empieza con una pregunta sobre las tiendas"; "Explora los experimentos realizados"; "Analiza mÃ©tricas por regiÃ³n"]
    ["Â¿CuÃ¡ntas tiendas tenemos?"; "Â¿QuÃ© experimentos hay disponibles?"; "Â¿CÃ³mo estÃ¡ el performance por regiÃ³n?"]%string.

(** The answer text of step 5 *)
Definition answer_of (insights : DataInsight) (sql_query : SQLQuery) : string :=
  (key_finding insights ++ nl ++ nl ++ "**Business Context:** "
   ++ business_context sql_query)%string.

(** The row substituted when no SQL is executed. *)
Definition placeholder_row : list (string * value) :=
  [("message", VStr "No SQL execution required"); ("type", VStr "meta_response")]%string.

(** [timedelta.total_seconds()] of a difference in microseconds *)
Definition total_seconds (micros : Z) : float :=
  (PyFloat.of_Z micros / 1000000)%float.

Definition insights_value (i : DataInsight) : value :=
  VDict [("key_finding", VStr (key_finding i));
         ("supporting_metrics", VList (map VStr (supporting_metrics i)));
         ("recommendations", VList (map VStr (recommendations i)));
         ("related_questions", VList (map VStr (related_questions i)))]%string.

(* ====================================================================== *)
(** ** The chatbot: state, effects and methods *)

Declare Scope py_scope.
Delimit Scope py_scope with py.

Section Chatbot.

Context {W : Type} {dim : nat}.
Variable svc : Services W dim.
Variable cfg : Config dim.

(** What one chatbot instance holds, with the world outside it and the
    log of the external calls made so far (oldest first). *)
Record State : Type := mkState {
  world : W;
  cache : list (string * CacheEntry dim);             (* SemanticCache.cache *)
  sessions : gmap string (list ConversationTurn);     (* SessionMemory.sessions *)
  calls : list Call
}.

Definition M (A : Type) : Type := State -> res A * State.

Definition ret {A : Type} (a : A) : M A := fun st => (Ok a, st).

Definition bind {A B : Type} (m : M A) (k : A -> M B) : M B := fun st =>
  match m st with
  | (Ok a, st') => k a st'
  | (Raise e, st') => (Raise e, st')
  end.

(** [try: m except Exception as e: h e] *)
Definition try_except {A : Type} (m : M A) (h : exn -> M A) : M A := fun st =>
  match m st with
  | (Ok a, st') => (Ok a, st')
  | (Raise e, st') => h e st'
  end.

Definition lift {A : Type} (r : res A) : M A := fun st => (r, st).

Local Notation "x <- m ;; k" := (bind m (fun x => k))
  (at level 100, m at next level, right associativity) : py_scope.
Local Notation "m ;;; k" := (bind m (fun _ => k))
  (at level 100, right associativity) : py_scope.
Local Open Scope py_scope.

(** A computation leaves an observation [f] of the state as it was,
    whether it returns or raises. *)
Definition preserves {A X : Type} (f : State -> X) (m : M A) : Prop :=
  forall st, f (snd (m st)) = f st.

(** *** The services, logged *)

Definition after_call (c : Call) (w : W) (st : State) : State :=
  mkState w (cache st) (sessions st) (calls st ++ [c]).

Definition call_encode (text : string) : M (vec float dim) := fun st =>
  let '(r, w) := svc_encode svc text (world st) in
  (r, after_call (CallEncode text) w st).

Definition call_chat (schema_name prompt : string) (temp : float) : M string := fun st =>
  let '(r, w) := svc_chat svc schema_name prompt temp (world st) in
  (r, after_call (CallChat schema_name prompt temp) w st).

Definition call_execute (sql_text : string)
  : M (list string * list (list value)) := fun st =>
  let '(r, w) := svc_execute svc sql_text (world st) in
  (r, after_call (CallExecute sql_text) w st).

Definition call_now : M Z := fun st =>
  let '(t, w) := svc_now svc (world st) in
  (Ok t, after_call CallNow w st).

Definition call_uuid4 : M string := fun st =>
  let '(u, w) := svc_uuid4 svc (world st) in
  (Ok u, after_call CallUuid w st).

Definition get_sessions : M (gmap string (list ConversationTurn)) :=
  fun st => (Ok (sessions st), st).

Definition set_sessions (ss : gmap string (list ConversationTurn)) : M unit :=
  fun st => (Ok tt, mkState (world st) (cache st) ss (calls st)).

Definition get_cache : M (list (string * CacheEntry dim)) :=
  fun st => (Ok (cache st), st).

Definition set_cache (c : list (string * CacheEntry dim)) : M unit :=
  fun st => (Ok tt, mkState (world st) c (sessions st) (calls st)).

(** [d[k]] on a response dictionary *)
Definition getitem (d : gmap string value) (k : string) : M value :=
  match d !! k with
  | Some v => ret v
  | None => lift (Raise (KeyError k))
  end.

(** *** SessionMemory *)

(** [SessionMemory.add_turn] *)
Definition add_turn (session_id question answer sql_used : string) : M unit :=
  ss <- get_sessions ;;
  let existing := default [] (ss !! session_id) in
  now <- call_now ;;
  let turn := mkConversationTurn question answer sql_used now session_id in
  let appended := existing ++ [turn] in
  set_sessions
    (<[session_id :=
         if Z.of_nat (length appended) >? max_turns cfg
         then slice_from (- max_turns cfg) appended
         else appended]> ss).

(** *** SemanticCache *)

(** [SemanticCache.get_similar_query] *)
Definition get_similar_query (query : string) : M (option (CacheEntry dim)) :=
  query_embedding <- call_encode query ;;
  c <- get_cache ;;
  match scan_cache (numpy svc) (similarity_threshold cfg) query_embedding
                   (PyDict.values c) 0%nat None 0%float with
  | Some (i, best_match) =>
      set_cache (alter (fun kv => (fst kv, bump_hit (snd kv))) i c) ;;;
      ret (Some (bump_hit best_match))
  | None => ret None
  end.

(** [SemanticCache.store_query] *)
Definition store_query (query sql_text : string) (response : gmap string value)
  : M unit :=
  let key := _get_query_key query in
  embedding <- call_encode query ;;
  now <- call_now ;;
  c <- get_cache ;;
  set_cache (PyDict.set key (mkCacheEntry embedding sql_text response now 0) c).

(** The entry a successful [store_query] writes: the embedding and the
    clock reading of this call, a hit count of 0. *)
Definition stored_entry (query sql_text : string) (response : gmap string value)
    (st : State) : option (CacheEntry dim) :=
  match svc_encode svc query (world st) with
  | (Ok embedding, w) =>
      Some (mkCacheEntry embedding sql_text response (fst (svc_now svc w)) 0)
  | (Raise _, _) => None
  end.

(** The SQL texts the query engine has been handed so far. *)
Definition sent_sql (st : State) : list string := executes (calls st).

(** *** BusinessIntelligence *)

(** [BusinessIntelligence.find_relevant_concept] *)
Definition find_relevant_concept (query : string) : M (option BusinessConcept) :=
  let query_lower := PyStr.lower query in
  match List.find (fun concept => PyStr.any_in (context_keywords concept) query_lower)
                  concepts with
  | Some concept => ret (Some concept)
  | None =>
      query_embedding <- call_encode query ;;
      ret (scan_concepts (numpy svc) (concept_embeddings cfg) query_embedding concepts
                         None 0%float)
  end.

(** *** ModernDataChatbot *)

(** The prompt of [_generate_sql_with_structured_output]; [if session_id:]
    holds for a non-empty text. *)
Definition generation_prompt (question context : string) (session_id : option string)
    (relevant_concept : option BusinessConcept)
    (ss : gmap string (list ConversationTurn)) : string :=
  let concept_context := concept_context_of relevant_concept in
  let '(conversation_context, follow_up_instruction) :=
    match session_id with
    | Some sid =>
        if String.eqb sid "" then (""%string, ""%string)
        else (get_conversation_context ss sid,
              follow_up_instruction_of (validate_follow_up_question ss sid question))
    | None => (""%string, ""%string)
    end in
  sql_prompt (schema_context cfg) concept_context conversation_context
             follow_up_instruction context question.

(** [_generate_sql_with_structured_output(question, context, session_id)] *)
Definition _generate_sql_with_structured_output
    (question context : string) (session_id : option string) : M SQLQuery :=
  relevant_concept <- find_relevant_concept question ;;
  ss <- get_sessions ;;
  let prompt := generation_prompt question context session_id relevant_concept ss in
  try_except
    (content <- call_chat "sql_query" prompt (temperature cfg) ;;
     lift (decode_SQLQuery svc content))
    (fun e => ret (fallback_SQLQuery e)).

(** [_execute_query] *)
Definition _execute_query (sql_text : string) : M (list (list (string * value))) :=
  try_except
    (r <- call_execute sql_text ;;
     ret (map (fun row => PyDict.of_zip (fst r) row) (snd r)))
    (fun e => ret [[("error"%string, VStr (exn_str e))]]).

(** [_generate_insights] *)
Definition _generate_insights (question : string)
    (results_rows : list (list (string * value))) : M DataInsight :=
  let q := PyStr.lower question in
  let is_trivial := existsb (fun p => PyStr.contains (PyStr.lower p) q) trivial_patterns in
  let llm :=
    results_summary <- lift (json_dumps svc (VList (map VDict (slice_to 5 results_rows)))) ;;
    try_except
      (content <- call_chat "data_insight" (insight_prompt question results_summary)
                            (py_min (temperature cfg + 0.2) 0.5)%float ;;
       lift (decode_DataInsight svc content))
      (fun _ => ret fallback_DataInsight) in
  if is_trivial then
    if PyStr.contains "chatgpt" q || PyStr.contains "gpt" q then ret identity_insight
    else if PyStr.any_in ["hola"; "hello"; "hi"; "buenos dÃ­as"]%string q
         then ret greeting_insight
         else llm
  else llm.

(** [response["session_id"] = session_id] reaches the dictionary that
    [store_query] put in the cache: it is the same object. *)
Definition set_stored_item (key k : string) (v : value) : M unit :=
  c <- get_cache ;;
  match PyDict.get key c with
  | Some e =>
      set_cache (PyDict.set key
                   (mkCacheEntry (query_embedding e) (sql_query e)
                                 (<[k := v]> (results e))
                                 (entry_timestamp e) (hit_count e)) c)
  | None => ret tt
  end.

(** The dictionary [ask] returns on a cache hit. *)
Definition cached_response (question : string) (cached_result : CacheEntry dim)
    (answer data insights : value) (execution_time : float) : gmap string value :=
  list_to_map
    [("question", VStr question);
     ("answer", answer);
     ("data", data);
     ("insights", insights);
     ("sql_used", VStr (sql_query cached_result));
     ("cached", VBool true);
     ("execution_time", VFloat execution_time)]%string.

(** The dictionary [ask] builds in step 5. *)
Definition built_response (question answer : string) (sql_query : SQLQuery)
    (results_rows : list (list (string * value))) (insights : DataInsight)
    (execution_time : float) : gmap string value :=
  list_to_map
    [("question", VStr question);
     ("answer", VStr answer);
     ("data", VList (map VDict results_rows));
     ("insights", insights_value insights);
     ("sql_used", VStr (sql sql_query));
     ("sql_executed", VBool (requires_execution sql_query));
     ("reasoning", VStr (reasoning sql_query));
     ("confidence", VFloat (confidence sql_query));
     ("cached", VBool false);
     ("execution_time", VFloat execution_time)]%string.

(** [ask], the branch [if cached_result:] *)
Definition ask_cached (question : string) (start_time : Z)
    (cached_result : CacheEntry dim) : M (gmap string value) :=
  now <- call_now ;;
  let execution_time := total_seconds (now - start_time) in
  answer <- getitem (results cached_result) "answer" ;;
  data <- getitem (results cached_result) "data" ;;
  insights <- getitem (results cached_result) "insights" ;;
  ret (cached_response question cached_result answer data insights execution_time).

(** [ask], steps 3 to 8, once the SQL is generated *)
Definition ask_generated (question : string) (start_time : Z) (session_id : string)
    (sql_query : SQLQuery) : M (gmap string value) :=
  results_rows <- (if requires_execution sql_query
                   then _execute_query (sql sql_query)
                   else ret [placeholder_row]) ;;
  insights <- _generate_insights question results_rows ;;
  let answer := answer_of insights sql_query in
  now <- call_now ;;
  let response := built_response question answer sql_query results_rows insights
                                 (total_seconds (now - start_time)) in
  store_query question (sql sql_query) response ;;;
  add_turn session_id question answer (sql sql_query) ;;;
  set_stored_item (_get_query_key question) "session_id" (VStr session_id) ;;;
  ret (<["session_id"%string := VStr session_id]> response).

(** [ask], steps 2 to 8, after a cache miss *)
Definition ask_uncached (question : string) (start_time : Z) (session_id : string)
  : M (gmap string value) :=
  sql_query <- _generate_sql_with_structured_output question "" (Some session_id) ;;
  ask_generated question start_time session_id sql_query.

(** [ask(question, session_id)]. Step 0 computes the follow-up validation
    only to print it in debug mode; the [print] is left out. *)
Definition ask (question : string) (session_id : option string)
  : M (gmap string value) :=
  start_time <- call_now ;;
  session_id <- match session_id with
                | None => call_uuid4
                | Some s => ret s
                end ;;
  ss <- get_sessions ;;
  let validation := validate_follow_up_question ss session_id question in
  cached_result <- get_similar_query question ;;
  match cached_result with
  | Some cached_result => ask_cached question start_time cached_result
  | None => ask_uncached question start_time session_id
  end.

(** The session [ask] works for: the one given, or a fresh uuid. *)
Definition session_of (session_id : option string) (st : State) : string :=
  match session_id with
  | Some s => s
  | None => fst (svc_uuid4 svc (snd (svc_now svc (world st))))
  end.

(** The world in which [ask] makes the embedding call of the lookup. *)
Definition world_before_lookup (session_id : option string) (st : State) : W :=
  let w0 := snd (svc_now svc (world st)) in
  match session_id with
  | None => snd (svc_uuid4 svc w0)
  | Some _ => w0
  end.

(** The state in which [ask] starts the lookup. *)
Definition state_before_lookup (session_id : option string) (st : State) : State :=
  mkState (world_before_lookup session_id st) (cache st) (sessions st)
          (calls st ++ CallNow :: match session_id with
                                  | None => [CallUuid]
                                  | Some _ => []
                                  end).

(** *** Runs of several calls *)

(** The arguments of one [add_turn] call. *)
Record TurnArgs : Type := mkTurnArgs {
  ta_session_id : string;
  ta_question : string;
  ta_answer : string;
  ta_sql_used : string
}.

Definition turn_args (t : ConversationTurn) : TurnArgs :=
  mkTurnArgs (turn_session_id t) (turn_question t) (turn_answer t) (turn_sql_used t).

(** The state after a sequence of [add_turn] calls, in arrival order. *)
Fixpoint add_turns (cs : list TurnArgs) (st : State) : State :=
  match cs with
  | [] => st
  | c :: rest =>
      add_turns rest
        (snd (add_turn (ta_session_id c) (ta_question c) (ta_answer c) (ta_sql_used c) st))
  end.

(** The turns stored for a session ([[]] when it has none). *)
Definition turns_of (st : State) (session_id : string) : list ConversationTurn :=
  default [] (sessions st !! session_id).

End Chatbot.

(* ====================================================================== *)
(** ** Concrete collaborators, for running the pipeline *)

Module Demo.

Local Open Scope string_scope.

(** A world that is only a clock: every reading advances it. The other
    services are given as functions of their argument. *)
Definition services {dim : nat}
    (enc : string -> res (vec float dim))
    (chat : string -> string -> res string)
    (exec : string -> res (list string * list (list value)))
    (dec_sql : string -> res SQLQuery)
    (dec_insight : string -> res DataInsight) : Services Z dim :=
  mkServices Z dim
    (fun text w => (enc text, w))
    (fun schema_name prompt _ w => (chat schema_name prompt, w))
    (fun sql_text w => (exec sql_text, w))
    (fun w => (w, w + 1))
    (fun w => ("00000000-0000-4000-8000-000000000000", w))
    dec_sql
    dec_insight
    (fun _ => Ok "[...]")
    (fun _ => Ok tt)
    (numpy64 dim).

Definition config {dim : nat} (threshold : float) (turns : Z) : Config dim :=
  mkConfig dim threshold turns 0.1%float false "DATABASE SCHEMA: tiendas"
           (fun _ => vreplicate dim 0%float).

Definition empty_state {dim : nat} : @State Z dim := mkState 0 [] ∅ [].

Definition unavailable {A : Type} (what : string) : res A :=
  Raise (Exception "ConnectionError" (what ++ " unavailable")).

(** A language model that answers the generation request with [q] and the
    insight request with [i]. *)
Definition chat_ok (schema_name _ : string) : res string := Ok schema_name.
Definition dec_sql_const (q : SQLQuery) (_ : string) : res SQLQuery := Ok q.
Definition dec_insight_const (i : DataInsight) (_ : string) : res DataInsight := Ok i.

Definition exec_one_row (_ : string) : res (list string * list (list value)) :=
  Ok (["n"], [[VInt 200]]).

Definition an_insight : DataInsight :=
  mkDataInsight "Revenue is highest in the north" ["north: 10"] ["invest"] ["why?"].

Definition a_query (conf : float) (exec : bool) : SQLQuery :=
  mkSQLQuery "SELECT region, SUM(revenue) FROM tiendas GROUP BY region"
             "groups revenue by region" "regional revenue" conf exec.

(** An embedding model that knows the listed texts and fails on others. *)
Definition enc_table {dim : nat} (table : list (string * vec float dim))
    (text : string) : res (vec float dim) :=
  match PyDict.get text table with
  | Some v => Ok v
  | None => unavailable "embedding model"
  end.

Definition q_revenue : string := "revenue by region".
Definition q_revenue_again : string := "Revenue by region?".
Definition q_follow_up : string := "y esa categoria de producto?".

(** Two directions at a right angle, and a very short vector. *)
Definition east : vec float 2 := [# 1%float; 0%float].
Definition north : vec float 2 := [# 0%float; 1%float].
Definition tiny : vec float 1 := [# 0x1p-60%float].

Definition embeddings2 : list (string * vec float 2) :=
  [(q_revenue, east); (q_revenue_again, east); (q_follow_up, north)].

(** Everything answers. *)
Definition svc_up (q : SQLQuery) : Services Z 2 :=
  services (enc_table embeddings2) chat_ok exec_one_row
           (dec_sql_const q) (dec_insight_const an_insight).

(** The language model is down. *)
Definition svc_llm_down : Services Z 2 :=
  services (enc_table embeddings2) (fun _ _ => unavailable "language model")
           exec_one_row (dec_sql_const (a_query 1 true)) (dec_insight_const an_insight).

(** The embedding model is down. *)
Definition svc_enc_down : Services Z 2 :=
  services (fun _ => unavailable "embedding model") chat_ok exec_one_row
           (dec_sql_const (a_query 1 true)) (dec_insight_const an_insight).

(** The embedding model returns very short vectors. *)
Definition svc_tiny : Services Z 1 :=
  services (fun _ => Ok tiny) chat_ok exec_one_row
           (dec_sql_const (a_query 1 true)) (dec_insight_const an_insight).

(** The embedding model returns the zero vector. *)
Definition svc_zero : Services Z 2 :=
  services (fun _ => Ok [# 0%float; 0%float]) chat_ok exec_one_row
           (dec_sql_const (a_query 1 true)) (dec_insight_const an_insight).

Definition cfg_default : Config 2 := config 0.85%float 10.

(** A field of what [ask] returned, when it returned. *)
Definition field {S : Type} (k : string) (out : res (gmap string value) * S)
  : option value :=
  match fst out with
  | Ok r => r !! k
  | Raise _ => None
  end.

(** The response [ask] returned (empty when it raised). *)
Definition response_of {S : Type} (out : res (gmap string value) * S)
  : gmap string value :=
  match fst out with
  | Ok r => r
  | Raise _ => ∅
  end.

(** The hit count of the entry a lookup returned. *)
Definition hit_count_of {S : Type} {dim : nat}
    (out : res (option (CacheEntry dim)) * S) : option Z :=
  match fst out with
  | Ok (Some e) => Some (hit_count e)
  | _ => None
  end.

(** The state after one question was answered with everything up. *)
Definition after_revenue (q : SQLQuery) : @State Z 2 :=
  snd (ask (svc_up q) cfg_default q_revenue (Some "s1") empty_state).

Definition three_turns : list TurnArgs :=
  [mkTurnArgs "s1" "q1" "a1" "sql1";
   mkTurnArgs "s1" "q2" "a2" "sql2";
   mkTurnArgs "s1" "q3" "a3" "sql3"].

End Demo.

(* ====================================================================== *)
(** ** The lookup contract, in the words of the specification *)

(** The similarity of a stored entry to the embedded question is strictly
    above the threshold, as numpy computes the one and compares the two. *)
Definition qualifies {dim : nat} (np : Numpy dim) (threshold : float) (q : vec float dim)
    (e : CacheEntry dim) : Prop :=
  PyFloat.gt (cosine_similarity np q (query_embedding e)) (np_float np threshold) = true.

(** [e], at position [i] of the iteration, is the hit: it qualifies, no
    qualifying entry has a higher similarity, and every qualifying entry met
    before it has a strictly lower one (first-encountered among ties). *)
Definition is_best_match {dim : nat} (np : Numpy dim) (threshold : float)
    (q : vec float dim) (entries : list (CacheEntry dim)) (i : nat) (e : CacheEntry dim)
  : Prop :=
  entries !! i = Some e
  /\ qualifies np threshold q e
  /\ (forall (j : nat) (e' : CacheEntry dim),
        entries !! j = Some e' -> qualifies np threshold q e' ->
        PyFloat.ge (cosine_similarity np q (query_embedding e))
                   (cosine_similarity np q (query_embedding e')) = true)
  /\ (forall (j : nat) (e' : CacheEntry dim),
        (j < i)%nat -> entries !! j = Some e' -> qualifies np threshold q e' ->
        PyFloat.gt (cosine_similarity np q (query_embedding e))
                   (cosine_similarity np q (query_embedding e')) = true).

(** What the loop of the lookup knows after the entries [pre]: nothing
    qualified so far, or the best match so far is the hit among [pre]. *)
Definition scan_inv {dim : nat} (np : Numpy dim) (threshold : float) (q : vec float dim)
    (pre : list (CacheEntry dim))
    (best : option (nat * CacheEntry dim)) (bs : float) : Prop :=
  match best with
  | None => bs = 0%float
            /\ forall e, e ∈ pre ->
                 PyFloat.gt (cosine_similarity np q (query_embedding e))
                            (np_float np threshold) = false
  | Some (i, e) => bs = cosine_similarity np q (query_embedding e)
                   /\ is_best_match np threshold q pre i e
  end.


(* ====================================================================== *)
(** ** Contracts of the methods *)

Section Contracts.

Context {W : Type} {dim : nat}.

(** Every exception [m] raises satisfies [P]. *)
Definition raises_only {A : Type} (P : exn -> Prop) (m : @M W dim A) : Prop :=
  forall st e, fst (m st) = Raise e -> P e.

(** [m] keeps the property [I] of the state, whether it returns or raises. *)
Definition keeps {A : Type} (I : @State W dim -> Prop) (m : @M W dim A) : Prop :=
  forall st, I st -> I (snd (m st)).

(** A stored response holds what the cache-hit branch of [ask] reads. *)
Definition ready (r : gmap string value) : Prop :=
  is_Some (r !! "answer"%string)
  /\ is_Some (r !! "data"%string)
  /\ is_Some (r !! "insights"%string).

End Contracts.

(* ====================================================================== *)
(** ** Reports and runs of several questions *)

(** [a / b] on Python ints: the quotient as a float (the floats of the two
    ints divided, which is Python's result while both are below 2^53). *)
Definition true_div (a b : Z) : float := (PyFloat.of_Z a / PyFloat.of_Z b)%float.

(** [sum(xs)] on ints *)
Definition py_sum (xs : list Z) : Z := fold_left Z.add xs 0.

Section Reports.

Context {W : Type} {dim : nat}.
Variable svc : Services W dim.
Variable cfg : Config dim.

(** [datetime.isoformat()] of a clock reading *)
Variable isoformat : Z -> string.

(** [ModernDataChatbot.get_cache_stats] *)
Definition get_cache_stats (st : @State W dim) : gmap string value :=
  let total_entries := Z.of_nat (length (cache st)) in
  let total_hits := py_sum (hit_count <$> PyDict.values (cache st)) in
  list_to_map
    [("total_cached_queries", VInt total_entries);
     ("total_cache_hits", VInt total_hits);
     ("cache_hit_rate",
      VFloat (true_div total_hits (Z.max 1 (total_entries + total_hits)) * 100)%float)]%string.

(** [ModernDataChatbot.get_session_stats] *)
Definition get_session_stats (st : @State W dim) : gmap string value :=
  let total_sessions := Z.of_nat (size (sessions st)) in
  let total_turns :=
    py_sum ((fun kv => Z.of_nat (length (snd kv))) <$> map_to_list (sessions st)) in
  list_to_map
    [("active_sessions", VInt total_sessions);
     ("total_conversation_turns", VInt total_turns);
     ("avg_turns_per_session", VFloat (true_div total_turns (Z.max 1 total_sessions)))]%string.

(** [ModernDataChatbot.get_session_history] *)
Definition get_session_history (st : @State W dim) (session_id : string)
  : list (list (string * value)) :=
  match sessions st !! session_id with
  | None => []
  | Some turns =>
      map (fun turn =>
             [("question", VStr (turn_question turn));
              ("answer", VStr (turn_answer turn));
              ("sql_used", VStr (turn_sql_used turn));
              ("timestamp", VStr (isoformat (turn_timestamp turn)))]%string)
          turns
  end.

(** The state after a sequence of [ask] calls, whatever each returned or
    raised. *)
Fixpoint asks (qs : list (string * option string)) (st : State) : State :=
  match qs with
  | [] => st
  | q :: rest => asks rest (snd (ask svc cfg (fst q) (snd q) st))
  end.

(** Every stored response is ready for the cache-hit branch of [ask]. *)
Definition hit_ready (st : @State W dim) : Prop :=
  Forall (fun kv => ready (results (snd kv))) (cache st).

(** The embedding model answers every request. *)
Definition encode_answers : Prop :=
  forall text w, exists v w', svc_encode svc text w = (Ok v, w').

(** The exception is one the embedding model raised for [text]. *)
Definition from_encoder (text : string) (e : exn) : Prop :=
  exists w w', svc_encode svc text w = (Raise e, w').

(** [json.dumps] serializes every value. *)
Definition dumps_answers : Prop :=
  forall v, exists text, json_dumps svc v = Ok text.

(** The exception is one [json.dumps] raised. *)
Definition from_dumps (e : exn) : Prop :=
  exists v, json_dumps svc v = Raise e.

(** The exceptions that reach the caller of [ask] for a question. *)
Definition from_encoders (question : string) (e : exn) : Prop :=
  from_encoder question e \/ from_dumps e.

(** Every question of the list is an ASCII text. *)
Definition ascii_questions {S : Type} (qs : list (string * S)) : Prop :=
  Forall (fun q => PyStr.is_ascii (fst q) = true) qs.

End Reports.

(* ====================================================================== *)
(** ** The concept matcher, in terms of the cache scan *)

(** A concept with its stored embedding, as an entry the cache scan can
    read. *)
Definition concept_entry {dim : nat} (embeddings : string -> vec float dim)
    (c : BusinessConcept) : CacheEntry dim :=
  mkCacheEntry (embeddings (natural_term c)) "" ∅ 0 0.

(** ** White space *)

(** A text of ASCII white space only. *)
Fixpoint blank (s : string) : bool :=
  match s with
  | EmptyString => true
  | String c s' => PyStr.is_space c && blank s'
  end.

(** ** Bounded memory *)

(** Every session holds at most [max_turns] turns. *)
Definition sessions_bounded {W : Type} {dim : nat} (cfg : Config dim)
    (st : @State W dim) : Prop :=
  forall sid turns, sessions st !! sid = Some turns ->
                    Z.of_nat (length turns) <= max_turns cfg.

(** ** The HTTP handler of the chat messages ([backend/app.py]) *)

(** An entry of [active_sessions]. *)
Record SessionInfo : Type := mkSessionInfo {
  user_email : string;
  created_at : Z;
  last_activity : Z
}.

(** [d.get(k, default)] on a response dictionary *)
Definition get_or (d : gmap string value) (k : string) (dflt : value) : value :=
  default dflt (d !! k).

(** Whether [f"{v:.2f}"] can be formatted. An int is converted to a float
    first, which overflows from 2^1024 - 2^970 on. *)
Definition format_2f (v : value) : res unit :=
  match v with
  | VFloat _ | VBool _ => Ok tt
  | VInt z =>
      if Z.abs z <? 2 ^ 1024 - 2 ^ 970 then Ok tt
      else Raise (Exception "OverflowError" "int too large to convert to float")
  | VStr _ =>
      Raise (Exception "ValueError" "Unknown format code 'f' for object of type 'str'")
  | VNone =>
      Raise (Exception "TypeError" "unsupported format string passed to NoneType.__format__")
  | VList _ =>
      Raise (Exception "TypeError" "unsupported format string passed to list.__format__")
  | VDict _ =>
      Raise (Exception "TypeError" "unsupported format string passed to dict.__format__")
  end.

(** The body of an error answer *)
Definition error_body (message : string) : value :=
  VDict [("success", VBool false); ("error", VStr message)]%string.

(** The body of the answer to a processed message *)
Definition chat_response (response : gmap string value) (session_id : string)
  : res value :=
  match response !! "answer"%string with
  | None => Raise (KeyError "answer")
  | Some answer =>
      Ok (VDict
            [("success", VBool true);
             ("response",
              VDict [("text", answer);
                     ("data", get_or response "data" (VList []));
                     ("sql_used", get_or response "sql_used" (VStr ""));
                     ("sql_executed", get_or response "sql_executed" (VBool true));
                     ("confidence", get_or response "confidence" (VFloat 0.5));
                     ("execution_time", get_or response "execution_time" (VInt 0));
                     ("cached", get_or response "cached" (VBool false));
                     ("insights", get_or response "insights" (VDict []));
                     ("session_id", VStr session_id)])]%string)
  end.

Section Handler.

Context {W : Type} {dim : nat}.
Variable svc : Services W dim.
Variable cfg : Config dim.

(** The module state of the backend: the chatbot, once initialized, and
    the sessions started. *)
Record App : Type := mkApp {
  chatbot : option (@State W dim);
  active_sessions : gmap string SessionInfo
}.

(** [chat_message], for a JSON object whose session_id and message, when
    present, are strings: the body and the status of the answer. Of the log
    lines only the formatting of the execution time is kept, which can
    raise; the clock reading made for a started session moves the world and
    is not added to the call log of the chatbot. [jsonify] of the answer
    stands inside the [try]; the error bodies hold a boolean and a text,
    which [jsonify] serializes. *)
Definition chat_message (session_id message : option string) (app : App)
  : (value * Z) * App :=
  let message := PyStr.strip (default ""%string message) in
  let session_id := default ""%string session_id in
  if String.eqb session_id "" || String.eqb message "" then
    ((error_body "Missing session_id or message", 400), app)
  else
    match chatbot app with
    | None => ((error_body "Chatbot not initialized", 500), app)
    | Some bot =>
        let '(bot, started) :=
          match active_sessions app !! session_id with
          | Some info =>
              let '(now, w) := svc_now svc (world bot) in
              (mkState w (cache bot) (sessions bot) (calls bot),
               <[session_id := mkSessionInfo (user_email info) (created_at info) now]>
                 (active_sessions app))
          | None => (bot, active_sessions app)
          end in
        let '(out, bot) := ask svc cfg message (Some session_id) bot in
        let app := mkApp (Some bot) started in
        match out with
        | Raise e => ((error_body (exn_str e), 500), app)
        | Ok response =>
            match chat_response response session_id with
            | Raise e => ((error_body (exn_str e), 500), app)
            | Ok body =>
                match format_2f (get_or response "execution_time" (VInt 0)) with
                | Raise e => ((error_body (exn_str e), 500), app)
                | Ok _ =>
                    match jsonify svc body with
                    | Raise e => ((error_body (exn_str e), 500), app)
                    | Ok _ => ((body, 200), app)
                    end
                end
            end
        end
    end.

(** The chatbot as [chat_message] hands it to [ask]: after the clock
    reading made for a session that was started. *)
Definition bot_at_ask (app : App) (session_id : string) (bot : @State W dim) : State :=
  match active_sessions app !! session_id with
  | Some _ => mkState (snd (svc_now svc (world bot))) (cache bot) (sessions bot) (calls bot)
  | None => bot
  end.

End Handler.

(** A field of the response object in the body of an answer. *)
Definition response_field (k : string) (body : value) : option value :=
  match body with
  | VDict d =>
      match PyDict.get "response" d with
      | Some (VDict r) => PyDict.get k r
      | _ => None
      end
  | _ => None
  end.

(** The error text in the body of an answer. *)
Definition error_of (body : value) : option value :=
  match body with
  | VDict d => PyDict.get "error" d
  | _ => None
  end.

(* ====================================================================== *)
(** ** The first version of the chatbot ([dlai/modern_chatbot.py])

    The same semantic cache and query execution, no session memory: the
    concept matcher looks at the keywords only, the generated query has no
    requires_execution flag and is always executed. *)

Module Basic.

(** [SQLQuery] of this version *)
Record SQLQuery : Type := mkSQLQuery {
  sql : string;
  reasoning : string;
  business_context : string;
  confidence : float
}.

(** [BusinessIntelligence._initialize_business_concepts] *)
Definition concepts : list BusinessConcept :=
  [mkBusinessConcept "performance por región"
      "SELECT region, SUM(revenue) as total_revenue, AVG(conversion_rate) as avg_conversion FROM {table} GROUP BY region"
      ["region"; "revenue"; "conversion_rate"]
      ["región"; "area"; "zona"; "geographical"; "performance regional"];
    mkBusinessConcept "mejor tipo de tienda"
      "SELECT tipo_tienda, COUNT(*) as tiendas, AVG(revenue) as avg_revenue FROM {table} GROUP BY tipo_tienda ORDER BY avg_revenue DESC"
      ["tipo_tienda"; "revenue"]
      ["tipo"; "formato"; "mall"; "street"; "outlet"; "store type"];
    mkBusinessConcept "impacto del experimento"
      "SELECT experimento, AVG(conversion_rate) as avg_conversion, AVG(revenue) as avg_revenue FROM {table} GROUP BY experimento"
      ["experimento"; "conversion_rate"; "revenue"]
      ["a/b test"; "experiment"; "control"; "test"; "treatment"];
    mkBusinessConcept "tiendas con mejor conversión"
      "SELECT tienda_id, tipo_tienda, region, conversion_rate, revenue FROM {table} WHERE conversion_rate > (SELECT AVG(conversion_rate) FROM {table}) ORDER BY conversion_rate DESC"
      ["tienda_id"; "tipo_tienda"; "region"; "conversion_rate"; "revenue"]
      ["top performers"; "best stores"; "high conversion"; "mejores tiendas"]
  ]%string.

(** [BusinessIntelligence.find_relevant_concept] *)
Definition find_relevant_concept (query : string) : option BusinessConcept :=
  let query_lower := PyStr.lower query in
  List.find (fun concept => PyStr.any_in (context_keywords concept) query_lower) concepts.

(** The fixed text of the two prompts, between their holes. *)
Definition sql_prompt_text_0 : string :=
  (nl
  ++ "        You are a SQL expert for business analytics. Generate a SQL query to answer the question."
  ++ nl ++ "        " ++ nl ++ "        ")%string.

Definition sql_prompt_text_1 : string :=
  (nl ++ "        ")%string.

Definition sql_prompt_text_2 : string :=
  (nl ++ "        ")%string.

Definition sql_prompt_text_3 : string :=
  (nl ++ "        " ++ nl ++ "        QUESTION: ")%string.

Definition sql_prompt_text_4 : string :=
  (nl ++ "        " ++ nl ++ "        REQUIREMENTS:" ++ nl
  ++ "        - Use available tables: tiendas, maestro_tiendas (if loaded)" ++ nl
  ++ "        - JOIN tables when business context requires store names or master data" ++ nl
  ++ "        - Generate clean SQL without markdown backticks" ++ nl
  ++ "        - Focus on business insights, not just raw data" ++ nl
  ++ "        - Use proper aggregations and filters" ++ nl
  ++ "        - Limit results to most relevant (TOP 10 unless specified)" ++ nl
  ++ "        - Example JOIN: SELECT t.*, m.nombre_tienda FROM tiendas t JOIN maestro_tiendas m ON t.tienda_id = m.tienda_id"
  ++ nl ++ "        " ++ nl
  ++ "        Return a structured response with SQL, reasoning, business context, and confidence."
  ++ nl ++ "        ")%string.

Definition insight_prompt_text_0 : string :=
  (nl ++ "        You are a business analyst. Generate insights from these query results." ++ nl
  ++ "        " ++ nl ++ "        ORIGINAL QUESTION: ")%string.

Definition insight_prompt_text_1 : string :=
  (nl ++ "        " ++ nl ++ "        QUERY RESULTS:" ++ nl ++ "        ")%string.

Definition insight_prompt_text_2 : string :=
  (nl ++ "        " ++ nl ++ "        Provide:" ++ nl
  ++ "        1. Key finding in business terms" ++ nl
  ++ "        2. Supporting metrics from the data" ++ nl
  ++ "        3. Actionable recommendations" ++ nl
  ++ "        4. Follow-up questions to explore" ++ nl ++ "        " ++ nl
  ++ "        Focus on business value and actionable insights." ++ nl ++ "        ")%string.

(** The prompt of the SQL generation *)
Definition sql_prompt (schema conceptc context question : string) : string :=
  (sql_prompt_text_0 ++ schema ++ sql_prompt_text_1 ++ conceptc
   ++ sql_prompt_text_2 ++ context ++ sql_prompt_text_3 ++ question
   ++ sql_prompt_text_4)%string.

(** The prompt of the insight synthesis *)
Definition insight_prompt (question results_summary : string) : string :=
  (insight_prompt_text_0 ++ question ++ insight_prompt_text_1 ++ results_summary
   ++ insight_prompt_text_2)%string.

Definition fallback_SQLQuery (e : exn) : SQLQuery :=
  mkSQLQuery "SELECT * FROM tiendas LIMIT 10"
             ("Error in SQL generation: " ++ exn_str e)
             "Unable to generate proper query"
             0.1%float.

(** The answer text of step 5 *)
Definition answer_of (insights : DataInsight) (sql_query : SQLQuery) : string :=
  (key_finding insights ++ nl ++ nl ++ "**Business Context:** "
   ++ business_context sql_query)%string.

(** The dictionary [ask] builds in step 5. *)
Definition built_response (question answer : string) (sql_query : SQLQuery)
    (results_rows : list (list (string * value))) (insights : DataInsight)
    (execution_time : float) : gmap string value :=
  list_to_map
    [("question", VStr question);
     ("answer", VStr answer);
     ("data", VList (map VDict results_rows));
     ("insights", insights_value insights);
     ("sql_used", VStr (sql sql_query));
     ("reasoning", VStr (reasoning sql_query));
     ("confidence", VFloat (confidence sql_query));
     ("cached", VBool false);
     ("execution_time", VFloat execution_time)]%string.

Section Chatbot.

Context {W : Type} {dim : nat}.
Variable svc : Services W dim.
Variable cfg : Config dim.

(** [SQLQuery( **json.loads(content))] for the class of this version *)
Variable decode_sql_query : string -> res SQLQuery.

(** [_generate_sql_with_structured_output(question, context)] *)
Definition _generate_sql_with_structured_output (question context : string)
  : @M W dim SQLQuery :=
  let relevant_concept := find_relevant_concept question in
  let prompt := sql_prompt (schema_context cfg) (concept_context_of relevant_concept)
                           context question in
  try_except
    (bind (call_chat svc "sql_query" prompt (temperature cfg))
          (fun content => lift (decode_sql_query content)))
    (fun e => ret (fallback_SQLQuery e)).

(** [_generate_insights] *)
Definition _generate_insights (question : string)
    (results_rows : list (list (string * value))) : @M W dim DataInsight :=
  bind (lift (json_dumps svc (VList (map VDict (slice_to 5 results_rows)))))
       (fun results_summary =>
  try_except
    (bind (call_chat svc "data_insight" (insight_prompt question results_summary)
                     (py_min (temperature cfg + 0.2) 0.5)%float)
          (fun content => lift (decode_DataInsight svc content)))
    (fun _ => ret fallback_DataInsight)).

(** [ask], steps 3 to 6, once the SQL is generated *)
Definition ask_generated (question : string) (start_time : Z) (sql_query : SQLQuery)
  : @M W dim (gmap string value) :=
  bind (_execute_query svc (sql sql_query)) (fun results_rows =>
  bind (_generate_insights question results_rows) (fun insights =>
  let answer := answer_of insights sql_query in
  bind (call_now svc) (fun now =>
  let response := built_response question answer sql_query results_rows insights
                                 (total_seconds (now - start_time)) in
  bind (store_query svc question (sql sql_query) response) (fun _ =>
  ret response)))).

(** [ask(question)] *)
Definition ask (question : string) : @M W dim (gmap string value) :=
  bind (call_now svc) (fun start_time =>
  bind (get_similar_query svc cfg question) (fun cached_result =>
  match cached_result with
  | Some cached_result => ask_cached svc question start_time cached_result
  | None =>
      bind (_generate_sql_with_structured_output question "") (fun sql_query =>
      ask_generated question start_time sql_query)
  end)).

(** The state after a sequence of [ask] calls, whatever each returned or
    raised. *)
Fixpoint asks (qs : list string) (st : @State W dim) : State :=
  match qs with
  | [] => st
  | q :: rest => asks rest (snd (ask q st))
  end.

End Chatbot.

End Basic.

(* ====================================================================== *)
(** ** Further concrete cases *)

Module Cases.


(** The same collaborators with other JSON encoders. *)
Definition with_json {W : Type} {dim : nat} (dumps : value -> res string)
    (to_json : value -> res unit) (svc : Services W dim) : Services W dim :=
  mkServices W dim (svc_encode svc) (svc_chat svc) (svc_execute svc) (svc_now svc)
             (svc_uuid4 svc) (decode_SQLQuery svc) (decode_DataInsight svc)
             dumps to_json (numpy svc).

Definition bad_keys : exn :=
  Exception "TypeError" "keys must be str, int, float, bool or None, not tuple".

(** The embedding model answers every request, [json.dumps] fails. *)
Definition svc_dumps_down : Services Z 2 :=
  with_json (fun _ => Raise bad_keys) (fun _ => Ok tt) Demo.svc_zero.


Local Open Scope string_scope.

Definition q_which : string := "Which region has the highest revenue?".

(** Two questions asked in one session, with everything up. *)
Definition two_questions : list (string * option string) :=
  [(Demo.q_revenue, Some "s1"); (Demo.q_follow_up, Some "s1")].

Definition turn (n : Z) : ConversationTurn :=
  mkConversationTurn ("q" ++ pretty n) ("a" ++ pretty n) ("sql" ++ pretty n) n "s1".

Definition five_turns : gmap string (list ConversationTurn) :=
  {[ "s1" := turn <$> [2; 3; 4; 5; 6] ]}.

(** The backend with a chatbot that has answered one question, and no
    session started through the handler. *)
Definition app_after_revenue : @App Z 2 :=
  mkApp (Some (Demo.after_revenue (Demo.a_query 1 false))) ∅.

(** A decoder of the first version that always yields the same query. *)
Definition basic_query : Basic.SQLQuery :=
  Basic.mkSQLQuery "SELECT COUNT(*) FROM tiendas" "counts the stores" "store count" 1.
Definition basic_decode (_ : string) : res Basic.SQLQuery := Ok basic_query.

(** A stand-in for [isoformat]: the clock reading in decimal. *)
Definition iso (t : Z) : string := pretty t.

End Cases.

(** ** The texts sent to the embedding model *)




(* ====================================================================== *)
(** * Facts *)

(** ** The library models on known values *)

Example md5_empty : MD5.hexdigest "" = "d41d8cd98f00b204e9800998ecf8427e"%string.
Proof. vm_compute. reflexivity. Qed.

Example md5_abc : MD5.hexdigest "abc" = "900150983cd24fb0d6963f7d28e17f72"%string.
Proof. vm_compute. reflexivity. Qed.

Example md5_fox :
  MD5.hexdigest "The quick brown fox jumps over the lazy dog"
  = "9e107d9d372bb6826bd81d3542a419d6"%string.
Proof. vm_compute. reflexivity. Qed.

Example query_key_normalizes :
  _get_query_key "  Revenue BY Region " = _get_query_key "revenue by region".
Proof. vm_compute. reflexivity. Qed.

(** The prompt templates are the source's, byte for byte: rendered with
    one letter in each hole they have the MD5 digest of the source text
    with the same letters in its holes. *)
Example sql_prompt_digest :
  MD5.hexdigest (sql_prompt "S" "C" "V" "F" "X" "Q") = "1ffd09e76d077d8f510035897f87f20a"%string
  /\ MD5.hexdigest (insight_prompt "Q" "R") = "b22feea729b24259b9f560e2ffd680eb"%string
  /\ MD5.hexdigest (follow_up_head ++ "CTX" ++ follow_up_tail)
     = "d9f3a669e4deb9864dda16d155720587"%string.
Proof. vm_compute. repeat split. Qed.

Example slices :
  slice_from (-2) [1; 2; 3] = [2; 3]
  /\ slice_from (-5) [1; 2; 3] = [1; 2; 3]
  /\ slice_from 0 [1; 2; 3] = [1; 2; 3]
  /\ slice_from 1 [1; 2; 3] = [2; 3].
Proof. repeat split. Qed.

Example follow_up_marker :
  PyStr.any_in follow_up_keywords (PyStr.lower "Muestrame las top 5 tiendas de ESA region") = true
  /\ PyStr.any_in follow_up_keywords (PyStr.lower "revenue by region") = false.
Proof. vm_compute. repeat split. Qed.

(** ** Lists and slices *)

Lemma string_app_assoc (a b c : string) : ((a ++ b) ++ c = a ++ (b ++ c))%string.
Proof.
  induction a as [|x a IH]; [reflexivity|].
  change (String x ((a ++ b) ++ c) = String x (a ++ (b ++ c)))%string.
  rewrite IH. reflexivity.
Qed.

Lemma slice_from_neg_last_n {A : Type} (n : Z) (l : list A) :
  1 <= n -> slice_from (- n) l = last_n (Z.to_nat n) l.
Proof.
  intros Hn. unfold slice_from, last_n.
  destruct (Z.ltb_spec (- n) 0) as [_|Hge]; [|lia].
  f_equal. lia.
Qed.

Lemma last_n_all {A : Type} (n : nat) (l : list A) :
  (length l <= n)%nat -> last_n n l = l.
Proof.
  intros H. unfold last_n. replace (length l - n)%nat with 0%nat by lia. reflexivity.
Qed.

Lemma length_last_n {A : Type} (n : nat) (l : list A) :
  length (last_n n l) = Nat.min n (length l).
Proof. unfold last_n. rewrite length_drop. lia. Qed.

Lemma last_n_app_last_n {A : Type} (n : nat) (l x : list A) :
  last_n n (last_n n l ++ x) = last_n n (l ++ x).
Proof.
  unfold last_n. rewrite !length_app, length_drop.
  set (k := (length l - n)%nat).
  assert (Hsplit : l ++ x = take k l ++ (drop k l ++ x))
    by (rewrite app_assoc, take_drop; reflexivity).
  rewrite Hsplit.
  rewrite (drop_app_ge (take k l)) by (rewrite length_take; lia).
  rewrite length_take. f_equal. lia.
Qed.

Lemma last_n_fmap {A B : Type} (f : A -> B) (n : nat) (l : list A) :
  f <$> last_n n l = last_n n (f <$> l).
Proof. unfold last_n. rewrite fmap_drop, length_fmap. reflexivity. Qed.

(** ** IEEE comparisons *)

Module PyFloatFacts.
Import PyFloat.

Lemma SFcompare_rank a b :
SFcompare a b =
match rank a, rank b with
| Some (c1, e1, m1), Some (c2, e2, m2) =>
    Some (match c1 ?= c2 with
          | Eq => match e1 ?= e2 with Eq => m1 ?= m2 | r => r end
          | r => r
          end)
| _, _ => None
end.
Proof.
destruct a as [sa|sa| |sa ma ea], b as [sb|sb| |sb mb eb]; simpl;
  repeat match goal with s : bool |- _ => destruct s end; simpl; try reflexivity.
- f_equal. rewrite Z.compare_opp.
  rewrite (Z.compare_antisym ea eb).
  destruct (ea ?= eb); simpl; reflexivity.
Qed.

Lemma compare_lex (a b : Z * Z * Z) :
let '(c1, e1, m1) := a in
let '(c2, e2, m2) := b in
(match c1 ?= c2 with
 | Eq => match e1 ?= e2 with Eq => m1 ?= m2 | r => r end
 | r => r
 end = Lt <-> lex_lt a b) /\
(match c1 ?= c2 with
 | Eq => match e1 ?= e2 with Eq => m1 ?= m2 | r => r end
 | r => r
 end <> Gt <-> lex_le a b).
Proof.
destruct a as [[c1 e1] m1], b as [[c2 e2] m2]. unfold lex_lt, lex_le.
destruct (Z.compare_spec c1 c2); destruct (Z.compare_spec e1 e2);
  destruct (Z.compare_spec m1 m2); split; split; intros; try congruence; try lia.
Qed.

Lemma ltb_rank (a b : float) :
PrimFloat.ltb a b = true <->
exists ra rb, rank (Prim2SF a) = Some ra /\ rank (Prim2SF b) = Some rb /\ lex_lt ra rb.
Proof.
rewrite ltb_spec. unfold SFltb. rewrite SFcompare_rank.
destruct (rank (Prim2SF a)) as [ra|], (rank (Prim2SF b)) as [rb|].
- pose proof (compare_lex ra rb) as H.
  destruct ra as [[c1 e1] m1], rb as [[c2 e2] m2]. destruct H as [H _].
  split.
  + intros Hc. exists (c1, e1, m1), (c2, e2, m2). repeat split.
    apply H. destruct (match c1 ?= c2 with Eq => _ | r => r end); congruence.
  + intros (ra & rb & Ha & Hb & Hlt). inversion Ha; inversion Hb; subst.
    apply H in Hlt. rewrite Hlt. reflexivity.
- destruct ra as [[? ?] ?]. split; [discriminate | intros (? & ? & ? & ? & ?); discriminate].
- split; [discriminate | intros (? & ? & ? & ? & ?); discriminate].
- split; [discriminate | intros (? & ? & ? & ? & ?); discriminate].
Qed.

Lemma leb_rank (a b : float) :
PrimFloat.leb a b = true <->
exists ra rb, rank (Prim2SF a) = Some ra /\ rank (Prim2SF b) = Some rb /\ lex_le ra rb.
Proof.
rewrite leb_spec. unfold SFleb. rewrite SFcompare_rank.
destruct (rank (Prim2SF a)) as [ra|], (rank (Prim2SF b)) as [rb|].
- pose proof (compare_lex ra rb) as H.
  destruct ra as [[c1 e1] m1], rb as [[c2 e2] m2]. destruct H as [_ H].
  split.
  + intros Hc. exists (c1, e1, m1), (c2, e2, m2). repeat split.
    apply H. destruct (match c1 ?= c2 with Eq => _ | r => r end); congruence.
  + intros (ra & rb & Ha & Hb & Hlt). inversion Ha; inversion Hb; subst.
    apply H in Hlt. destruct (match c1 ?= c2 with Eq => _ | r => r end); congruence.
- destruct ra as [[? ?] ?]. split; [discriminate | intros (? & ? & ? & ? & ?); discriminate].
- split; [discriminate | intros (? & ? & ? & ? & ?); discriminate].
- split; [discriminate | intros (? & ? & ? & ? & ?); discriminate].
Qed.

Lemma ltb_trans a b c : PrimFloat.ltb a b = true -> PrimFloat.ltb b c = true -> PrimFloat.ltb a c = true.
Proof.
rewrite !ltb_rank. intros (ra & rb & Ha & Hb & H1) (rb' & rc & Hb' & Hc & H2).
rewrite Hb in Hb'. inversion Hb'; subst rb'. exists ra, rc. repeat split; auto.
destruct ra as [[? ?] ?], rb as [[? ?] ?], rc as [[? ?] ?]. unfold lex_lt in *. lia.
Qed.

Lemma leb_ltb_trans a b c : PrimFloat.leb a b = true -> PrimFloat.ltb b c = true -> PrimFloat.ltb a c = true.
Proof.
rewrite !ltb_rank, leb_rank. intros (ra & rb & Ha & Hb & H1) (rb' & rc & Hb' & Hc & H2).
rewrite Hb in Hb'. inversion Hb'; subst rb'. exists ra, rc. repeat split; auto.
destruct ra as [[? ?] ?], rb as [[? ?] ?], rc as [[? ?] ?]. unfold lex_lt, lex_le in *. lia.
Qed.

Lemma ltb_leb_trans a b c : PrimFloat.ltb a b = true -> PrimFloat.leb b c = true -> PrimFloat.ltb a c = true.
Proof.
rewrite !ltb_rank, leb_rank. intros (ra & rb & Ha & Hb & H1) (rb' & rc & Hb' & Hc & H2).
rewrite Hb in Hb'. inversion Hb'; subst rb'. exists ra, rc. repeat split; auto.
destruct ra as [[? ?] ?], rb as [[? ?] ?], rc as [[? ?] ?]. unfold lex_lt, lex_le in *. lia.
Qed.

Lemma ltb_is_num a b : PrimFloat.ltb a b = true -> is_num a /\ is_num b.
Proof.
rewrite ltb_rank. intros (ra & rb & Ha & Hb & _). unfold is_num. rewrite Ha, Hb. split; discriminate.
Qed.

Lemma ltb_false_leb a b : is_num a -> is_num b -> PrimFloat.ltb a b = false -> PrimFloat.leb b a = true.
Proof.
unfold is_num. intros Ha Hb Hlt. apply leb_rank.
destruct (rank (Prim2SF a)) as [ra|] eqn:Ea; [|congruence].
destruct (rank (Prim2SF b)) as [rb|] eqn:Eb; [|congruence].
exists rb, ra. repeat split.
assert (Hn : ~ lex_lt ra rb).
{ intros Hl. assert (PrimFloat.ltb a b = true) by (apply ltb_rank; eauto). congruence. }
destruct ra as [[? ?] ?], rb as [[? ?] ?]. unfold lex_lt, lex_le in *. lia.
Qed.

Lemma ltb_leb_false a b : PrimFloat.ltb a b = true -> PrimFloat.leb b a = false.
Proof.
intros H. destruct (PrimFloat.leb b a) eqn:E; [|reflexivity].
apply ltb_rank in H. apply leb_rank in E.
destruct H as (ra & rb & Ha & Hb & H1), E as (rb' & ra' & Hb' & Ha' & H2).
rewrite Ha in Ha'. rewrite Hb in Hb'. inversion Ha'; inversion Hb'; subst.
destruct ra' as [[? ?] ?], rb' as [[? ?] ?]. unfold lex_lt, lex_le in *. lia.
Qed.

Lemma nan_ltb_r a b : Prim2SF b = S754_nan -> PrimFloat.ltb a b = false.
Proof.
intros H. destruct (PrimFloat.ltb a b) eqn:E; [|reflexivity].
apply ltb_rank in E. destruct E as (? & ? & _ & Hb & _). rewrite H in Hb. discriminate.
Qed.

Lemma ltb_leb a b : PrimFloat.ltb a b = true -> PrimFloat.leb a b = true.
Proof.
rewrite ltb_rank, leb_rank. intros (ra & rb & Ha & Hb & H). exists ra, rb.
repeat split; auto.
destruct ra as [[? ?] ?], rb as [[? ?] ?]. unfold lex_lt, lex_le in *. lia.
Qed.

Lemma leb_refl a : is_num a -> PrimFloat.leb a a = true.
Proof.
unfold is_num. intros H. apply leb_rank.
destruct (rank (Prim2SF a)) as [r|] eqn:E; [|congruence].
exists r, r. repeat split. destruct r as [[? ?] ?]. unfold lex_le. lia.
Qed.

Lemma nan_not_num a : Prim2SF a = S754_nan -> ~ is_num a.
Proof. unfold is_num. intros ->. simpl. congruence. Qed.

End PyFloatFacts.

(** ** Session memory *)

Section SessionMemoryFacts.

Context {W : Type} {dim : nat}.
Variable svc : Services W dim.
Variable cfg : Config dim.

Lemma add_turn_returns (sid q a s : string) (st : State) :
  fst (add_turn svc cfg sid q a s st) = Ok tt.
Proof.
  unfold add_turn, bind, get_sessions, call_now, set_sessions. simpl.
  destruct (svc_now svc (world st)). reflexivity.
Qed.

(** One call stores the last [max_turns] of the old turns followed by the
    new one; nothing else changes in the table. *)
Lemma add_turn_sessions (sid q a s : string) (st : State) :
  1 <= max_turns cfg ->
  sessions (snd (add_turn svc cfg sid q a s st)) =
  <[sid := last_n (Z.to_nat (max_turns cfg))
             (turns_of st sid
              ++ [mkConversationTurn q a s (fst (svc_now svc (world st))) sid])]>
    (sessions st).
Proof.
  intros Hmax.
  unfold add_turn, bind, get_sessions, call_now, set_sessions, turns_of. simpl.
  destruct (svc_now svc (world st)) as [t w]. simpl.
  f_equal.
  destruct (Z.gtb_spec (Z.of_nat (length (default [] (sessions st !! sid)
              ++ [mkConversationTurn q a s t sid]))) (max_turns cfg)) as [Hgt|Hle].
  - apply slice_from_neg_last_n. exact Hmax.
  - symmetry. apply last_n_all. lia.
Qed.

Lemma add_turn_turns_of (c : TurnArgs) (st : State) (sid : string) :
  1 <= max_turns cfg ->
  turns_of (snd (add_turn svc cfg (ta_session_id c) (ta_question c) (ta_answer c)
                          (ta_sql_used c) st)) sid =
  if decide (ta_session_id c = sid)
  then last_n (Z.to_nat (max_turns cfg))
         (turns_of st sid
          ++ [mkConversationTurn (ta_question c) (ta_answer c) (ta_sql_used c)
                                 (fst (svc_now svc (world st))) sid])
  else turns_of st sid.
Proof.
  intros Hmax. unfold turns_of at 1. rewrite add_turn_sessions by exact Hmax.
  destruct (decide (ta_session_id c = sid)) as [->|Hne].
  - rewrite lookup_insert_eq. reflexivity.
  - rewrite lookup_insert_ne by exact Hne. reflexivity.
Qed.

(** From a state whose list for [sid] is within the bound, the stored
    turns are the last [max_turns] of the old ones followed by the calls
    for [sid], in arrival order. *)
Lemma add_turns_args (cs : list TurnArgs) (st : State) (sid : string) :
  1 <= max_turns cfg ->
  (length (turns_of st sid) <= Z.to_nat (max_turns cfg))%nat ->
  turn_args <$> turns_of (add_turns svc cfg cs st) sid =
  last_n (Z.to_nat (max_turns cfg))
         ((turn_args <$> turns_of st sid)
          ++ filter (fun c => ta_session_id c = sid) cs).
Proof.
  intros Hmax. revert st.
  induction cs as [|c cs IH]; intros st Hlen.
  - simpl. rewrite app_nil_r. symmetry. apply last_n_all.
    rewrite length_fmap. exact Hlen.
  - simpl add_turns. rewrite IH.
    + rewrite add_turn_turns_of by exact Hmax.
      rewrite filter_cons.
      destruct (decide (ta_session_id c = sid)) as [Heq|Hne].
      * rewrite last_n_fmap, fmap_app. simpl.
        rewrite last_n_app_last_n.
        rewrite <- app_assoc. simpl.
        unfold turn_args at 2. destruct c; simpl in *. subst sid. reflexivity.
      * reflexivity.
    + rewrite add_turn_turns_of by exact Hmax.
      destruct (decide (ta_session_id c = sid)).
      * rewrite length_last_n. lia.
      * exact Hlen.
Qed.

(** C8, for [max_turns >= 1]: in every state reached from an empty
    session table by [add_turn] calls, the list stored for a session has
    at most [max_turns] turns and holds the last [max_turns] calls made for
    that session, in arrival order; after [max_turns + k] calls for the
    session these are the calls that follow the first [k]. *)
Theorem add_turn_keeps_most_recent (cs : list TurnArgs) (st : State) (sid : string) :
  1 <= max_turns cfg ->
  sessions st = ∅ ->
  let mine := filter (fun c => ta_session_id c = sid) cs in
  let stored := turns_of (add_turns svc cfg cs st) sid in
  Z.of_nat (length stored) <= max_turns cfg
  /\ turn_args <$> stored = last_n (Z.to_nat (max_turns cfg)) mine
  /\ (forall k : nat,
        length mine = (Z.to_nat (max_turns cfg) + k)%nat ->
        length stored = Z.to_nat (max_turns cfg)
        /\ turn_args <$> stored = drop k mine).
Proof.
  intros Hmax Hempty mine stored.
  assert (Hargs : turn_args <$> stored = last_n (Z.to_nat (max_turns cfg)) mine).
  { unfold stored. rewrite add_turns_args.
    - unfold turns_of. rewrite Hempty, lookup_empty. reflexivity.
    - exact Hmax.
    - unfold turns_of. rewrite Hempty, lookup_empty. simpl. lia. }
  assert (Hlen : length stored = Nat.min (Z.to_nat (max_turns cfg)) (length mine)).
  { rewrite <- (length_fmap turn_args stored), Hargs. apply length_last_n. }
  split; [lia|]. split; [exact Hargs|].
  intros k Hk. split; [lia|].
  rewrite Hargs. unfold last_n. f_equal. lia.
Qed.

End SessionMemoryFacts.

(** ** Semantic cache: the scan *)

Section ScanFacts.

Context {dim : nat}.
Variable np : Numpy dim.
Variable threshold : float.
Variable q : vec float dim.

Local Abbreviation sim e := (cosine_similarity np q (query_embedding e)).
Local Abbreviation thr := (np_float np threshold).

Lemma zero_lt_of_threshold (s : float) :
  PrimFloat.leb 0 thr = true ->
  PyFloat.gt s thr = true -> PyFloat.gt s 0 = true.
Proof. unfold PyFloat.gt. intros H0 Hs. eapply PyFloatFacts.leb_ltb_trans; eauto. Qed.

Lemma scan_inv_step (pre : list (CacheEntry dim)) (x : CacheEntry dim)
    (best : option (nat * CacheEntry dim)) (bs : float) :
  PrimFloat.leb 0 thr = true ->
  scan_inv np threshold q pre best bs ->
  if PyFloat.gt (sim x) bs && PyFloat.gt (sim x) thr
  then scan_inv np threshold q (pre ++ [x]) (Some (length pre, x)) (sim x)
  else scan_inv np threshold q (pre ++ [x]) best bs.
Proof.
  intros H0 Hinv.
  destruct (PyFloat.gt (sim x) bs) eqn:Hbs; destruct (PyFloat.gt (sim x) thr) eqn:Hthr;
    simpl.
  - (* the new entry is taken *)
    split; [reflexivity|].
    assert (Hnum : PyFloat.is_num (sim x))
      by (apply PyFloatFacts.ltb_is_num in Hthr; tauto).
    split; [apply list_lookup_middle; reflexivity|].
    split; [exact Hthr|].
    destruct best as [[i e]|]; simpl in Hinv.
    + destruct Hinv as [-> (Hi & Hq & Hmax & Hfirst)].
      assert (Hold : forall j e', pre !! j = Some e' -> qualifies np threshold q e' ->
                                 PyFloat.gt (sim x) (sim e') = true).
      { intros j e' Hj Hq'. unfold PyFloat.gt.
        eapply PyFloatFacts.leb_ltb_trans; [exact (Hmax j e' Hj Hq')|exact Hbs]. }
      split.
      * intros j e' Hj Hq'.
        destruct (lookup_app_Some pre [x] j e') as [Hsplit _].
        destruct (Hsplit Hj) as [Hpre|[_ Hx]].
        -- apply PyFloatFacts.ltb_leb. exact (Hold j e' Hpre Hq').
        -- apply list_lookup_singleton_Some in Hx. destruct Hx as [_ <-].
           apply PyFloatFacts.leb_refl. exact Hnum.
      * intros j e' Hlt Hj Hq'.
        rewrite lookup_app_l in Hj by exact Hlt. exact (Hold j e' Hj Hq').
    + destruct Hinv as [_ Hnone].
      split.
      * intros j e' Hj Hq'.
        destruct (lookup_app_Some pre [x] j e') as [Hsplit _].
        destruct (Hsplit Hj) as [Hpre|[_ Hx]].
        -- apply list_elem_of_lookup_2 in Hpre. apply Hnone in Hpre.
           unfold qualifies in Hq'. congruence.
        -- apply list_lookup_singleton_Some in Hx. destruct Hx as [_ <-].
           apply PyFloatFacts.leb_refl. exact Hnum.
      * intros j e' Hlt Hj Hq'.
        rewrite lookup_app_l in Hj by exact Hlt.
        apply list_elem_of_lookup_2 in Hj. apply Hnone in Hj.
        unfold qualifies in Hq'. congruence.
  - (* above the best so far, not above the threshold *)
    destruct best as [[i e]|]; simpl in *.
    + destruct Hinv as [-> (Hi & Hq & Hmax & Hfirst)].
      (* the best qualifies, so this cannot happen *)
      exfalso. unfold qualifies, PyFloat.gt in *.
      assert (PrimFloat.ltb thr (sim x) = true)
        by (eapply PyFloatFacts.ltb_trans; eauto).
      congruence.
    + destruct Hinv as [-> Hnone]. split; [reflexivity|].
      intros e He. apply elem_of_app in He. destruct He as [He|He]; [auto|].
      apply list_elem_of_singleton in He. subst e. exact Hthr.
  - (* above the threshold, not above the best so far *)
    destruct best as [[i e]|]; simpl in *.
    + destruct Hinv as [-> (Hi & Hq & Hmax & Hfirst)].
      split; [reflexivity|].
      split; [rewrite lookup_app_l; [exact Hi|eapply lookup_lt_Some; exact Hi]|].
      split; [exact Hq|].
      split.
      * intros j e' Hj Hq'.
        destruct (lookup_app_Some pre [x] j e') as [Hsplit _].
        destruct (Hsplit Hj) as [Hpre|[_ Hx]]; [eauto|].
        apply list_lookup_singleton_Some in Hx. destruct Hx as [_ <-].
        unfold PyFloat.ge, PyFloat.gt, qualifies in *.
        apply PyFloatFacts.ltb_false_leb; [|
          |exact Hbs].
        -- apply PyFloatFacts.ltb_is_num in Hq. tauto.
        -- apply PyFloatFacts.ltb_is_num in Hthr. tauto.
      * intros j e' Hlt Hj Hq'.
        assert (j < length pre)%nat by (apply lookup_lt_Some in Hi; lia).
        rewrite lookup_app_l in Hj by assumption. eauto.
    + destruct Hinv as [-> Hnone].
      exfalso. apply (zero_lt_of_threshold _ H0) in Hthr. congruence.
  - (* neither *)
    destruct best as [[i e]|]; simpl in *.
    + destruct Hinv as [-> (Hi & Hq & Hmax & Hfirst)].
      split; [reflexivity|].
      split; [rewrite lookup_app_l; [exact Hi|eapply lookup_lt_Some; exact Hi]|].
      split; [exact Hq|].
      split.
      * intros j e' Hj Hq'.
        destruct (lookup_app_Some pre [x] j e') as [Hsplit _].
        destruct (Hsplit Hj) as [Hpre|[_ Hx]]; [eauto|].
        apply list_lookup_singleton_Some in Hx. destruct Hx as [_ <-].
        unfold qualifies in Hq'. congruence.
      * intros j e' Hlt Hj Hq'.
        assert (j < length pre)%nat by (apply lookup_lt_Some in Hi; lia).
        rewrite lookup_app_l in Hj by assumption. eauto.
    + destruct Hinv as [-> Hnone]. split; [reflexivity|].
      intros e He. apply elem_of_app in He. destruct He as [He|He]; [auto|].
      apply list_elem_of_singleton in He. subst e. exact Hthr.
Qed.

Lemma scan_cache_inv (rest pre : list (CacheEntry dim))
    (best : option (nat * CacheEntry dim)) (bs : float) :
  PrimFloat.leb 0 thr = true ->
  scan_inv np threshold q pre best bs ->
  exists bs', scan_inv np threshold q (pre ++ rest)
                (scan_cache np threshold q rest (length pre) best bs) bs'.
Proof.
  intros H0. revert pre best bs.
  induction rest as [|x rest IH]; intros pre best bs Hinv.
  - simpl. rewrite app_nil_r. eauto.
  - simpl scan_cache.
    pose proof (scan_inv_step pre x best bs H0 Hinv) as Hstep.
    replace (pre ++ x :: rest) with ((pre ++ [x]) ++ rest)
      by (rewrite <- app_assoc; reflexivity).
    replace (S (length pre)) with (length (pre ++ [x]))
      by (rewrite length_app; simpl; lia).
    destruct (PyFloat.gt (sim x) bs && PyFloat.gt (sim x) thr);
      apply IH; exact Hstep.
Qed.

End ScanFacts.

(** ** Semantic cache: lookup and store *)

Section CacheFacts.

Context {W : Type} {dim : nat}.
Variable svc : Services W dim.
Variable cfg : Config dim.

(** The lookup, run: an exception of the embedding call leaves the method at
    once; otherwise the scan decides. *)
Lemma get_similar_query_raises (question : string) (st : State) (e : exn) (w : W) :
  svc_encode svc question (world st) = (Raise e, w) ->
  get_similar_query svc cfg question st
  = (Raise e, after_call (CallEncode question) w st).
Proof.
  intros He. unfold get_similar_query, bind, call_encode. rewrite He. reflexivity.
Qed.

Lemma get_similar_query_run (question : string) (st : State) (q : vec float dim) (w : W) :
  svc_encode svc question (world st) = (Ok q, w) ->
  get_similar_query svc cfg question st
  = match scan_cache (numpy svc) (similarity_threshold cfg) q (PyDict.values (cache st))
                     0%nat None 0%float with
    | Some (i, best_match) =>
        (Ok (Some (bump_hit best_match)),
         mkState w (alter (fun kv => (fst kv, bump_hit (snd kv))) i (cache st))
                 (sessions st) (calls st ++ [CallEncode question]))
    | None => (Ok None, after_call (CallEncode question) w st)
    end.
Proof.
  intros He. unfold get_similar_query, bind, call_encode, get_cache, set_cache, ret.
  rewrite He. simpl.
  destruct (scan_cache _ _ _ _ _ _ _) as [[i best]|]; reflexivity.
Qed.

(** C3, for a threshold that is not negative: when the embedding call
    answers, the lookup returns the entry of highest cosine similarity among
    those strictly above the threshold, the first met among equals, with its
    hit count raised by one in the cache and in the returned entry; it
    returns none exactly when no entry is strictly above the threshold, in
    particular on an empty cache and for a similarity equal to the
    threshold. The similarities are the values numpy computes, and "above
    the threshold" is numpy's comparison of such a value with the configured
    Python float, [np_float] of it: for the float32 arrays of the embedding
    model, the threshold rounded to float32 since numpy 2. *)
Theorem get_similar_query_best (question : string) (st : State)
    (q : vec float dim) (w : W) :
  PrimFloat.leb 0 (np_float (numpy svc) (similarity_threshold cfg)) = true ->
  svc_encode svc question (world st) = (Ok q, w) ->
  let entries := PyDict.values (cache st) in
  let out := get_similar_query svc cfg question st in
  (forall hit, fst out = Ok (Some hit) ->
     exists i e, is_best_match (numpy svc) (similarity_threshold cfg) q entries i e
                 /\ hit = bump_hit e
                 /\ cache (snd out)
                    = alter (fun kv => (fst kv, bump_hit (snd kv))) i (cache st))
  /\ (fst out = Ok None <->
      forall e, e ∈ entries -> ~ qualifies (numpy svc) (similarity_threshold cfg) q e)
  /\ (fst out = Ok None -> cache (snd out) = cache st)
  /\ (exists r, fst out = Ok r)
  /\ (cache st = [] -> fst out = Ok None).
Proof.
  intros H0 He entries out.
  unfold out. rewrite (get_similar_query_run _ _ _ _ He).
  destruct (scan_cache_inv (numpy svc) (similarity_threshold cfg) q entries [] None
                           0%float H0) as [bs Hinv].
  { simpl. split; [reflexivity|]. intros e Hin. apply not_elem_of_nil in Hin. contradiction. }
  simpl in Hinv. fold entries.
  destruct (scan_cache (numpy svc) (similarity_threshold cfg) q entries 0 None 0%float)
    as [[i best]|] eqn:Hscan; simpl in *.
  - destruct Hinv as [_ Hbest].
    split; [|split; [|split; [|split]]].
    + intros hit Hhit. inversion Hhit; subst hit. exists i, best. auto.
    + split; [discriminate|].
      intros Hnone. exfalso. destruct Hbest as (Hi & Hq & _).
      apply (Hnone best); [eapply list_elem_of_lookup_2; exact Hi|exact Hq].
    + discriminate.
    + eauto.
    + intros Hempty. destruct Hbest as (Hi & _).
      unfold entries in Hi. rewrite Hempty in Hi. discriminate.
  - destruct Hinv as [_ Hnone].
    split; [|split; [|split; [|split]]].
    + discriminate.
    + split; [|reflexivity].
      intros _ e Hin Hq. apply Hnone in Hin. unfold qualifies in Hq. congruence.
    + reflexivity.
    + eauto.
    + reflexivity.
Qed.

End CacheFacts.

(** ** Zero vectors *)

Section ZeroFacts.

Import PyFloat PyFloatFacts.

Context {dim : nat}.
Variable np : Numpy dim.

(** The similarity of a zero vector with anything is 0/0 or worse: a
    NaN. *)
Lemma cosine_similarity_zero_nan (a b : vec float dim) :
  all_zero a \/ all_zero b -> Prim2SF (cosine_similarity np a b) = S754_nan.
Proof.
  intros H. unfold cosine_similarity. apply np_div_zero.
  - apply np_dot_zero. exact H.
  - apply np_mul_zero. destruct H as [H|H]; [left|right]; apply np_norm_zero; exact H.
Qed.

(** An entry the scan picks passed a strict comparison: its similarity is a
    number. *)
Lemma scan_cache_hit_is_num (threshold : float) (q : vec float dim)
    (entries : list (CacheEntry dim)) (i : nat)
    (best : option (nat * CacheEntry dim)) (bs : float) (j : nat) (e : CacheEntry dim) :
  scan_cache np threshold q entries i best bs = Some (j, e) ->
  best = Some (j, e) \/ is_num (cosine_similarity np q (query_embedding e)).
Proof.
  revert i best bs. induction entries as [|x entries IH]; intros i best bs Hscan.
  - left. exact Hscan.
  - simpl in Hscan.
    destruct (gt (cosine_similarity np q (query_embedding x)) bs) eqn:Hbs; simpl in Hscan.
    + destruct (gt (cosine_similarity np q (query_embedding x)) (np_float np threshold))
        eqn:Hthr.
      * apply IH in Hscan. destruct Hscan as [Heq|Hnum]; [|right; exact Hnum].
        inversion Heq; subst. right.
        apply ltb_is_num in Hthr. tauto.
      * apply IH in Hscan. exact Hscan.
    + apply IH in Hscan. exact Hscan.
Qed.

End ZeroFacts.

(** In binary64, with the products added up from the left. *)
Lemma cosine_zero_nan {n : nat} (a b : vec float n) :
  all_zero a \/ all_zero b -> Prim2SF (cosine a b) = S754_nan.
Proof. exact (cosine_similarity_zero_nan (numpy64 n) a b). Qed.

Section ZeroMagnitude.

Context {W : Type} {dim : nat}.
Variable svc : Services W dim.
Variable cfg : Config dim.

(** C4, as the code has it: the division is not guarded, and no exception
    comes of it. When the embedding call answers, the lookup returns a
    result; an embedded question whose components are all zero matches
    nothing, and an entry whose stored embedding is all zero is never the
    one returned (the similarity is a NaN, which fails both strict
    comparisons). *)
Theorem zero_vector_is_a_miss (question : string) (st : State)
    (q : vec float dim) (w : W) :
  svc_encode svc question (world st) = (Ok q, w) ->
  exists r, fst (get_similar_query svc cfg question st) = Ok r
            /\ (all_zero q -> r = None)
            /\ (forall hit, r = Some hit -> ~ all_zero (query_embedding hit)).
Proof.
  intros He. rewrite (get_similar_query_run _ _ _ _ _ _ He).
  destruct (scan_cache _ _ _ _ _ _ _) as [[i best]|] eqn:Hscan; simpl.
  - apply scan_cache_hit_is_num in Hscan. destruct Hscan as [Hbad|Hnum]; [discriminate|].
    exists (Some (bump_hit best)). split; [reflexivity|]. split.
    + intros Hz. exfalso.
      apply (PyFloatFacts.nan_not_num (cosine_similarity (numpy svc) q (query_embedding best)));
        [|exact Hnum].
      apply cosine_similarity_zero_nan. left. exact Hz.
    + intros hit Hhit Hz. inversion Hhit; subst hit. simpl in Hz.
      apply (PyFloatFacts.nan_not_num (cosine_similarity (numpy svc) q (query_embedding best)));
        [|exact Hnum].
      apply cosine_similarity_zero_nan. right. exact Hz.
  - exists None. split; [reflexivity|]. split; [reflexivity|]. discriminate.
Qed.

End ZeroMagnitude.

(** ** Dictionaries in insertion order *)

Section PyDictFacts.

Context {V : Type}.
Implicit Types (d : list (string * V)) (k : string) (v : V).

Lemma pydict_get_set_eq d k v : PyDict.get k (PyDict.set k v d) = Some v.
Proof.
  induction d as [|[k' v'] d IH]; simpl.
  - rewrite String.eqb_refl. reflexivity.
  - destruct (String.eqb k k') eqn:E; simpl.
    + rewrite String.eqb_refl. reflexivity.
    + rewrite E. exact IH.
Qed.

Lemma pydict_get_set_ne d k k' v :
  k' <> k -> PyDict.get k' (PyDict.set k v d) = PyDict.get k' d.
Proof.
  intros Hne. induction d as [|[k0 v0] d IH]; simpl.
  - destruct (String.eqb_spec k' k); [contradiction|reflexivity].
  - destruct (String.eqb_spec k k0) as [->|Hk]; simpl.
    + destruct (String.eqb_spec k' k0); [contradiction|reflexivity].
    + destruct (String.eqb_spec k' k0); [reflexivity|exact IH].
Qed.


Lemma pydict_get_None_key d k : PyDict.get k d = None -> k ∉ PyDict.keys d.
Proof.
  induction d as [|[k0 v0] d IH]; simpl; intros H Hin.
  - apply not_elem_of_nil in Hin. exact Hin.
  - destruct (String.eqb_spec k k0) as [->|Hk]; [discriminate|].
    apply elem_of_cons in Hin. destruct Hin as [Heq|Hin]; [contradiction|].
    exact (IH H Hin).
Qed.



End PyDictFacts.

(** ** Semantic cache: store *)

Section StoreFacts.

Context {W : Type} {dim : nat}.
Variable svc : Services W dim.

Lemma store_query_run (query sql_text : string) (response : gmap string value)
    (st : State) :
  fst (store_query svc query sql_text response st) = Ok tt ->
  exists e, stored_entry svc query sql_text response st = Some e
            /\ cache (snd (store_query svc query sql_text response st))
               = PyDict.set (_get_query_key query) e (cache st)
            /\ sessions (snd (store_query svc query sql_text response st)) = sessions st.
Proof.
  unfold store_query, stored_entry, bind, call_encode, call_now, get_cache, set_cache.
  destruct (svc_encode svc query (world st)) as [[emb|e] w]; simpl.
  - destruct (svc_now svc w) as [t w']. simpl. intros _. eauto.
  - discriminate.
Qed.




End StoreFacts.

(** ** Frames: what each method leaves alone *)

Section Frames.

Context {W : Type} {dim : nat}.
Variable svc : Services W dim.
Variable cfg : Config dim.

Local Abbreviation St := (@State W dim).

Section Preserves.

Context {X : Type}.
Variable f : St -> X.

Lemma preserves_ret {A : Type} (a : A) : preserves f (ret a).
Proof. intros st. reflexivity. Qed.

Lemma preserves_lift {A : Type} (r : res A) : preserves f (lift r).
Proof. intros st. reflexivity. Qed.

Lemma preserves_bind {A B : Type} (m : M A) (k : A -> M B) :
  preserves f m -> (forall a, preserves f (k a)) -> preserves f (bind m k).
Proof.
  intros Hm Hk st. unfold bind. specialize (Hm st).
  destruct (m st) as [[a|e] st']; simpl in *.
  - rewrite Hk. exact Hm.
  - exact Hm.
Qed.

Lemma preserves_try_except {A : Type} (m : M A) (h : exn -> M A) :
  preserves f m -> (forall e, preserves f (h e)) -> preserves f (try_except m h).
Proof.
  intros Hm Hh st. unfold try_except. specialize (Hm st).
  destruct (m st) as [[a|e] st']; simpl in *.
  - exact Hm.
  - rewrite Hh. exact Hm.
Qed.

Lemma preserves_getitem (d : gmap string value) (k : string) :
  preserves f (getitem d k).
Proof. unfold getitem. destruct (d !! k); [apply preserves_ret|apply preserves_lift]. Qed.

Lemma preserves_get_sessions : preserves f get_sessions.
Proof. intros st. reflexivity. Qed.

Lemma preserves_get_cache : preserves f get_cache.
Proof. intros st. reflexivity. Qed.

End Preserves.

Lemma executes_app (a b : list Call) : executes (a ++ b) = executes a ++ executes b.
Proof. unfold executes. apply flat_map_app. Qed.

(** A logged call other than an execution changes neither the cache, nor
    the sessions, nor the list of executed SQL. *)
Lemma after_call_frames (c : Call) (w : W) (st : St) :
  cache (after_call c w st) = cache st
  /\ sessions (after_call c w st) = sessions st
  /\ sent_sql (after_call c w st)
     = sent_sql st ++ match c with CallExecute s => [s] | _ => [] end.
Proof.
  unfold after_call, sent_sql. simpl. repeat split.
  rewrite executes_app. simpl. rewrite app_nil_r. reflexivity.
Qed.

Lemma call_encode_frames (text : string) :
  preserves cache (call_encode svc text)
  /\ preserves sessions (call_encode svc text)
  /\ preserves (@sent_sql W dim) (call_encode svc text).
Proof.
  repeat split; intros st; unfold call_encode;
    destruct (svc_encode svc text (world st)) as [r w]; simpl;
    try reflexivity.
  unfold sent_sql. simpl. rewrite executes_app. simpl. apply app_nil_r.
Qed.

Lemma call_chat_frames (schema_name prompt : string) (t : float) :
  preserves cache (call_chat svc schema_name prompt t)
  /\ preserves sessions (call_chat svc schema_name prompt t)
  /\ preserves (@sent_sql W dim) (call_chat svc schema_name prompt t).
Proof.
  repeat split; intros st; unfold call_chat;
    destruct (svc_chat svc schema_name prompt t (world st)) as [r w]; simpl;
    try reflexivity.
  unfold sent_sql. simpl. rewrite executes_app. simpl. apply app_nil_r.
Qed.

Lemma call_now_frames :
  preserves cache (call_now svc)
  /\ preserves sessions (call_now svc)
  /\ preserves (@sent_sql W dim) (call_now svc).
Proof.
  repeat split; intros st; unfold call_now;
    destruct (svc_now svc (world st)) as [r w]; simpl;
    try reflexivity.
  unfold sent_sql. simpl. rewrite executes_app. simpl. apply app_nil_r.
Qed.

Lemma call_uuid4_frames :
  preserves cache (call_uuid4 svc)
  /\ preserves sessions (call_uuid4 svc)
  /\ preserves (@sent_sql W dim) (call_uuid4 svc).
Proof.
  repeat split; intros st; unfold call_uuid4;
    destruct (svc_uuid4 svc (world st)) as [r w]; simpl;
    try reflexivity.
  unfold sent_sql. simpl. rewrite executes_app. simpl. apply app_nil_r.
Qed.

Lemma call_execute_frames (sql_text : string) :
  preserves cache (call_execute svc sql_text)
  /\ preserves sessions (call_execute svc sql_text)
  /\ forall st, sent_sql (snd (call_execute svc sql_text st)) = sent_sql st ++ [sql_text].
Proof.
  repeat split; intros st; unfold call_execute;
    destruct (svc_execute svc sql_text (world st)) as [r w]; simpl;
    try reflexivity.
  unfold sent_sql. simpl. rewrite executes_app. reflexivity.
Qed.

Lemma set_cache_frames (c : list (string * CacheEntry dim)) :
  preserves (@sessions W dim) (set_cache c) /\ preserves (@sent_sql W dim) (set_cache c).
Proof. split; intros st; reflexivity. Qed.

Lemma set_sessions_frames (ss : gmap string (list ConversationTurn)) :
  preserves (@cache W dim) (set_sessions ss) /\ preserves (@sent_sql W dim) (set_sessions ss).
Proof. split; intros st; reflexivity. Qed.

End Frames.

(** Closes [preserves f m] for a computation built from the services that
    keep [f], by following its structure. *)
Ltac frame_step :=
  first
    [ apply preserves_ret
    | apply preserves_lift
    | apply preserves_get_sessions
    | apply preserves_get_cache
    | apply preserves_getitem
    | apply (proj1 (call_encode_frames _ _))
    | apply (proj1 (proj2 (call_encode_frames _ _)))
    | apply (proj2 (proj2 (call_encode_frames _ _)))
    | apply (proj1 (call_chat_frames _ _ _ _))
    | apply (proj1 (proj2 (call_chat_frames _ _ _ _)))
    | apply (proj2 (proj2 (call_chat_frames _ _ _ _)))
    | apply (proj1 (call_now_frames _))
    | apply (proj1 (proj2 (call_now_frames _)))
    | apply (proj2 (proj2 (call_now_frames _)))
    | apply (proj1 (call_uuid4_frames _))
    | apply (proj1 (proj2 (call_uuid4_frames _)))
    | apply (proj2 (proj2 (call_uuid4_frames _)))
    | apply (proj1 (call_execute_frames _ _))
    | apply (proj1 (proj2 (call_execute_frames _ _)))
    | apply (proj1 (set_cache_frames _))
    | apply (proj2 (set_cache_frames _))
    | apply (proj1 (set_sessions_frames _))
    | apply (proj2 (set_sessions_frames _))
    | apply preserves_bind; [|intros ?]
    | apply preserves_try_except; [|intros ?] ].

Ltac frame := repeat frame_step.

Section MethodFrames.

Context {W : Type} {dim : nat}.
Variable svc : Services W dim.
Variable cfg : Config dim.

Lemma get_similar_query_frames (query : string) :
  preserves (@sessions W dim) (get_similar_query svc cfg query)
  /\ preserves (@sent_sql W dim) (get_similar_query svc cfg query).
Proof.
  split; unfold get_similar_query; frame;
    destruct (scan_cache _ _ _ _ _ _ _) as [[i best]|]; frame.
Qed.

Lemma store_query_frames (query sql_text : string) (response : gmap string value) :
  preserves (@sessions W dim) (store_query svc query sql_text response)
  /\ preserves (@sent_sql W dim) (store_query svc query sql_text response).
Proof. split; unfold store_query; frame. Qed.

Lemma add_turn_frames (sid q a s : string) :
  preserves (@cache W dim) (add_turn svc cfg sid q a s)
  /\ preserves (@sent_sql W dim) (add_turn svc cfg sid q a s).
Proof. split; unfold add_turn; frame. Qed.

Lemma set_stored_item_frames (key k : string) (v : value) :
  preserves (@sessions W dim) (set_stored_item key k v)
  /\ preserves (@sent_sql W dim) (set_stored_item key k v).
Proof.
  split; unfold set_stored_item; frame; destruct (PyDict.get key _); frame.
Qed.

Lemma find_relevant_concept_frames (query : string) :
  preserves (@cache W dim) (find_relevant_concept svc cfg query)
  /\ preserves (@sessions W dim) (find_relevant_concept svc cfg query)
  /\ preserves (@sent_sql W dim) (find_relevant_concept svc cfg query).
Proof.
  repeat split; unfold find_relevant_concept; destruct (List.find _ _); frame.
Qed.

Lemma generate_sql_frames (question context : string) (sid : option string) :
  preserves (@cache W dim) (_generate_sql_with_structured_output svc cfg question context sid)
  /\ preserves (@sessions W dim)
       (_generate_sql_with_structured_output svc cfg question context sid)
  /\ preserves (@sent_sql W dim) (_generate_sql_with_structured_output svc cfg question context sid).
Proof.
  repeat split; unfold _generate_sql_with_structured_output;
    (apply preserves_bind; [apply find_relevant_concept_frames|intros ?]);
    frame.
Qed.

Lemma generate_insights_frames (question : string) (rows : list (list (string * value))) :
  preserves (@cache W dim) (_generate_insights svc cfg question rows)
  /\ preserves (@sessions W dim) (_generate_insights svc cfg question rows)
  /\ preserves (@sent_sql W dim) (_generate_insights svc cfg question rows).
Proof.
  repeat split; unfold _generate_insights;
    repeat match goal with |- preserves _ (if ?b then _ else _) => destruct b end;
    frame.
Qed.

Lemma execute_query_frames (sql_text : string) :
  preserves (@cache W dim) (_execute_query svc sql_text)
  /\ preserves (@sessions W dim) (_execute_query svc sql_text)
  /\ forall st, sent_sql (snd (_execute_query svc sql_text st)) = sent_sql st ++ [sql_text].
Proof.
  split; [|split].
  - unfold _execute_query. frame.
  - unfold _execute_query. frame.
  - intros st. unfold _execute_query, try_except, bind, ret.
    pose proof (proj2 (proj2 (call_execute_frames svc sql_text)) st) as H.
    destruct (call_execute svc sql_text st) as [[r|e] st']; exact H.
Qed.

(** [_execute_query] always returns, and so does [_generate_insights] once
    [json.dumps] has serialized the rows. *)
Lemma execute_query_returns (sql_text : string) (st : State) :
  exists rows, fst (_execute_query svc sql_text st) = Ok rows.
Proof.
  unfold _execute_query, try_except, bind, ret.
  destruct (call_execute svc sql_text st) as [[r|e] st']; simpl; eauto.
Qed.

Lemma generate_insights_returns (question : string)
    (rows : list (list (string * value))) (st : State) (summary : string) :
  json_dumps svc (VList (map VDict (slice_to 5 rows))) = Ok summary ->
  exists i, fst (_generate_insights svc cfg question rows st) = Ok i.
Proof.
  intros Hdumps. unfold _generate_insights. rewrite Hdumps.
  assert (Hllm : forall p t, exists i,
            fst (try_except (bind (call_chat svc "data_insight" p t)
                                  (fun content => lift (decode_DataInsight svc content)))
                            (fun _ => ret fallback_DataInsight) st) = Ok i).
  { intros p t. unfold try_except, bind, lift, ret.
    destruct (call_chat svc "data_insight" p t st) as [[content|e] st']; simpl; eauto.
    destruct (decode_DataInsight svc content); simpl; eauto. }
  repeat match goal with |- context [if ?b then _ else _] => destruct b end;
    try (unfold bind at 1; unfold lift at 1); simpl; eauto.
Qed.

Lemma ask_cached_frames (question : string) (t0 : Z) (c : CacheEntry dim) :
  preserves (@cache W dim) (ask_cached svc question t0 c)
  /\ preserves (@sessions W dim) (ask_cached svc question t0 c)
  /\ preserves (@sent_sql W dim) (ask_cached svc question t0 c).
Proof. repeat split; unfold ask_cached; frame. Qed.

End MethodFrames.

(** ** The orchestrator *)

Section AskFacts.

Context {W : Type} {dim : nat}.
Variable svc : Services W dim.
Variable cfg : Config dim.

(** [ask] is its prologue, the lookup, and one of the two branches. *)
Lemma ask_run (question : string) (sid : option string) (st : State) :
  ask svc cfg question sid st
  = match get_similar_query svc cfg question (state_before_lookup svc sid st) with
    | (Ok (Some c), st2) =>
        ask_cached svc question (fst (svc_now svc (world st))) c st2
    | (Ok None, st2) =>
        ask_uncached svc cfg question (fst (svc_now svc (world st)))
                     (session_of svc sid st) st2
    | (Raise e, st2) => (Raise e, st2)
    end.
Proof.
  unfold ask, state_before_lookup, world_before_lookup, session_of.
  unfold bind at 1. unfold call_now at 1.
  destruct (svc_now svc (world st)) as [t0 w0]. simpl.
  destruct sid as [s|].
  - unfold bind at 1. unfold ret at 1. unfold bind at 1. unfold get_sessions at 1.
    simpl. unfold bind at 1. unfold after_call. simpl.
    destruct (get_similar_query svc cfg question _) as [[[c|]|e] st2]; reflexivity.
  - unfold bind at 1. unfold call_uuid4 at 1. simpl.
    destruct (svc_uuid4 svc w0) as [u w1]. simpl.
    unfold bind at 1. unfold get_sessions at 1. simpl. unfold bind at 1.
    unfold after_call. simpl. rewrite <- app_assoc. simpl.
    destruct (get_similar_query svc cfg question _) as [[[c|]|e] st2]; reflexivity.
Qed.

(** Where the scan found its match. *)
Lemma scan_cache_position (np : Numpy dim) (threshold : float) (q : vec float dim)
    (entries : list (CacheEntry dim)) (i0 : nat)
    (best : option (nat * CacheEntry dim)) (bs : float) (j : nat) (e : CacheEntry dim) :
  scan_cache np threshold q entries i0 best bs = Some (j, e) ->
  best = Some (j, e) \/ ((i0 <= j)%nat /\ entries !! (j - i0)%nat = Some e).
Proof.
  revert i0 best bs. induction entries as [|x entries IH]; intros i0 best bs Hscan.
  - left. exact Hscan.
  - simpl in Hscan.
    destruct (PyFloat.gt (cosine_similarity np q (query_embedding x)) bs
              && PyFloat.gt (cosine_similarity np q (query_embedding x))
                            (np_float np threshold)).
    + apply IH in Hscan. destruct Hscan as [Heq|[Hle Hj]].
      * inversion Heq; subst. right. split; [lia|].
        replace (j - j)%nat with 0%nat by lia. reflexivity.
      * right. split; [lia|].
        replace (j - i0)%nat with (S (j - S i0)) by lia. exact Hj.
    + apply IH in Hscan. destruct Hscan as [Heq|[Hle Hj]]; [left; exact Heq|].
      right. split; [lia|].
      replace (j - i0)%nat with (S (j - S i0)) by lia. exact Hj.
Qed.

(** What a cache hit does to the state: one entry has its hit count raised,
    in place. *)
Lemma get_similar_query_hit (question : string) (st : State) (hit : CacheEntry dim) :
  fst (get_similar_query svc cfg question st) = Ok (Some hit) ->
  exists i k e,
    cache st !! i = Some (k, e)
    /\ hit = bump_hit e
    /\ cache (snd (get_similar_query svc cfg question st))
       = <[i := (k, bump_hit e)]> (cache st).
Proof.
  destruct (svc_encode svc question (world st)) as [[q|e] w] eqn:He.
  - rewrite (get_similar_query_run _ _ _ _ _ _ He).
    destruct (scan_cache _ _ _ _ _ _ _) as [[i best]|] eqn:Hscan; simpl; [|discriminate].
    intros Hhit. inversion Hhit; subst hit.
    apply scan_cache_position in Hscan. destruct Hscan as [Hbad|[_ Hi]]; [discriminate|].
    replace (i - 0)%nat with i in Hi by lia.
    unfold PyDict.values in Hi. rewrite list_lookup_fmap in Hi.
    destruct (cache st !! i) as [[k e0]|] eqn:Hc; [|discriminate].
    simpl in Hi. inversion Hi; subst e0.
    exists i, k, best. split; [exact Hc|]. split; [reflexivity|].
    rewrite list_insert_alter. apply list_alter_ext; [|reflexivity].
    intros x Hx. rewrite Hc in Hx. inversion Hx; subst x. reflexivity.
  - rewrite (get_similar_query_raises _ _ _ _ _ _ He). discriminate.
Qed.

(** The entry a cache hit returns is the one the scan matched, with its hit
    count raised. *)
Lemma get_similar_query_matched (question : string) (st : State) (hit : CacheEntry dim) :
  fst (get_similar_query svc cfg question st) = Ok (Some hit) ->
  exists i k e q w,
    svc_encode svc question (world st) = (Ok q, w)
    /\ scan_cache (numpy svc) (similarity_threshold cfg) q (PyDict.values (cache st))
                  0%nat None 0%float = Some (i, e)
    /\ cache st !! i = Some (k, e)
    /\ hit = bump_hit e
    /\ cache (snd (get_similar_query svc cfg question st))
       = <[i := (k, bump_hit e)]> (cache st).
Proof.
  destruct (svc_encode svc question (world st)) as [[q|e] w] eqn:He.
  - rewrite (get_similar_query_run _ _ _ _ _ _ He).
    destruct (scan_cache _ _ _ _ _ _ _) as [[i best]|] eqn:Hscan; simpl; [|discriminate].
    intros Hhit. inversion Hhit; subst hit.
    pose proof Hscan as Hpos.
    apply scan_cache_position in Hpos. destruct Hpos as [Hbad|[_ Hi]]; [discriminate|].
    replace (i - 0)%nat with i in Hi by lia.
    unfold PyDict.values in Hi. rewrite list_lookup_fmap in Hi.
    destruct (cache st !! i) as [[k e0]|] eqn:Hc; [|discriminate].
    simpl in Hi. inversion Hi; subst e0.
    exists i, k, best, q, w. split; [reflexivity|]. split; [exact Hscan|].
    split; [exact Hc|]. split; [reflexivity|].
    rewrite list_insert_alter. apply list_alter_ext; [|reflexivity].
    intros x Hx. rewrite Hc in Hx. inversion Hx; subst x. reflexivity.
  - rewrite (get_similar_query_raises _ _ _ _ _ _ He). discriminate.
Qed.

Lemma get_similar_query_miss (question : string) (st : State) :
  fst (get_similar_query svc cfg question st) = Ok None ->
  cache (snd (get_similar_query svc cfg question st)) = cache st.
Proof.
  destruct (svc_encode svc question (world st)) as [[q|e] w] eqn:He.
  - rewrite (get_similar_query_run _ _ _ _ _ _ He).
    destruct (scan_cache _ _ _ _ _ _ _) as [[i best]|]; simpl; [discriminate|reflexivity].
  - rewrite (get_similar_query_raises _ _ _ _ _ _ He). discriminate.
Qed.



(** The response of the miss path, when it returns one. *)
Lemma ask_generated_result (question : string) (t0 : Z) (sid : string)
    (sq : SQLQuery) (st : State) (r : gmap string value) :
  fst (ask_generated svc cfg question t0 sid sq st) = Ok r ->
  exists rows ins et,
    r = <["session_id"%string := VStr sid]>
          (built_response question (answer_of ins sq) sq rows ins et)
    /\ (requires_execution sq = false ->
        rows = [placeholder_row]
        /\ fst (_generate_insights svc cfg question [placeholder_row] st) = Ok ins)
    /\ (requires_execution sq = true ->
        fst (_execute_query svc (sql sq) st) = Ok rows).
Proof.
  unfold ask_generated. unfold bind at 1.
  destruct (requires_execution sq) eqn:Hflag.
  - destruct (_execute_query svc (sql sq) st) as [[rows|e] st1] eqn:Hex; [|discriminate].
    unfold bind at 1.
    destruct (_generate_insights svc cfg question rows st1) as [[ins|e] st2]; [|discriminate].
    unfold bind at 1. unfold call_now at 1.
    destruct (svc_now svc (world st2)) as [now w]. simpl.
    unfold bind at 1.
    destruct (store_query svc question (sql sq) _ _) as [[[]|e] st3]; [|discriminate].
    unfold bind at 1.
    destruct (add_turn svc cfg sid question _ _ st3) as [[[]|e] st4]; [|discriminate].
    unfold bind at 1.
    destruct (set_stored_item _ _ _ st4) as [[[]|e] st5]; [|discriminate].
    simpl. intros Hr. inversion Hr; subst r.
    exists rows, ins, (total_seconds (now - t0)).
    split; [reflexivity|]. split; [discriminate|reflexivity].
  - unfold ret at 1. unfold bind at 1.
    destruct (_generate_insights svc cfg question [placeholder_row] st)
      as [[ins|e] st2] eqn:Hins; [|discriminate].
    unfold bind at 1. unfold call_now at 1.
    destruct (svc_now svc (world st2)) as [now w]. simpl.
    unfold bind at 1.
    destruct (store_query svc question (sql sq) _ _) as [[[]|e] st3]; [|discriminate].
    unfold bind at 1.
    destruct (add_turn svc cfg sid question _ _ st3) as [[[]|e] st4]; [|discriminate].
    unfold bind at 1.
    destruct (set_stored_item _ _ _ st4) as [[[]|e] st5]; [|discriminate].
    simpl. intros Hr. inversion Hr; subst r.
    exists [placeholder_row], ins, (total_seconds (now - t0)).
    split; [reflexivity|]. split; [auto|discriminate].
Qed.

(** The response of the hit path, when it returns one. *)
Lemma ask_cached_result (question : string) (t0 : Z) (c : CacheEntry dim)
    (st : State) (r : gmap string value) :
  fst (ask_cached svc question t0 c st) = Ok r ->
  exists answer data insights et,
    r = cached_response question c answer data insights et.
Proof.
  unfold ask_cached. unfold bind at 1. unfold call_now at 1.
  destruct (svc_now svc (world st)) as [now w]. simpl.
  unfold bind at 1. unfold getitem at 1.
  destruct (results c !! "answer"%string) as [a|]; [|discriminate].
  unfold ret at 1. unfold bind at 1. unfold getitem at 1.
  destruct (results c !! "data"%string) as [d|]; [|discriminate].
  unfold ret at 1. unfold bind at 1. unfold getitem at 1.
  destruct (results c !! "insights"%string) as [i|]; [|discriminate].
  simpl. intros Hr. inversion Hr. eauto.
Qed.

End AskFacts.

(** ** The orchestrator: what [ask] returns and changes *)

Section AskClaims.

Context {W : Type} {dim : nat}.
Variable svc : Services W dim.
Variable cfg : Config dim.

(** The two shapes of a returned response. *)
Lemma ask_result_shape (question : string) (sid : option string) (st : State)
    (r : gmap string value) :
  fst (ask svc cfg question sid st) = Ok r ->
  (exists c answer data insights et,
     fst (get_similar_query svc cfg question (state_before_lookup svc sid st)) = Ok (Some c)
     /\ r = cached_response question c answer data insights et)
  \/ (exists sq rows ins et,
        fst (get_similar_query svc cfg question (state_before_lookup svc sid st)) = Ok None
        /\ r = <["session_id"%string := VStr (session_of svc sid st)]>
                 (built_response question (answer_of ins sq) sq rows ins et)).
Proof.
  rewrite ask_run.
  destruct (get_similar_query svc cfg question (state_before_lookup svc sid st))
    as [[[c|]|e] st2]; simpl.
  - intros Hr. left. apply ask_cached_result in Hr.
    destruct Hr as (a & d & i & et & ->). exists c, a, d, i, et. auto.
  - intros Hr. right. unfold ask_uncached in Hr. unfold bind at 1 in Hr.
    destruct (_generate_sql_with_structured_output svc cfg question "" _ st2)
      as [[sq|e] st3]; [|discriminate].
    apply ask_generated_result in Hr. destruct Hr as (rows & ins & et & -> & _).
    exists sq, rows, ins, et. auto.
  - discriminate.
Qed.

(** C2, as the code has it: every response [ask] returns, on either path,
    holds the keys answer, data, sql_used, cached, execution_time and
    insights, and cached is a boolean; a response of the cache-miss path
    (cached false) also holds sql_executed, confidence and the session id it
    worked for. *)
Theorem ask_response_keys (question : string) (sid : option string) (st : State)
    (r : gmap string value) :
  fst (ask svc cfg question sid st) = Ok r ->
  (forall k, k ∈ ["answer"; "data"; "sql_used"; "cached"; "execution_time"; "insights"]%string ->
             is_Some (r !! k))
  /\ (exists b, r !! "cached"%string = Some (VBool b))
  /\ (r !! "cached"%string = Some (VBool false) ->
      is_Some (r !! "sql_executed"%string)
      /\ is_Some (r !! "confidence"%string)
      /\ r !! "session_id"%string = Some (VStr (session_of svc sid st))).
Proof.
  intros Hr. apply ask_result_shape in Hr.
  destruct Hr as [(c & a & d & i & et & _ & ->)|(sq & rows & ins & et & _ & ->)].
  - split; [|split].
    + intros k Hk. repeat (apply elem_of_cons in Hk; destruct Hk as [->|Hk]);
        [eexists; reflexivity ..|apply not_elem_of_nil in Hk; contradiction].
    + exists true. reflexivity.
    + discriminate.
  - split; [|split].
    + intros k Hk. repeat (apply elem_of_cons in Hk; destruct Hk as [->|Hk]);
        [eexists; reflexivity ..|apply not_elem_of_nil in Hk; contradiction].
    + exists false. reflexivity.
    + intros _. split; [eexists; reflexivity|].
      split; [eexists; reflexivity|reflexivity].
Qed.

(** The fields the hit branch copies from the entry it was given. *)
Lemma ask_cached_fields (question : string) (t0 : Z) (c : CacheEntry dim)
    (st : State) (r : gmap string value) :
  fst (ask_cached svc question t0 c st) = Ok r ->
  r !! "answer"%string = results c !! "answer"%string
  /\ r !! "data"%string = results c !! "data"%string
  /\ r !! "insights"%string = results c !! "insights"%string
  /\ r !! "sql_used"%string = Some (VStr (sql_query c)).
Proof.
  unfold ask_cached. unfold bind at 1. unfold call_now at 1.
  destruct (svc_now svc (world st)) as [now w]. simpl.
  unfold bind at 1. unfold getitem at 1.
  destruct (results c !! "answer"%string) as [a|]; [|discriminate].
  unfold ret at 1. unfold bind at 1. unfold getitem at 1.
  destruct (results c !! "data"%string) as [d|]; [|discriminate].
  unfold ret at 1. unfold bind at 1. unfold getitem at 1.
  destruct (results c !! "insights"%string) as [i|]; [|discriminate].
  simpl. intros Hr. inversion Hr; subst. repeat split.
Qed.

(** C9: when [ask] returns a response with cached true, the session table is
    as it was, and the cache differs only in the entry the lookup matched:
    the entry [e] that the scan of the lookup selected, at its position [i]
    and under its key [k], now has a hit count one higher and is otherwise
    the same; it is the entry the lookup returned and the one whose answer,
    data, insights and SQL the response repeats. So the conversation context
    and the follow-up validation of every session and question read the same
    after as before. *)
Theorem cached_answer_leaves_memory (question : string) (sid : option string)
    (st : State) (r : gmap string value) :
  fst (ask svc cfg question sid st) = Ok r ->
  r !! "cached"%string = Some (VBool true) ->
  let st' := snd (ask svc cfg question sid st) in
  sessions st' = sessions st
  /\ (exists i k e q w,
        svc_encode svc question (world_before_lookup svc sid st) = (Ok q, w)
        /\ scan_cache (numpy svc) (similarity_threshold cfg) q (PyDict.values (cache st))
                      0%nat None 0%float = Some (i, e)
        /\ cache st !! i = Some (k, e)
        /\ fst (get_similar_query svc cfg question (state_before_lookup svc sid st))
           = Ok (Some (bump_hit e))
        /\ cache st' = <[i := (k, bump_hit e)]> (cache st)
        /\ bump_hit e = mkCacheEntry (query_embedding e) (sql_query e) (results e)
                                     (entry_timestamp e) (hit_count e + 1)
        /\ r !! "answer"%string = results e !! "answer"%string
        /\ r !! "data"%string = results e !! "data"%string
        /\ r !! "insights"%string = results e !! "insights"%string
        /\ r !! "sql_used"%string = Some (VStr (sql_query e)))
  /\ (forall sid' q',
        get_conversation_context (sessions st') sid'
        = get_conversation_context (sessions st) sid'
        /\ validate_follow_up_question (sessions st') sid' q'
           = validate_follow_up_question (sessions st) sid' q').
Proof.
  intros Hr Hcached st'.
  assert (Hhit : exists c, fst (get_similar_query svc cfg question
                                  (state_before_lookup svc sid st)) = Ok (Some c)).
  { apply ask_result_shape in Hr.
    destruct Hr as [(c & _ & _ & _ & _ & Hc & _)|(sq & rows & ins & et & _ & ->)];
      [eauto|].
    exfalso. revert Hcached. rewrite lookup_insert_ne by discriminate.
    discriminate. }
  destruct Hhit as [c Hc].
  assert (Hsess : sessions st' = sessions st).
  { unfold st'. rewrite ask_run.
    pose proof (proj1 (get_similar_query_frames svc cfg question)
                      (state_before_lookup svc sid st)) as Hs.
    destruct (get_similar_query svc cfg question (state_before_lookup svc sid st))
      as [[[c'|]|e] st2]; simpl in *; try discriminate.
    rewrite (proj1 (proj2 (ask_cached_frames svc question _ c')) st2). exact Hs. }
  split; [exact Hsess|]. split.
  - destruct (get_similar_query_matched svc cfg question _ c Hc)
      as (i & k & e & q & w & Henc & Hscan & Hi & -> & Hcache).
    exists i, k, e, q, w.
    split; [exact Henc|]. split; [exact Hscan|]. split; [exact Hi|].
    split; [exact Hc|].
    rewrite ask_run in Hr. unfold st'. rewrite ask_run.
    destruct (get_similar_query svc cfg question (state_before_lookup svc sid st))
      as [[[c'|]|e'] st2]; simpl in *; try discriminate.
    inversion Hc; subst c'.
    split; [rewrite (proj1 (ask_cached_frames svc question _ (bump_hit e)) st2);
            exact Hcache|].
    split; [reflexivity|].
    exact (ask_cached_fields question _ (bump_hit e) st2 r Hr).
  - intros sid' q'. rewrite Hsess. split; reflexivity.
Qed.

(** C5, as the code has it: an exception of the embedding call made by the
    lookup is not caught; [ask] raises it to its caller, after the clock
    reading (and the uuid, when no session was given) and that one embedding
    call, with the cache and the session table as they were. *)
Theorem lookup_failure_propagates (question : string) (sid : option string)
    (st : State) (e : exn) (w : W) :
  svc_encode svc question (world_before_lookup svc sid st) = (Raise e, w) ->
  let out := ask svc cfg question sid st in
  fst out = Raise e
  /\ cache (snd out) = cache st
  /\ sessions (snd out) = sessions st
  /\ calls (snd out)
     = calls st ++ CallNow :: match sid with None => [CallUuid] | Some _ => [] end
       ++ [CallEncode question].
Proof.
  intros He out. unfold out. rewrite ask_run.
  rewrite (get_similar_query_raises svc cfg question (state_before_lookup svc sid st) e w He).
  unfold state_before_lookup, after_call. simpl.
  repeat split. rewrite <- app_assoc. reflexivity.
Qed.


End AskClaims.

(** ** SQL generation *)

Section GenerationFacts.

Context {W : Type} {dim : nat}.
Variable svc : Services W dim.
Variable cfg : Config dim.

(** A question that holds a keyword of a concept is matched without any
    call. *)
Lemma find_relevant_concept_keyword (question : string) (c : BusinessConcept)
    (st : State) :
  List.find (fun concept => PyStr.any_in (context_keywords concept) (PyStr.lower question))
            concepts = Some c ->
  find_relevant_concept svc cfg question st = (Ok (Some c), st).
Proof. intros H. unfold find_relevant_concept. rewrite H. reflexivity. Qed.

(** C7, as the code has it: once the concept matcher has returned, the
    generation step returns, never raises; when the chat completion raises,
    or its content fails to decode as an SQLQuery, the result is the fixed
    fallback: SQL 'SELECT * FROM tiendas LIMIT 10', confidence 0.1, a
    reasoning that ends with the text of the error (and requires_execution
    at its default, true); otherwise it is the decoded answer. *)
Theorem generation_falls_back (question context : string) (sid : option string)
    (st st1 : State) (c : option BusinessConcept) :
  find_relevant_concept svc cfg question st = (Ok c, st1) ->
  let out := _generate_sql_with_structured_output svc cfg question context sid st in
  let prompt := generation_prompt cfg question context sid c (sessions st1) in
  (match svc_chat svc "sql_query" prompt (temperature cfg) (world st1) with
   | (Raise e, _) => fst out = Ok (fallback_SQLQuery e)
   | (Ok content, _) =>
       match decode_SQLQuery svc content with
       | Ok sq => fst out = Ok sq
       | Raise e => fst out = Ok (fallback_SQLQuery e)
       end
   end)
  /\ (exists sq, fst out = Ok sq)
  /\ (forall e, sql (fallback_SQLQuery e) = "SELECT * FROM tiendas LIMIT 10"%string
                /\ confidence (fallback_SQLQuery e) = 0.1%float
                /\ reasoning (fallback_SQLQuery e)
                   = ("Error in SQL generation: " ++ exn_str e)%string
                /\ requires_execution (fallback_SQLQuery e) = true).
Proof.
  intros Hc out prompt.
  assert (Hout : out = try_except
                         (bind (call_chat svc "sql_query" prompt (temperature cfg))
                               (fun content => lift (decode_SQLQuery svc content)))
                         (fun e => ret (fallback_SQLQuery e)) st1).
  { unfold out, _generate_sql_with_structured_output. unfold bind at 1. rewrite Hc.
    unfold bind at 1. reflexivity. }
  assert (Hcases :
    match svc_chat svc "sql_query" prompt (temperature cfg) (world st1) with
    | (Raise e, _) => fst out = Ok (fallback_SQLQuery e)
    | (Ok content, _) =>
        match decode_SQLQuery svc content with
        | Ok sq => fst out = Ok sq
        | Raise e => fst out = Ok (fallback_SQLQuery e)
        end
    end).
  { rewrite Hout. unfold try_except, bind, call_chat, lift, ret.
    destruct (svc_chat svc "sql_query" prompt (temperature cfg) (world st1))
      as [[content|e] w]; simpl; [|reflexivity].
    destruct (decode_SQLQuery svc content); reflexivity. }
  split; [exact Hcases|]. split.
  - destruct (svc_chat svc "sql_query" prompt (temperature cfg) (world st1))
      as [[content|e] w]; [|eauto].
    destruct (decode_SQLQuery svc content); eauto.
  - intros e. repeat split.
Qed.



(** A generated query is the decoded content of a chat completion or the
    fallback. *)
Lemma generation_result_cases (question context : string) (sid : option string)
    (st : State) (sq : SQLQuery) :
  fst (_generate_sql_with_structured_output svc cfg question context sid st) = Ok sq ->
  (exists content, decode_SQLQuery svc content = Ok sq)
  \/ (exists e, sq = fallback_SQLQuery e).
Proof.
  unfold _generate_sql_with_structured_output. unfold bind at 1.
  destruct (find_relevant_concept svc cfg question st) as [[c|e] st1]; [|discriminate].
  unfold bind at 1. unfold get_sessions at 1.
  unfold try_except, bind, call_chat, lift, ret.
  destruct (svc_chat svc "sql_query" _ (temperature cfg) (world st1))
    as [[content|e] w]; simpl.
  - destruct (decode_SQLQuery svc content) eqn:Hd; simpl; intros Hr; inversion Hr; subst.
    + left. eauto.
    + right. eauto.
  - intros Hr. inversion Hr. right. eauto.
Qed.


End GenerationFacts.

(** ** The follow-up guard *)

Section FollowUpFacts.

Context {W : Type} {dim : nat}.
Variable svc : Services W dim.
Variable cfg : Config dim.


End FollowUpFacts.

(* ====================================================================== *)
(** * The claims on concrete runs *)

(** ** C1 *)



(** ** C2 *)

(** C2 fails on the cache-hit path: the same question asked again is served
    from the cache, and the response has no sql_executed, no confidence and
    no session_id. *)
Lemma cached_response_lacks_keys :
  let q := Demo.a_query 0.9%float true in
  let out := ask (Demo.svc_up q) Demo.cfg_default Demo.q_revenue_again (Some "s1"%string)
                 (Demo.after_revenue q) in
  Demo.field "cached" out = Some (VBool true)
  /\ Demo.field "sql_executed" out = None
  /\ Demo.field "confidence" out = None
  /\ Demo.field "session_id" out = None.
Proof. vm_compute. repeat split. Qed.

Lemma ask_response_keys_witness :
  let q := Demo.a_query 0.9%float true in
  let out := ask (Demo.svc_up q) Demo.cfg_default Demo.q_revenue (Some "s1"%string)
                 Demo.empty_state in
  fst out = Ok (Demo.response_of out)
  /\ (forall k, k ∈ ["answer"; "data"; "sql_used"; "cached"; "execution_time"; "insights"]%string ->
                is_Some (Demo.response_of out !! k))
  /\ Demo.response_of out !! "session_id"%string = Some (VStr "s1").
Proof.
  intros q out.
  assert (Hout : fst out = Ok (Demo.response_of out)) by (vm_compute; reflexivity).
  split; [exact Hout|].
  destruct (ask_response_keys (Demo.svc_up q) Demo.cfg_default Demo.q_revenue
              (Some "s1"%string) Demo.empty_state (Demo.response_of out) Hout)
    as (Hkeys & _ & Hmiss).
  split; [exact Hkeys|].
  assert (Hcached : Demo.response_of out !! "cached"%string = Some (VBool false))
    by (vm_compute; reflexivity).
  exact (proj2 (proj2 (Hmiss Hcached))).
Defined.

(** ** C3 *)

(** C3 fails for a negative threshold: with the threshold at -0.5 and one
    stored entry at a right angle to the question (cosine 0, strictly above
    the threshold), the lookup returns none, because the best similarity
    starts at 0. The numbers of this run are the same in float32 and in
    float64. *)
Lemma negative_threshold_misses_best :
  let cfg : Config 2 := Demo.config (-0.5)%float 10 in
  let svc := Demo.svc_up (Demo.a_query 1 true) in
  let st := snd (store_query svc Demo.q_revenue "SELECT 1" ∅ Demo.empty_state) in
  PyDict.values (cache st) = [mkCacheEntry Demo.east "SELECT 1" ∅ 0 0]
  /\ svc_encode svc Demo.q_follow_up (world st) = (Ok Demo.north, world st)
  /\ cosine_similarity (numpy svc) Demo.north Demo.east = 0%float
  /\ PyFloat.gt (cosine_similarity (numpy svc) Demo.north Demo.east)
                (np_float (numpy svc) (similarity_threshold cfg)) = true
  /\ fst (get_similar_query svc cfg Demo.q_follow_up st) = Ok None.
Proof. vm_compute. repeat split. Qed.

Lemma get_similar_query_best_witness :
  let svc := Demo.svc_up (Demo.a_query 1 true) in
  let st := snd (store_query svc Demo.q_revenue "SELECT 1" ∅ Demo.empty_state) in
  let out := get_similar_query svc Demo.cfg_default Demo.q_revenue_again st in
  PrimFloat.leb 0 (np_float (numpy svc) (similarity_threshold Demo.cfg_default)) = true
  /\ svc_encode svc Demo.q_revenue_again (world st) = (Ok Demo.east, world st)
  /\ (forall hit, fst out = Ok (Some hit) ->
        exists i e, is_best_match (numpy svc) (similarity_threshold Demo.cfg_default)
                                  Demo.east (PyDict.values (cache st)) i e
                    /\ hit = bump_hit e
                    /\ cache (snd out)
                       = alter (fun kv => (fst kv, bump_hit (snd kv))) i (cache st))
  /\ Demo.hit_count_of out = Some 1.
Proof.
  intros svc st out.
  assert (H0 : PrimFloat.leb 0 (np_float (numpy svc) (similarity_threshold Demo.cfg_default))
               = true)
    by (vm_compute; reflexivity).
  assert (He : svc_encode svc Demo.q_revenue_again (world st) = (Ok Demo.east, world st))
    by (vm_compute; reflexivity).
  split; [exact H0|]. split; [exact He|].
  split.
  - exact (proj1 (get_similar_query_best svc Demo.cfg_default Demo.q_revenue_again st
                    Demo.east (world st) H0 He)).
  - vm_compute. reflexivity.
Defined.

(** A similarity equal to the threshold is a miss: the same direction has
    cosine 1, and with the threshold at 1 nothing is returned. *)
Example equal_to_threshold_is_a_miss :
  let svc := Demo.svc_up (Demo.a_query 1 true) in
  let st := snd (store_query svc Demo.q_revenue "SELECT 1" ∅ Demo.empty_state) in
  cosine_similarity (numpy svc) Demo.east Demo.east = 1%float
  /\ fst (get_similar_query svc (Demo.config 1%float 10) Demo.q_revenue_again st) = Ok None.
Proof. vm_compute. repeat split. Qed.

(** Two entries of the same similarity: the first stored is the one hit. *)
Example tie_returns_first_entry :
  let svc := Demo.svc_up (Demo.a_query 1 true) in
  let st1 := snd (store_query svc Demo.q_revenue "SELECT 1" ∅ Demo.empty_state) in
  let st2 := snd (store_query svc Demo.q_revenue_again "SELECT 2" ∅ st1) in
  let out := get_similar_query svc Demo.cfg_default Demo.q_revenue st2 in
  sql_query ∘ snd <$> cache st2 = ["SELECT 1"; "SELECT 2"]%string
  /\ hit_count ∘ snd <$> cache (snd out) = [1; 0]
  /\ sql_query <$> (match fst out with Ok r => r | Raise _ => None end)
     = Some "SELECT 1"%string.
Proof. vm_compute. repeat split. Qed.

(** ** C4 *)

(** C4 fails as stated: nothing guards the division. A very short vector
    (magnitude 2^-60) matches an entry of the same direction with similarity
    1, a hit; and (in binary64) a vector whose squared components underflow
    has a computed magnitude of 0, the division by zero yields an infinity,
    and the infinity is above any threshold. *)
Lemma tiny_vectors_hit :
  let st := snd (store_query Demo.svc_tiny "a" "SELECT 1" ∅ Demo.empty_state) in
  let underflowing : vec float 1 := [# 0x1p-600%float] in
  let other : vec float 1 := [# 0x1p500%float] in
  norm Demo.tiny = 0x1p-60%float
  /\ cosine Demo.tiny Demo.tiny = 1%float
  /\ Demo.hit_count_of (get_similar_query Demo.svc_tiny (Demo.config 0.85%float 10) "b" st)
     = Some 1
  /\ norm underflowing = 0%float
  /\ cosine underflowing other = infinity
  /\ PyFloat.gt (cosine underflowing other) 0.85%float = true.
Proof. vm_compute. repeat split. Qed.

Lemma zero_vector_is_a_miss_witness :
  let st := snd (store_query Demo.svc_zero "a" "SELECT 1" ∅ Demo.empty_state) in
  let zero : vec float 2 := [# 0%float; 0%float] in
  svc_encode Demo.svc_zero "b" (world st) = (Ok zero, world st)
  /\ all_zero zero
  /\ fst (get_similar_query Demo.svc_zero Demo.cfg_default "b" st) = Ok None.
Proof.
  intros st zero.
  assert (He : svc_encode Demo.svc_zero "b" (world st) = (Ok zero, world st))
    by (vm_compute; reflexivity).
  assert (Hz : all_zero zero) by (repeat constructor).
  split; [exact He|]. split; [exact Hz|].
  destruct (zero_vector_is_a_miss Demo.svc_zero Demo.cfg_default "b" st zero (world st) He)
    as (r & Hr & Hnone & _).
  rewrite Hr, (Hnone Hz). reflexivity.
Defined.

(** ** C5 *)

(** C5 fails as stated: with the embedding model down, [ask] raises the
    model's exception; no call of the language model or the query engine
    follows. *)
Lemma embedding_failure_reaches_caller :
  let out := ask Demo.svc_enc_down Demo.cfg_default Demo.q_revenue (Some "s1"%string)
                 Demo.empty_state in
  fst out = Raise (Exception "ConnectionError" "embedding model unavailable")
  /\ calls (snd out) = [CallNow; CallEncode Demo.q_revenue].
Proof. vm_compute. repeat split. Qed.

Lemma lookup_failure_propagates_witness :
  let e := Exception "ConnectionError" "embedding model unavailable" in
  let out := ask Demo.svc_enc_down Demo.cfg_default Demo.q_revenue None Demo.empty_state in
  svc_encode Demo.svc_enc_down Demo.q_revenue
             (world_before_lookup Demo.svc_enc_down None Demo.empty_state)
  = (Raise e, 1)
  /\ fst out = Raise e
  /\ cache (snd out) = []
  /\ sessions (snd out) = ∅
  /\ calls (snd out) = [CallNow; CallUuid; CallEncode Demo.q_revenue].
Proof.
  intros e out.
  assert (He : svc_encode Demo.svc_enc_down Demo.q_revenue
                 (world_before_lookup Demo.svc_enc_down None Demo.empty_state)
               = (Raise e, 1)) by (vm_compute; reflexivity).
  split; [exact He|].
  exact (lookup_failure_propagates Demo.svc_enc_down Demo.cfg_default Demo.q_revenue None
           Demo.empty_state e 1 He).
Defined.

(** ** C6 *)


(** With the flag set the query engine is called once, with the SQL of the
    generated query. *)
Example executes_when_required :
  let sq := Demo.a_query 0.9%float true in
  let out := ask (Demo.svc_up sq) Demo.cfg_default Demo.q_revenue (Some "s1"%string)
                 Demo.empty_state in
  sent_sql (snd out) = [sql sq]
  /\ Demo.field "sql_executed" out = Some (VBool true)
  /\ Demo.field "data" out = Some (VList [VDict [("n"%string, VInt 200)]]).
Proof. vm_compute. repeat split. Qed.

(** ** C7 *)

(** C7 fails as stated: the concept matcher runs before the guarded call;
    for a question without a concept keyword it calls the embedding model,
    and when that call raises, the generation step raises to its caller. *)
Lemma generation_raises_when_embedding_fails :
  List.find (fun concept => PyStr.any_in (context_keywords concept)
                                         (PyStr.lower Demo.q_revenue)) concepts = None
  /\ fst (_generate_sql_with_structured_output Demo.svc_enc_down Demo.cfg_default
            Demo.q_revenue "" (Some "s1"%string) Demo.empty_state)
     = Raise (Exception "ConnectionError" "embedding model unavailable").
Proof. vm_compute. repeat split. Qed.

Lemma generation_falls_back_witness :
  let st1 : @State Z 2 := mkState 0 [] ∅ [CallEncode Demo.q_revenue] in
  let e := Exception "ConnectionError" "language model unavailable" in
  find_relevant_concept Demo.svc_llm_down Demo.cfg_default Demo.q_revenue Demo.empty_state
  = (Ok None, st1)
  /\ fst (_generate_sql_with_structured_output Demo.svc_llm_down Demo.cfg_default
            Demo.q_revenue "" (Some "s1"%string) Demo.empty_state)
     = Ok (fallback_SQLQuery e)
  /\ sql (fallback_SQLQuery e) = "SELECT * FROM tiendas LIMIT 10"%string
  /\ confidence (fallback_SQLQuery e) = 0.1%float
  /\ reasoning (fallback_SQLQuery e)
     = "Error in SQL generation: language model unavailable"%string.
Proof.
  intros st1 e.
  assert (Hc : find_relevant_concept Demo.svc_llm_down Demo.cfg_default Demo.q_revenue
                 Demo.empty_state = (Ok None, st1)) by (vm_compute; reflexivity).
  split; [exact Hc|].
  destruct (generation_falls_back Demo.svc_llm_down Demo.cfg_default Demo.q_revenue ""
              (Some "s1"%string) Demo.empty_state st1 None Hc) as (Hcase & _ & Hfields).
  split; [exact Hcase|].
  destruct (Hfields e) as (Hsql & Hconf & Hreason & _).
  split; [exact Hsql|]. split; [exact Hconf|exact Hreason].
Defined.

(** ** C8 *)

(** C8 fails when [max_turns] is not positive. At 0 the slice [l[-0:]] is
    the whole list, so every turn is kept; at -1 the slice [l[1:]] drops the
    turn just added, and the empty list that is left is still longer than
    the bound. *)
Lemma max_turns_zero_keeps_everything :
  let cfg0 : Config 2 := Demo.config 0.85%float 0 in
  let st0 := add_turns Demo.svc_enc_down cfg0 Demo.three_turns Demo.empty_state in
  let cfg1 : Config 2 := Demo.config 0.85%float (-1) in
  let st1 := add_turns Demo.svc_enc_down cfg1 Demo.three_turns Demo.empty_state in
  max_turns cfg0 = 0
  /\ length (turns_of st0 "s1") = 3%nat
  /\ turn_args <$> turns_of st0 "s1" = Demo.three_turns
  /\ max_turns cfg1 = -1
  /\ sessions st1 !! "s1"%string = Some [].
Proof. vm_compute. repeat split. Qed.

Lemma add_turn_keeps_most_recent_witness :
  let cfg : Config 2 := Demo.config 0.85%float 2 in
  let st := add_turns Demo.svc_enc_down cfg Demo.three_turns Demo.empty_state in
  1 <= max_turns cfg
  /\ sessions (@Demo.empty_state 2) = ∅
  /\ Z.of_nat (length (turns_of st "s1")) <= max_turns cfg
  /\ turn_args <$> turns_of st "s1" = drop 1 Demo.three_turns.
Proof.
  intros cfg st.
  assert (Hmax : 1 <= max_turns cfg) by (vm_compute; discriminate).
  assert (Hempty : sessions (@Demo.empty_state 2) = ∅) by reflexivity.
  split; [exact Hmax|]. split; [exact Hempty|].
  destruct (add_turn_keeps_most_recent Demo.svc_enc_down cfg Demo.three_turns
              Demo.empty_state "s1" Hmax Hempty) as (Hlen & _ & Hk).
  split; [exact Hlen|].
  exact (proj2 (Hk 1%nat eq_refl)).
Defined.

(** ** C9 *)

Lemma cached_answer_leaves_memory_witness :
  let q := Demo.a_query 0.9%float true in
  let svc := Demo.svc_up q in
  let st := Demo.after_revenue q in
  let out := ask svc Demo.cfg_default Demo.q_revenue_again (Some "s1"%string) st in
  fst out = Ok (Demo.response_of out)
  /\ Demo.response_of out !! "cached"%string = Some (VBool true)
  /\ sessions (snd out) = sessions st
  /\ (hit_count ∘ snd <$> cache st) = [0]
  /\ (hit_count ∘ snd <$> cache (snd out)) = [1].
Proof.
  intros q svc st out.
  assert (Hout : fst out = Ok (Demo.response_of out)) by (vm_compute; reflexivity).
  assert (Hcached : Demo.response_of out !! "cached"%string = Some (VBool true))
    by (vm_compute; reflexivity).
  split; [exact Hout|]. split; [exact Hcached|].
  split.
  - exact (proj1 (cached_answer_leaves_memory svc Demo.cfg_default Demo.q_revenue_again
                    (Some "s1"%string) st (Demo.response_of out) Hout Hcached)).
  - vm_compute. split; reflexivity.
Defined.

(** ** C10 *)



(* ====================================================================== *)
(** * Further properties of the code

    Under the conventions above: the schema text is the one built at
    start-up; where a statement lists the exceptions that [ask] can raise,
    the questions are in ASCII, so that taking the key of a question
    raises nothing. *)

(** ** Which exceptions a method can raise *)

Section RaiseFacts.

Context {W : Type} {dim : nat}.
Variable svc : Services W dim.
Variable cfg : Config dim.
Variable P : exn -> Prop.

Lemma raises_only_ret {A : Type} (a : A) : raises_only P (@ret W dim A a).
Proof. intros st e. discriminate. Qed.

Lemma raises_only_bind {A B : Type} (m : @M W dim A) (k : A -> M B) :
  raises_only P m -> (forall a, raises_only P (k a)) -> raises_only P (bind m k).
Proof.
  intros Hm Hk st e. unfold bind. specialize (Hm st).
  destruct (m st) as [[a|e'] st']; simpl in *.
  - apply Hk.
  - intros H. inversion H; subst e'. apply Hm. reflexivity.
Qed.

(** A handler that returns makes the guarded block return. *)
Lemma raises_only_handled {A : Type} (m : @M W dim A) (h : exn -> M A) :
  (forall e, raises_only P (h e)) -> raises_only P (try_except m h).
Proof.
  intros Hh st e. unfold try_except.
  destruct (m st) as [[a|e'] st']; simpl; [discriminate|apply Hh].
Qed.

Lemma raises_only_call_now : raises_only P (call_now svc).
Proof. intros st e. unfold call_now. destruct (svc_now svc (world st)). discriminate. Qed.

Lemma raises_only_call_uuid4 : raises_only P (call_uuid4 svc).
Proof. intros st e. unfold call_uuid4. destruct (svc_uuid4 svc (world st)). discriminate. Qed.

Lemma raises_only_get_sessions : raises_only P (@get_sessions W dim).
Proof. intros st e. discriminate. Qed.

Lemma raises_only_get_cache : raises_only P (@get_cache W dim).
Proof. intros st e. discriminate. Qed.

Lemma raises_only_set_cache (c : list (string * CacheEntry dim)) :
  raises_only P (@set_cache W dim c).
Proof. intros st e. discriminate. Qed.

Lemma raises_only_set_sessions (ss : gmap string (list ConversationTurn)) :
  raises_only P (@set_sessions W dim ss).
Proof. intros st e. discriminate. Qed.

Lemma raises_only_getitem (d : gmap string value) (k : string) :
  is_Some (d !! k) -> raises_only P (@getitem W dim d k).
Proof. intros [v Hv] st e. unfold getitem. rewrite Hv. discriminate. Qed.

Lemma raises_only_lift {A : Type} (r : res A) :
  (forall e, r = Raise e -> P e) -> raises_only P (@lift W dim A r).
Proof. intros Hr st e. unfold lift. simpl. apply Hr. Qed.

Lemma raises_only_weaken {A : Type} (Q : exn -> Prop) (m : @M W dim A) :
  (forall e, Q e -> P e) -> raises_only Q m -> raises_only P m.
Proof. intros HQ Hm st e He. apply HQ, (Hm st e He). Qed.

End RaiseFacts.

Ltac raise_step :=
  first
    [ apply raises_only_ret
    | apply raises_only_call_now
    | apply raises_only_call_uuid4
    | apply raises_only_get_sessions
    | apply raises_only_get_cache
    | apply raises_only_set_cache
    | apply raises_only_set_sessions
    | apply raises_only_handled; intros ?
    | apply raises_only_bind; [|intros ?] ].

Section EncoderFacts.

Context {W : Type} {dim : nat}.
Variable svc : Services W dim.
Variable cfg : Config dim.

Lemma call_encode_raises (text : string) :
  raises_only (from_encoder svc text) (call_encode svc text).
Proof.
  intros st e. unfold call_encode.
  destruct (svc_encode svc text (world st)) as [r w] eqn:He. simpl.
  intros ->. exists (world st), w. exact He.
Qed.

Lemma get_similar_query_raises_only (query : string) :
  raises_only (from_encoder svc query) (get_similar_query svc cfg query).
Proof.
  unfold get_similar_query.
  apply raises_only_bind; [apply call_encode_raises|intros q].
  apply raises_only_bind; [raise_step|intros c].
  destruct (scan_cache _ _ _ _ _ _ _) as [[i best]|]; repeat raise_step.
Qed.

Lemma store_query_raises_only (query sql_text : string) (response : gmap string value) :
  raises_only (from_encoder svc query) (store_query svc query sql_text response).
Proof.
  unfold store_query.
  apply raises_only_bind; [apply call_encode_raises|intros q].
  repeat raise_step.
Qed.

Lemma add_turn_raises_only (P : exn -> Prop) (sid q a s : string) :
  raises_only P (add_turn svc cfg sid q a s).
Proof. unfold add_turn. repeat raise_step. Qed.

Lemma set_stored_item_raises_only (P : exn -> Prop) (key k : string) (v : value) :
  raises_only P (@set_stored_item W dim key k v).
Proof.
  unfold set_stored_item. apply raises_only_bind; [raise_step|intros c].
  destruct (PyDict.get key c); raise_step.
Qed.

Lemma find_relevant_concept_raises_only (query : string) :
  raises_only (from_encoder svc query) (find_relevant_concept svc cfg query).
Proof.
  unfold find_relevant_concept. destruct (List.find _ _); [raise_step|].
  apply raises_only_bind; [apply call_encode_raises|intros q]. raise_step.
Qed.

Lemma generate_sql_raises_only (question context : string) (sid : option string) :
  raises_only (from_encoder svc question)
              (_generate_sql_with_structured_output svc cfg question context sid).
Proof.
  unfold _generate_sql_with_structured_output.
  apply raises_only_bind; [apply find_relevant_concept_raises_only|intros c].
  repeat raise_step.
Qed.

Lemma execute_query_raises_only (P : exn -> Prop) (sql_text : string) :
  raises_only P (_execute_query svc sql_text).
Proof. unfold _execute_query. repeat raise_step. Qed.

(** [_generate_insights] raises only what [json.dumps] raises. *)
Lemma generate_insights_raises_only (question : string)
    (rows : list (list (string * value))) :
  raises_only (from_dumps svc) (_generate_insights svc cfg question rows).
Proof.
  unfold _generate_insights.
  repeat match goal with |- context [if ?b then _ else _] => destruct b end;
    try (apply raises_only_bind;
         [apply raises_only_lift; intros e He; eexists; exact He|intros summary]);
    repeat raise_step.
Qed.

Lemma ask_generated_raises_only (question : string) (t0 : Z) (sid : string)
    (sq : SQLQuery) :
  raises_only (from_encoders svc question) (ask_generated svc cfg question t0 sid sq).
Proof.
  unfold ask_generated.
  apply raises_only_bind;
    [destruct (requires_execution sq); [apply execute_query_raises_only|raise_step]
    |intros rows].
  apply raises_only_bind;
    [apply (raises_only_weaken _ (from_dumps svc));
       [intros e He; right; exact He|apply generate_insights_raises_only]
    |intros ins].
  apply raises_only_bind; [raise_step|intros now].
  apply raises_only_bind;
    [apply (raises_only_weaken _ (from_encoder svc question));
       [intros e He; left; exact He|apply store_query_raises_only]
    |intros _].
  apply raises_only_bind; [apply add_turn_raises_only|intros _].
  apply raises_only_bind; [apply set_stored_item_raises_only|intros _].
  raise_step.
Qed.

Lemma ask_uncached_raises_only (question : string) (t0 : Z) (sid : string) :
  raises_only (from_encoders svc question) (ask_uncached svc cfg question t0 sid).
Proof.
  unfold ask_uncached.
  apply raises_only_bind;
    [apply (raises_only_weaken _ (from_encoder svc question));
       [intros e He; left; exact He|apply generate_sql_raises_only]
    |intros sq].
  apply ask_generated_raises_only.
Qed.

Lemma ask_cached_raises_only (P : exn -> Prop) (question : string) (t0 : Z)
    (c : CacheEntry dim) :
  ready (results c) -> raises_only P (ask_cached svc question t0 c).
Proof.
  intros (Ha & Hd & Hi). unfold ask_cached.
  apply raises_only_bind; [raise_step|intros now].
  apply raises_only_bind; [apply raises_only_getitem; exact Ha|intros a].
  apply raises_only_bind; [apply raises_only_getitem; exact Hd|intros d].
  apply raises_only_bind; [apply raises_only_getitem; exact Hi|intros i].
  raise_step.
Qed.

End EncoderFacts.

(** ** Invariants of the state *)

Section KeepFacts.

Context {W : Type} {dim : nat}.
Variable I : @State W dim -> Prop.

Lemma keeps_bind {A B : Type} (m : @M W dim A) (k : A -> M B) :
  keeps I m -> (forall a, keeps I (k a)) -> keeps I (bind m k).
Proof.
  intros Hm Hk st Hst. unfold bind. specialize (Hm st Hst).
  destruct (m st) as [[a|e] st']; simpl in *; [apply Hk|]; exact Hm.
Qed.

Lemma keeps_ret {A : Type} (a : A) : keeps I (@ret W dim A a).
Proof. intros st Hst. exact Hst. Qed.

End KeepFacts.

Section ReadyFacts.

Context {W : Type} {dim : nat}.
Variable svc : Services W dim.
Variable cfg : Config dim.

Lemma hit_ready_cache (st st' : @State W dim) :
  cache st' = cache st -> hit_ready st -> hit_ready st'.
Proof. unfold hit_ready. intros ->. auto. Qed.

(** A computation that leaves the cache alone keeps it ready. *)
Lemma keeps_ready_of_frame {A : Type} (m : @M W dim A) :
  preserves (@cache W dim) m -> keeps hit_ready m.
Proof. intros Hm st Hst. eapply hit_ready_cache; [apply Hm|exact Hst]. Qed.

Lemma Forall_pydict_set {V : Type} (Q : string * V -> Prop) (d : list (string * V))
    (k : string) (v : V) :
  Forall Q d -> Q (k, v) -> Forall Q (PyDict.set k v d).
Proof.
  intros Hd Hv. induction Hd as [|[k' v'] d Hx Hd IH]; simpl.
  - constructor; [exact Hv|constructor].
  - destruct (String.eqb k k'); constructor; auto.
Qed.

Lemma pydict_get_elem {V : Type} (d : list (string * V)) (k : string) (v : V) :
  PyDict.get k d = Some v -> exists k', (k', v) ∈ d.
Proof.
  induction d as [|[k' v'] d IH]; simpl; [discriminate|].
  destruct (String.eqb k k').
  - intros H. inversion H; subst. exists k'. apply list_elem_of_here.
  - intros H. destruct (IH H) as [k0 Hk0]. exists k0. apply list_elem_of_further. exact Hk0.
Qed.

Lemma ready_insert (r : gmap string value) (k : string) (v : value) :
  ready r -> ready (<[k := v]> r).
Proof.
  intros (Ha & Hd & Hi). unfold ready.
  rewrite !lookup_insert_is_Some'. auto.
Qed.

Lemma ready_built (question answer : string) (sq : SQLQuery)
    (rows : list (list (string * value))) (ins : DataInsight) (et : float) :
  ready (built_response question answer sq rows ins et).
Proof. repeat split; eexists; reflexivity. Qed.

Lemma get_similar_query_keeps_ready (query : string) :
  keeps hit_ready (get_similar_query svc cfg query).
Proof.
  intros st Hst.
  destruct (svc_encode svc query (world st)) as [[q|e] w] eqn:He.
  - rewrite (get_similar_query_run _ _ _ _ _ _ He).
    destruct (scan_cache _ _ _ _ _ _ _) as [[i best]|]; simpl; [|exact Hst].
    unfold hit_ready in *. simpl.
    apply Forall_alter; [exact Hst|].
    intros [k e] _ Hk. exact Hk.
  - rewrite (get_similar_query_raises _ _ _ _ _ _ He). exact Hst.
Qed.

(** The entry a lookup returns from a ready cache is ready. *)
Lemma get_similar_query_hit_ready (query : string) (st : State) (hit : CacheEntry dim) :
  hit_ready st ->
  fst (get_similar_query svc cfg query st) = Ok (Some hit) ->
  ready (results hit).
Proof.
  intros Hst Hhit.
  destruct (get_similar_query_hit svc cfg query st hit Hhit) as (i & k & e & Hi & -> & _).
  unfold hit_ready in Hst. rewrite Forall_lookup in Hst.
  exact (Hst i (k, e) Hi).
Qed.

Lemma store_query_keeps_ready (query sql_text : string) (response : gmap string value) :
  ready response -> keeps hit_ready (store_query svc query sql_text response).
Proof.
  intros Hr st Hst.
  unfold store_query, bind, call_encode, call_now, get_cache, set_cache.
  destruct (svc_encode svc query (world st)) as [[emb|e] w]; simpl; [|exact Hst].
  destruct (svc_now svc w) as [t w']. simpl.
  unfold hit_ready. simpl. apply Forall_pydict_set; [exact Hst|exact Hr].
Qed.

Lemma set_stored_item_keeps_ready (key k : string) (v : value) :
  keeps hit_ready (@set_stored_item W dim key k v).
Proof.
  intros st Hst. unfold set_stored_item, bind, get_cache. simpl.
  destruct (PyDict.get key (cache st)) as [e|] eqn:Hget; [|exact Hst].
  unfold hit_ready. simpl. apply Forall_pydict_set; [exact Hst|].
  simpl. apply ready_insert.
  destruct (pydict_get_elem _ _ _ Hget) as [k' Hk'].
  unfold hit_ready in Hst. rewrite Forall_forall in Hst.
  exact (Hst (k', e) Hk').
Qed.

Lemma ask_generated_keeps_ready (question : string) (t0 : Z) (sid : string)
    (sq : SQLQuery) :
  keeps hit_ready (ask_generated svc cfg question t0 sid sq).
Proof.
  unfold ask_generated.
  apply keeps_bind.
  { destruct (requires_execution sq).
    - apply keeps_ready_of_frame, execute_query_frames.
    - apply keeps_ret. }
  intros rows.
  apply keeps_bind; [apply keeps_ready_of_frame, generate_insights_frames|intros ins].
  apply keeps_bind; [apply keeps_ready_of_frame, call_now_frames|intros now].
  apply keeps_bind; [apply store_query_keeps_ready, ready_built|intros _].
  apply keeps_bind; [apply keeps_ready_of_frame, add_turn_frames|intros _].
  apply keeps_bind; [apply set_stored_item_keeps_ready|intros _].
  apply keeps_ret.
Qed.

Lemma ask_keeps_ready (question : string) (sid : option string) :
  keeps hit_ready (ask svc cfg question sid).
Proof.
  intros st Hst. rewrite ask_run.
  assert (H0 : hit_ready (state_before_lookup svc sid st)) by exact Hst.
  pose proof (get_similar_query_keeps_ready question _ H0) as H1.
  destruct (get_similar_query svc cfg question (state_before_lookup svc sid st))
    as [[[c|]|e] st2]; simpl in H1.
  - eapply hit_ready_cache; [apply ask_cached_frames|exact H1].
  - unfold ask_uncached.
    apply keeps_bind; [apply keeps_ready_of_frame, generate_sql_frames
                      |intros sq; apply ask_generated_keeps_ready|exact H1].
  - exact H1.
Qed.

Lemma asks_keeps_ready (qs : list (string * option string)) (st : State) :
  hit_ready st -> hit_ready (asks svc cfg qs st).
Proof.
  revert st. induction qs as [|[q sid] qs IH]; intros st Hst; simpl; [exact Hst|].
  apply IH, ask_keeps_ready, Hst.
Qed.

(** From a ready cache, an exception of [ask] is one of the embedding
    model, raised for the question, or one of [json.dumps]. *)
Lemma ask_raises_cases (question : string) (sid : option string) (st : State)
    (e : exn) :
  hit_ready st ->
  fst (ask svc cfg question sid st) = Raise e ->
  from_encoders svc question e.
Proof.
  intros Hst. rewrite ask_run.
  assert (H0 : hit_ready (state_before_lookup svc sid st)) by exact Hst.
  pose proof (get_similar_query_hit_ready question (state_before_lookup svc sid st)) as Hhit.
  pose proof (get_similar_query_raises_only svc cfg question
                (state_before_lookup svc sid st)) as Hl.
  destruct (get_similar_query svc cfg question (state_before_lookup svc sid st))
    as [[[c|]|e'] st2]; simpl in *.
  - apply ask_cached_raises_only. apply (Hhit c H0). reflexivity.
  - apply ask_uncached_raises_only.
  - intros H. inversion H; subst e'. left. apply Hl. reflexivity.
Qed.

(** X1: Whatever ASCII questions were asked before, starting from a ready
    cache (an empty one is ready): the cache is still ready; an exception
    that [ask] raises for an ASCII question is one the embedding model
    raised for this question, or one [json.dumps] raised on the rows; so
    [ask] returns a response when the embedding model answers every request
    and [json.dumps] serializes every value. Failures of the language model
    and of the query engine never reach the caller. *)
Theorem ask_raises_only_from_encoders (qs : list (string * option string))
    (question : string) (sid : option string) (st : State) :
  hit_ready st ->
  ascii_questions qs ->
  PyStr.is_ascii question = true ->
  let st' := asks svc cfg qs st in
  hit_ready st'
  /\ (forall e, fst (ask svc cfg question sid st') = Raise e ->
        (exists w w', svc_encode svc question w = (Raise e, w'))
        \/ (exists v, json_dumps svc v = Raise e))
  /\ (encode_answers svc -> dumps_answers svc ->
      exists r, fst (ask svc cfg question sid st') = Ok r).
Proof.
  intros Hst _ _ st'.
  assert (Hst' : hit_ready st') by (apply asks_keeps_ready; exact Hst).
  assert (Hraise : forall e, fst (ask svc cfg question sid st') = Raise e ->
                             from_encoders svc question e)
    by (intros e; apply ask_raises_cases; exact Hst').
  split; [exact Hst'|]. split; [exact Hraise|].
  intros Henc Hdumps.
  destruct (fst (ask svc cfg question sid st')) as [r|e] eqn:Hout; [eauto|].
  exfalso. destruct (Hraise e eq_refl) as [(w & w' & He)|(v & Hv)].
  - destruct (Henc question w) as (v & w'' & Hv). congruence.
  - destruct (Hdumps v) as (text & Ht). congruence.
Qed.

End ReadyFacts.

(** ** What an answered question leaves behind *)

Section PersistFacts.

Context {W : Type} {dim : nat}.
Variable svc : Services W dim.
Variable cfg : Config dim.

Lemma last_n_snoc_last {A : Type} (n : nat) (l : list A) (x : A) :
  (1 <= n)%nat -> last (last_n n (l ++ [x])) = Some x.
Proof.
  intros Hn. unfold last_n. rewrite length_app. simpl.
  rewrite drop_app_le by lia. apply last_snoc.
Qed.

(** The state after the miss path returned: the cache holds, under the key
    of the question, an entry with the returned response; the session has
    the new turn last. *)
Lemma ask_generated_persists (question : string) (t0 : Z) (sid : string)
    (sq : SQLQuery) (st st' : State) (r : gmap string value) :
  ask_generated svc cfg question t0 sid sq st = (Ok r, st') ->
  (exists e e0,
     cache st' = PyDict.set (_get_query_key question) e
                   (PyDict.set (_get_query_key question) e0 (cache st))
     /\ results e = r /\ sql_query e = sql sq /\ hit_count e = 0
     /\ exists w w', svc_encode svc question w = (Ok (query_embedding e), w'))
  /\ (1 <= max_turns cfg ->
      exists t old,
        sessions st' = <[sid := last_n (Z.to_nat (max_turns cfg)) (old ++ [t])]> (sessions st)
        /\ old = turns_of st sid
        /\ turn_question t = question
        /\ r !! "answer"%string = Some (VStr (turn_answer t))
        /\ turn_sql_used t = sql sq
        /\ turn_session_id t = sid)
  /\ r !! "sql_used"%string = Some (VStr (sql sq)).
Proof.
  unfold ask_generated.
  set (exec := if requires_execution sq then _execute_query svc (sql sq)
               else ret [placeholder_row]).
  assert (Hexec : preserves (@cache W dim) exec /\ preserves (@sessions W dim) exec).
  { unfold exec. destruct (requires_execution sq).
    - split; apply execute_query_frames.
    - split; apply preserves_ret. }
  unfold bind at 1.
  pose proof (proj1 Hexec st) as Hc1. pose proof (proj2 Hexec st) as Hs1.
  destruct (exec st) as [[rows|e] st1]; [|discriminate]. simpl in Hc1, Hs1.
  unfold bind at 1.
  pose proof (proj1 (generate_insights_frames svc cfg question rows) st1) as Hc2.
  pose proof (proj1 (proj2 (generate_insights_frames svc cfg question rows)) st1) as Hs2.
  destruct (_generate_insights svc cfg question rows st1) as [[ins|e] st2]; [|discriminate].
  simpl in Hc2, Hs2.
  unfold bind at 1. unfold call_now at 1.
  destruct (svc_now svc (world st2)) as [now w]. simpl.
  set (response := built_response question (answer_of ins sq) sq rows ins
                                   (total_seconds (now - t0))).
  set (st2' := after_call CallNow w st2).
  unfold bind at 1.
  pose proof (store_query_run svc question (sql sq) response st2') as Hstore.
  destruct (store_query svc question (sql sq) response st2') as [[[]|e] st3];
    [|discriminate].
  destruct (Hstore eq_refl) as (e0 & He0 & Hc3 & Hs3). simpl in Hc3, Hs3.
  unfold bind at 1.
  pose proof (add_turn_sessions svc cfg sid question (answer_of ins sq) (sql sq) st3)
    as Hs4.
  pose proof (proj1 (add_turn_frames svc cfg sid question (answer_of ins sq) (sql sq)) st3)
    as Hc4.
  destruct (add_turn svc cfg sid question (answer_of ins sq) (sql sq) st3)
    as [[[]|e] st4]; [|discriminate].
  simpl in Hs4, Hc4.
  unfold bind at 1. unfold set_stored_item, bind, get_cache. simpl.
  assert (Hget : PyDict.get (_get_query_key question) (cache st4) = Some e0).
  { rewrite Hc4, Hc3. apply pydict_get_set_eq. }
  rewrite Hget. simpl. intros Hr. inversion Hr; subst r st'. clear Hr.
  assert (He0' : sql_query e0 = sql sq /\ results e0 = response /\ hit_count e0 = 0
                 /\ exists w w', svc_encode svc question w = (Ok (query_embedding e0), w')).
  { unfold stored_entry in He0.
    destruct (svc_encode svc question (world st2')) as [[emb|?] w'] eqn:Henc; [|discriminate].
    inversion He0; subst e0. simpl. eauto 6. }
  destruct He0' as (Hsql & Hres & Hhit & Hemb).
  split; [|split; [|reflexivity]].
  - eexists. exists e0. split.
    + simpl. rewrite Hc4, Hc3. unfold st2'. simpl. rewrite Hc2, Hc1. reflexivity.
    + simpl. rewrite Hres. auto.
  - intros Hmax. specialize (Hs4 Hmax). eexists. eexists. split.
    + simpl. rewrite Hs4. unfold turns_of. rewrite Hs3. unfold st2'. simpl.
      rewrite Hs2, Hs1. reflexivity.
    + repeat split.
Qed.

(** The run of [ask] on a cache miss, down to the generated query. *)
Lemma ask_miss_run (question : string) (sid : option string) (st st' : State)
    (r : gmap string value) :
  ask svc cfg question sid st = (Ok r, st') ->
  r !! "cached"%string = Some (VBool false) ->
  exists sq st3,
    ask_generated svc cfg question (fst (svc_now svc (world st)))
                  (session_of svc sid st) sq st3 = (Ok r, st')
    /\ cache st3 = cache st
    /\ sessions st3 = sessions st
    /\ fst (get_similar_query svc cfg question (state_before_lookup svc sid st)) = Ok None.
Proof.
  rewrite ask_run.
  pose proof (get_similar_query_miss svc cfg question (state_before_lookup svc sid st))
    as Hc.
  pose proof (proj1 (get_similar_query_frames svc cfg question)
                    (state_before_lookup svc sid st)) as Hs.
  destruct (get_similar_query svc cfg question (state_before_lookup svc sid st))
    as [[[c|]|e] st2]; simpl in *; [| |discriminate].
  - intros Hr Hcached. exfalso.
    assert (Hr' : fst (ask_cached svc question (fst (svc_now svc (world st))) c st2) = Ok r)
      by (rewrite Hr; reflexivity).
    apply ask_cached_result in Hr'. destruct Hr' as (a & d & i & et & ->).
    discriminate.
  - unfold ask_uncached. unfold bind at 1.
    pose proof (proj1 (generate_sql_frames svc cfg question ""
                         (Some (session_of svc sid st))) st2) as Hc3.
    pose proof (proj1 (proj2 (generate_sql_frames svc cfg question ""
                                (Some (session_of svc sid st)))) st2) as Hs3.
    destruct (_generate_sql_with_structured_output svc cfg question "" _ st2)
      as [[sq|e] st3]; [|discriminate].
    simpl in *. intros Hr _. exists sq, st3.
    split; [exact Hr|]. split; [rewrite Hc3; auto|]. split; [rewrite Hs3; exact Hs|].
    reflexivity.
Qed.

(** X3: After [ask] returned a response with cached false (with room for at
    least one turn per session): the cache holds, under the key of the
    question, an entry with a hit count of 0 whose stored response is the
    returned one, session id included, and whose SQL is the reported one;
    no other key changed; the session the question was asked in has a new
    last turn with the question, the answer and the SQL of the response;
    the other sessions are as they were. *)
Theorem uncached_answer_is_remembered (question : string) (sid : option string)
    (st : State) (r : gmap string value) :
  1 <= max_turns cfg ->
  fst (ask svc cfg question sid st) = Ok r ->
  r !! "cached"%string = Some (VBool false) ->
  let st' := snd (ask svc cfg question sid st) in
  let session := session_of svc sid st in
  (exists e, PyDict.get (_get_query_key question) (cache st') = Some e
             /\ results e = r
             /\ r !! "sql_used"%string = Some (VStr (sql_query e))
             /\ hit_count e = 0)
  /\ (forall k, k <> _get_query_key question ->
         PyDict.get k (cache st') = PyDict.get k (cache st))
  /\ (exists t, last (turns_of st' session) = Some t
                /\ turn_question t = question
                /\ r !! "answer"%string = Some (VStr (turn_answer t))
                /\ r !! "sql_used"%string = Some (VStr (turn_sql_used t))
                /\ turn_session_id t = session)
  /\ (forall sid', sid' <> session -> turns_of st' sid' = turns_of st sid').
Proof.
  intros Hmax Hr Hcached st' session.
  destruct (ask svc cfg question sid st) as [out st1] eqn:Hrun.
  simpl in Hr. subst out. unfold st'. simpl. clear st'.
  destruct (ask_miss_run question sid st st1 r Hrun Hcached)
    as (sq & st3 & Hgen & Hc3 & Hs3 & _).
  destruct (ask_generated_persists question _ _ sq st3 st1 r Hgen)
    as ((e & e0 & Hcache & Hres & Hsql & Hhit & _) & Hturn & Hused).
  destruct (Hturn Hmax) as (t & old & Hsess & Hold & Hq & Ha & Hs & Hid).
  fold session in Hsess, Hid, Hold.
  split; [|split; [|split]].
  - exists e. rewrite Hcache, pydict_get_set_eq.
    split; [reflexivity|]. split; [exact Hres|]. split; [|exact Hhit].
    rewrite Hsql. exact Hused.
  - intros k Hk. rewrite Hcache, !pydict_get_set_ne by exact Hk.
    rewrite Hc3. reflexivity.
  - exists t. unfold turns_of. rewrite Hsess, lookup_insert_eq. simpl.
    split; [apply last_n_snoc_last; lia|].
    split; [exact Hq|]. split; [exact Ha|]. split; [|exact Hid].
    rewrite Hs. exact Hused.
  - intros sid' Hne. unfold turns_of. rewrite Hsess, lookup_insert_ne by auto.
    rewrite Hs3. reflexivity.
Qed.

End PersistFacts.

(** ** What a cache hit costs and returns *)

Section HitFacts.

Context {W : Type} {dim : nat}.
Variable svc : Services W dim.
Variable cfg : Config dim.

Lemma get_similar_query_calls (query : string) (st : State) :
  calls (snd (get_similar_query svc cfg query st)) = calls st ++ [CallEncode query].
Proof.
  destruct (svc_encode svc query (world st)) as [[q|e] w] eqn:He.
  - rewrite (get_similar_query_run _ _ _ _ _ _ He).
    destruct (scan_cache _ _ _ _ _ _ _) as [[i best]|]; reflexivity.
  - rewrite (get_similar_query_raises _ _ _ _ _ _ He). reflexivity.
Qed.

Lemma ask_cached_run (question : string) (t0 : Z) (c : CacheEntry dim)
    (st st' : State) (r : gmap string value) :
  ask_cached svc question t0 c st = (Ok r, st') ->
  calls st' = calls st ++ [CallNow]
  /\ r !! "question"%string = Some (VStr question)
  /\ r !! "answer"%string = results c !! "answer"%string
  /\ r !! "data"%string = results c !! "data"%string
  /\ r !! "insights"%string = results c !! "insights"%string
  /\ r !! "sql_used"%string = Some (VStr (sql_query c))
  /\ r !! "session_id"%string = None
  /\ r !! "cached"%string = Some (VBool true).
Proof.
  unfold ask_cached. unfold bind at 1. unfold call_now at 1.
  destruct (svc_now svc (world st)) as [now w]. simpl.
  unfold bind at 1. unfold getitem at 1.
  destruct (results c !! "answer"%string) as [a|]; [|discriminate].
  unfold ret at 1. unfold bind at 1. unfold getitem at 1.
  destruct (results c !! "data"%string) as [d|]; [|discriminate].
  unfold ret at 1. unfold bind at 1. unfold getitem at 1.
  destruct (results c !! "insights"%string) as [i|]; [|discriminate].
  simpl. intros Hr. inversion Hr; subst. repeat split.
Qed.

(** The run of [ask] on a cache hit. *)
Lemma ask_hit_run (question : string) (sid : option string) (st st' : State)
    (r : gmap string value) :
  ask svc cfg question sid st = (Ok r, st') ->
  r !! "cached"%string = Some (VBool true) ->
  exists c st2,
    get_similar_query svc cfg question (state_before_lookup svc sid st) = (Ok (Some c), st2)
    /\ ask_cached svc question (fst (svc_now svc (world st))) c st2 = (Ok r, st').
Proof.
  rewrite ask_run.
  destruct (get_similar_query svc cfg question (state_before_lookup svc sid st))
    as [[[c|]|e] st2]; simpl in *; [| |discriminate].
  - intros Hr _. eauto.
  - intros Hr Hcached. exfalso. unfold ask_uncached in Hr. unfold bind at 1 in Hr.
    destruct (_generate_sql_with_structured_output svc cfg question "" _ st2)
      as [[sq|e] st3]; [|discriminate].
    assert (Hr' : fst (ask_generated svc cfg question (fst (svc_now svc (world st)))
                         (session_of svc sid st) sq st3) = Ok r)
      by (rewrite Hr; reflexivity).
    apply ask_generated_result in Hr'. destruct Hr' as (rows & ins & et & -> & _).
    rewrite lookup_insert_ne in Hcached by discriminate. discriminate.
Qed.

(** X2: A response with cached true costs one embedding call and two clock
    readings (and a uuid when no session was given): no chat completion and
    no query. Its answer, data, insights and SQL are those of a stored
    entry, its question is the one just asked, and it names no session. *)
Theorem cache_hit_calls_no_model (question : string) (sid : option string)
    (st : State) (r : gmap string value) :
  fst (ask svc cfg question sid st) = Ok r ->
  r !! "cached"%string = Some (VBool true) ->
  calls (snd (ask svc cfg question sid st))
  = calls st ++ CallNow :: match sid with None => [CallUuid] | Some _ => [] end
    ++ [CallEncode question; CallNow]
  /\ (exists i k e,
        cache st !! i = Some (k, e)
        /\ r !! "answer"%string = results e !! "answer"%string
        /\ r !! "data"%string = results e !! "data"%string
        /\ r !! "insights"%string = results e !! "insights"%string
        /\ r !! "sql_used"%string = Some (VStr (sql_query e)))
  /\ r !! "question"%string = Some (VStr question)
  /\ r !! "session_id"%string = None.
Proof.
  intros Hr Hcached.
  destruct (ask svc cfg question sid st) as [out st'] eqn:Hrun.
  simpl in Hr. subst out. simpl.
  destruct (ask_hit_run question sid st st' r Hrun Hcached) as (c & st2 & Hlook & Hhit).
  destruct (ask_cached_run question _ c st2 st' r Hhit)
    as (Hcalls & Hq & Ha & Hd & Hi & Hsql & Hsid & _).
  pose proof (get_similar_query_calls question (state_before_lookup svc sid st)) as Hc2.
  rewrite Hlook in Hc2. simpl in Hc2.
  split; [|split; [|split; [exact Hq|exact Hsid]]].
  - rewrite Hcalls, Hc2. rewrite <- !app_assoc. simpl.
    destruct sid; reflexivity.
  - destruct (get_similar_query_hit svc cfg question (state_before_lookup svc sid st) c)
      as (i & k & e & Hie & -> & _); [rewrite Hlook; reflexivity|].
    exists i, k, e. split; [exact Hie|]. auto.
Qed.

End HitFacts.

(** ** Asking again *)

Section AgainFacts.

Context {W : Type} {dim : nat}.
Variable svc : Services W dim.
Variable cfg : Config dim.

(** What the scan returns qualifies; when it returns nothing, no entry
    does. *)
Lemma scan_cache_qualifies (q : vec float dim) (entries : list (CacheEntry dim)) :
  PrimFloat.leb 0 (np_float (numpy svc) (similarity_threshold cfg)) = true ->
  match scan_cache (numpy svc) (similarity_threshold cfg) q entries 0%nat None 0%float with
  | Some (i, e) => entries !! i = Some e
                   /\ qualifies (numpy svc) (similarity_threshold cfg) q e
  | None => forall e, e ∈ entries ->
              qualifies (numpy svc) (similarity_threshold cfg) q e -> False
  end.
Proof.
  intros H0.
  destruct (scan_cache_inv (numpy svc) (similarity_threshold cfg) q entries [] None
                           0%float H0) as [bs Hinv].
  { simpl. split; [reflexivity|]. intros e Hin. apply not_elem_of_nil in Hin. contradiction. }
  simpl in Hinv.
  destruct (scan_cache (numpy svc) (similarity_threshold cfg) q entries 0 None 0%float)
    as [[i e]|]; simpl in Hinv.
  - destruct Hinv as (_ & Hi & Hq & _). auto.
  - destruct Hinv as [_ Hnone]. intros e He Hq. apply Hnone in He.
    unfold qualifies in Hq. congruence.
Qed.

Lemma pydict_values_set {V : Type} (d : list (string * V)) (k : string) (v x : V) :
  x ∈ PyDict.values (PyDict.set k v d) -> x = v \/ x ∈ PyDict.values d.
Proof.
  unfold PyDict.values. induction d as [|[k' v'] d IH]; simpl.
  - intros H. apply list_elem_of_singleton in H. auto.
  - destruct (String.eqb k k'); simpl; intros H; apply elem_of_cons in H.
    + destruct H as [->|H]; [auto|]. right. apply list_elem_of_further. exact H.
    + destruct H as [->|H]; [right; apply list_elem_of_here|].
      destruct (IH H) as [->|H']; [auto|]. right. apply list_elem_of_further. exact H'.
Qed.

Lemma pydict_set_set {V : Type} (d : list (string * V)) (k : string) (v v0 : V) :
  PyDict.set k v (PyDict.set k v0 d) = PyDict.set k v d.
Proof.
  induction d as [|[k' v'] d IH]; simpl.
  - rewrite String.eqb_refl. reflexivity.
  - destruct (String.eqb k k') eqn:E; simpl.
    + rewrite String.eqb_refl. reflexivity.
    + rewrite E, IH. reflexivity.
Qed.

Lemma pydict_values_set_in {V : Type} (d : list (string * V)) (k : string) (v : V) :
  v ∈ PyDict.values (PyDict.set k v d).
Proof.
  unfold PyDict.values. induction d as [|[k' v'] d IH]; simpl.
  - apply list_elem_of_here.
  - destruct (String.eqb k k'); simpl; [apply list_elem_of_here|].
    apply list_elem_of_further. exact IH.
Qed.

(** X4: The cache is shared by all sessions. With a threshold that numpy
    compares as a number that is not negative, and an embedding model that
    returns for the question the same vector [v] whenever asked, [v] being
    more similar to itself than the threshold as numpy computes and compares
    them: once [ask] has answered the question past the cache, asking it
    again, in any session, returns a response with cached true that repeats
    the answer, the data, the insights and the SQL of the first. *)
Theorem repeated_question_is_served_from_cache (question : string)
    (sid sid' : option string) (st : State) (r : gmap string value) (v : vec float dim) :
  PrimFloat.leb 0 (np_float (numpy svc) (similarity_threshold cfg)) = true ->
  (forall w, exists w', svc_encode svc question w = (Ok v, w')) ->
  PyFloat.gt (cosine_similarity (numpy svc) v v)
             (np_float (numpy svc) (similarity_threshold cfg)) = true ->
  fst (ask svc cfg question sid st) = Ok r ->
  r !! "cached"%string = Some (VBool false) ->
  let st1 := snd (ask svc cfg question sid st) in
  exists r', fst (ask svc cfg question sid' st1) = Ok r'
             /\ r' !! "cached"%string = Some (VBool true)
             /\ r' !! "answer"%string = r !! "answer"%string
             /\ r' !! "data"%string = r !! "data"%string
             /\ r' !! "insights"%string = r !! "insights"%string
             /\ r' !! "sql_used"%string = r !! "sql_used"%string.
Proof.
  intros H0 Henc Hself Hr Hcached st1.
  destruct (ask svc cfg question sid st) as [out st1'] eqn:Hrun.
  simpl in Hr. subst out. unfold st1. simpl. clear st1.
  destruct (ask_miss_run svc cfg question sid st st1' r Hrun Hcached)
    as (sq & st3 & Hgen & Hc3 & _ & Hmiss).
  destruct (ask_generated_persists svc cfg question _ _ sq st3 st1' r Hgen)
    as ((e & e0 & Hcache & Hres & Hsql & _ & (w & w' & Hemb)) & _ & Hused).
  assert (Hv : query_embedding e = v).
  { destruct (Henc w) as [w'' Hw]. rewrite Hw in Hemb. inversion Hemb. reflexivity. }
  (* no entry of the first cache qualifies *)
  assert (Hold : forall x, x ∈ PyDict.values (cache st) ->
                           qualifies (numpy svc) (similarity_threshold cfg) v x -> False).
  { destruct (Henc (world (state_before_lookup svc sid st))) as [w1 Hw1].
    rewrite (get_similar_query_run svc cfg question _ v w1 Hw1) in Hmiss.
    pose proof (scan_cache_qualifies v (PyDict.values (cache st)) H0) as Hscan.
    simpl in Hmiss.
    destruct (scan_cache (numpy svc) (similarity_threshold cfg) v (PyDict.values (cache st))
                         0 None 0%float) as [[i x]|]; [discriminate|exact Hscan]. }
  (* the second lookup returns the new entry *)
  rewrite ask_run.
  destruct (Henc (world (state_before_lookup svc sid' st1'))) as [w2 Hw2].
  rewrite (get_similar_query_run svc cfg question _ v w2 Hw2).
  pose proof (scan_cache_qualifies v (PyDict.values (cache st1')) H0) as Hscan.
  simpl.
  destruct (scan_cache (numpy svc) (similarity_threshold cfg) v (PyDict.values (cache st1'))
                       0 None 0%float) as [[i x]|].
  - destruct Hscan as [Hi Hq].
    assert (Hx : x = e).
    { apply list_elem_of_lookup_2 in Hi. rewrite Hcache, pydict_set_set in Hi.
      apply pydict_values_set in Hi. destruct Hi as [Hi|Hi]; [exact Hi|].
      rewrite Hc3 in Hi. exfalso. exact (Hold x Hi Hq). }
    subst x.
    assert (Hready : ready (results (bump_hit e))).
    { simpl. rewrite Hres.
      assert (Hr' : fst (ask_generated svc cfg question (fst (svc_now svc (world st)))
                           (session_of svc sid st) sq st3) = Ok r)
        by (rewrite Hgen; reflexivity).
      apply ask_generated_result in Hr'. destruct Hr' as (rows & ins & et & -> & _).
      apply ready_insert, ready_built. }
    pose proof (ask_cached_raises_only svc (fun _ => False) question
                  (fst (svc_now svc (world st1'))) (bump_hit e) Hready) as Hret.
    match goal with |- context [ask_cached svc question ?t0 ?c ?s] =>
      specialize (Hret s); pose proof (ask_cached_run svc question t0 c s) as Hcr;
      destruct (ask_cached svc question t0 c s) as [[r'|ex] st2]
    end.
    + destruct (Hcr st2 r' eq_refl) as (_ & _ & Ha & Hd & Hi' & Hs & _ & Hc).
      exists r'. simpl in *. rewrite Hres in *. rewrite Hsql in Hs.
      split; [reflexivity|]. split; [exact Hc|].
      split; [exact Ha|]. split; [exact Hd|]. split; [exact Hi'|].
      rewrite Hs, Hused. reflexivity.
    + exfalso. exact (Hret ex eq_refl).
  - exfalso.
    assert (Hin : e ∈ PyDict.values (cache st1'))
      by (rewrite Hcache; apply pydict_values_set_in).
    apply (Hscan e Hin). unfold qualifies. rewrite Hv. exact Hself.
Qed.

End AgainFacts.

(** ** Insights without the language model *)

Section ContainsFacts.

Local Open Scope string_scope.

Lemma prefix_app (a s : string) :
  String.prefix a s = true <-> exists post, s = a ++ post.
Proof.
  revert s. induction a as [|c a IH]; intros s; simpl.
  - split; [intros _; exists s; reflexivity|intros _; destruct s; reflexivity].
  - destruct s as [|c' s]; [split; [discriminate|intros [post H]; discriminate]|].
    simpl. destruct (Ascii.ascii_dec c c') as [->|Hne].
    + rewrite IH. split; intros [post H]; exists post.
      * rewrite H. reflexivity.
      * inversion H. reflexivity.
    + split; [discriminate|]. intros [post H]. inversion H. subst. contradiction.
Qed.

(** [sub in s] holds exactly when [s] is some text, then [sub], then some
    text. *)
Lemma contains_spec (sub s : string) :
  PyStr.contains sub s = true <-> exists pre post, s = pre ++ sub ++ post.
Proof.
  induction s as [|c s IH].
  - cbn [PyStr.contains]. destruct (String.prefix sub "") eqn:Hp.
    + split; [|reflexivity]. intros _. apply prefix_app in Hp. destruct Hp as [post H].
      exists "", post. exact H.
    + split; [discriminate|]. intros (pre & post & H).
      destruct pre as [|c pre]; [|discriminate]. simpl in H.
      assert (String.prefix sub "" = true) by (apply prefix_app; eauto).
      congruence.
  - cbn [PyStr.contains]. destruct (String.prefix sub (String c s)) eqn:Hp.
    + split; [|reflexivity]. intros _. apply prefix_app in Hp. destruct Hp as [post H].
      exists "", post. exact H.
    + rewrite IH. split.
      * intros (pre & post & ->). exists (String c pre), post. reflexivity.
      * intros (pre & post & H). destruct pre as [|c' pre].
        -- simpl in H.
           assert (String.prefix sub (String c s) = true) by (apply prefix_app; eauto).
           congruence.
        -- inversion H. eauto.
Qed.

(** A text that holds [a ++ b] holds [b]. *)
Lemma contains_tail (a b s : string) :
  PyStr.contains (a ++ b) s = true -> PyStr.contains b s = true.
Proof.
  rewrite !contains_spec. intros (pre & post & ->).
  exists (pre ++ a), post. rewrite !string_app_assoc. reflexivity.
Qed.

End ContainsFacts.

Section InsightFacts.

Context {W : Type} {dim : nat}.
Variable svc : Services W dim.
Variable cfg : Config dim.

Lemma any_in_weaken (ks ks' : list string) (s : string) :
  (forall k, k ∈ ks -> k ∈ ks') ->
  PyStr.any_in ks s = true -> PyStr.any_in ks' s = true.
Proof.
  unfold PyStr.any_in. intros Hsub H.
  apply existsb_exists in H. destruct H as (k & Hk & Hc).
  apply existsb_exists. exists k. split; [|exact Hc].
  apply list_elem_of_In, Hsub, list_elem_of_In, Hk.
Qed.

(** X5: The insight step matches its patterns as substrings of the lowered
    question. A question that holds the letters gpt gets the fixed identity
    text; one without them that holds hola, hello or hi anywhere (inside a
    word too, as in which or this) gets the fixed greeting. In both cases
    the rows are not looked at and no service is called. *)
Theorem canned_insights_skip_the_model (question : string)
    (rows : list (list (string * value))) (st : State) :
  let q := PyStr.lower question in
  (PyStr.contains "gpt" q = true ->
   _generate_insights svc cfg question rows st = (Ok identity_insight, st))
  /\ (PyStr.contains "gpt" q = false ->
      PyStr.any_in ["hola"; "hello"; "hi"]%string q = true ->
      _generate_insights svc cfg question rows st = (Ok greeting_insight, st)).
Proof.
  intros q. split.
  - intros Hgpt. unfold _generate_insights. fold q.
    assert (Htriv : existsb (fun p => PyStr.contains (PyStr.lower p) q) trivial_patterns
                    = true).
    { apply existsb_exists. exists "gpt"%string. split; [|exact Hgpt].
      apply list_elem_of_In. apply (bool_decide_unpack _). vm_compute. exact I. }
    rewrite Htriv, Hgpt, orb_true_r. reflexivity.
  - intros Hgpt Hgreet. unfold _generate_insights. fold q.
    assert (Hsub : forall k, k ∈ ["hola"; "hello"; "hi"]%string ->
                             k ∈ trivial_patterns /\ PyStr.lower k = k
                             /\ k ∈ ["hola"; "hello"; "hi"; "buenos dÃ­as"]%string).
    { intros k Hk.
      repeat (apply elem_of_cons in Hk; destruct Hk as [->|Hk]);
        [split; [|split; [reflexivity|]]; apply (bool_decide_unpack _); vm_compute; exact I ..
        |apply not_elem_of_nil in Hk; contradiction]. }
    assert (Htriv : existsb (fun p => PyStr.contains (PyStr.lower p) q) trivial_patterns
                    = true).
    { unfold PyStr.any_in in Hgreet. apply existsb_exists in Hgreet.
      destruct Hgreet as (k & Hk & Hc).
      apply existsb_exists. exists k.
      apply list_elem_of_In in Hk. destruct (Hsub k Hk) as (Hin & Hlow & _).
      split; [apply list_elem_of_In; exact Hin|]. rewrite Hlow. exact Hc. }
    assert (Hchat : PyStr.contains "chatgpt" q = false).
    { destruct (PyStr.contains "chatgpt" q) eqn:Hc; [|reflexivity].
      apply (contains_tail "chat" "gpt") in Hc. congruence. }
    rewrite Htriv, Hchat, Hgpt. simpl orb. cbv iota.
    rewrite (any_in_weaken ["hola"; "hello"; "hi"]%string _ q); [reflexivity| |exact Hgreet].
    intros k Hk. apply Hsub, Hk.
Qed.

End InsightFacts.

(** ** The concept matcher *)

Section ConceptFacts.

Context {W : Type} {dim : nat}.
Variable svc : Services W dim.
Variable cfg : Config dim.

Lemma find_first {A : Type} (f : A -> bool) (l : list A) (x : A) :
  List.find f l = Some x ->
  exists i, l !! i = Some x /\ f x = true
            /\ forall j y, (j < i)%nat -> l !! j = Some y -> f y = false.
Proof.
  induction l as [|a l IH]; simpl; [discriminate|].
  destruct (f a) eqn:Hfa.
  - intros H. inversion H; subst a. exists 0%nat. split; [reflexivity|].
    split; [exact Hfa|]. intros j y Hj. lia.
  - intros H. destruct (IH H) as (i & Hi & Hx & Hfirst).
    exists (S i). split; [exact Hi|]. split; [exact Hx|].
    intros [|j] y Hj Hy; simpl in Hy.
    + inversion Hy; subst y. exact Hfa.
    + apply (Hfirst j); [lia|exact Hy].
Qed.

Lemma find_none_elem {A : Type} (f : A -> bool) (l : list A) :
  List.find f l = None <-> forall x, x ∈ l -> f x = false.
Proof.
  split.
  - intros H x Hx. apply list_elem_of_In in Hx. exact (find_none f l H x Hx).
  - intros H. induction l as [|a l IH]; simpl; [reflexivity|].
    rewrite (H a) by apply list_elem_of_here.
    apply IH. intros x Hx. apply H, list_elem_of_further, Hx.
Qed.

(** The second loop of the matcher is the loop of the cache lookup, run
    over the concepts with the threshold 0.6. *)
Lemma scan_concepts_as_scan_cache (np : Numpy dim) (emb : string -> vec float dim)
    (q : vec float dim) (cs pre : list BusinessConcept)
    (best : option (nat * CacheEntry dim)) (bestc : option BusinessConcept) (bs : float) :
  match best with
  | Some (i, e) => exists c, bestc = Some c /\ pre !! i = Some c
  | None => bestc = None
  end ->
  match scan_cache np 0.6%float q (concept_entry emb <$> cs) (length pre) best bs with
  | Some (j, e) => exists c, scan_concepts np emb q cs bestc bs = Some c
                             /\ (pre ++ cs) !! j = Some c
  | None => scan_concepts np emb q cs bestc bs = None
  end.
Proof.
  revert pre best bestc bs. induction cs as [|c cs IH]; intros pre best bestc bs Hrel.
  - simpl. destruct best as [[i e]|].
    + destruct Hrel as (c & -> & Hi). exists c. split; [reflexivity|].
      rewrite app_nil_r. exact Hi.
    + exact Hrel.
  - cbn [fmap list_fmap scan_cache scan_concepts]. simpl query_embedding.
    replace (pre ++ c :: cs) with ((pre ++ [c]) ++ cs)
      by (rewrite <- app_assoc; reflexivity).
    replace (S (length pre)) with (length (pre ++ [c]))
      by (rewrite length_app; simpl; lia).
    destruct (PyFloat.gt (cosine_similarity np q (emb (natural_term c))) bs
              && PyFloat.gt (cosine_similarity np q (emb (natural_term c)))
                            (np_float np 0.6)).
    + apply IH. exists c. split; [reflexivity|]. apply list_lookup_middle. reflexivity.
    + apply IH. destruct best as [[i e]|]; [|exact Hrel].
      destruct Hrel as (c0 & -> & Hi). exists c0. split; [reflexivity|].
      rewrite lookup_app_l; [exact Hi|]. eapply lookup_lt_Some. exact Hi.
Qed.

(** X6: The concept matcher, for an ASCII question. When a keyword of some
    concept occurs in the lowered question, the first such concept in
    declaration order is returned and no service is called. Otherwise the
    question is embedded once and the concept of highest cosine similarity
    strictly above 0.6 is returned, the first among equals; none when no
    concept is above 0.6. The similarities are the values numpy computes,
    and "above 0.6" is numpy's comparison of such a value with the Python
    float 0.6 ([np_float] of it, which is taken to be not negative: for
    float32 arrays it is 0.6 rounded to float32 since numpy 2). *)
Theorem concept_match_is_first_keyword_or_best (question : string) (st : State) :
  PyStr.is_ascii question = true ->
  PrimFloat.leb 0 (np_float (numpy svc) 0.6) = true ->
  let kw c := PyStr.any_in (context_keywords c) (PyStr.lower question) in
  let sim q c :=
    cosine_similarity (numpy svc) q (concept_embeddings cfg (natural_term c)) in
  let above q c := PyFloat.gt (sim q c) (np_float (numpy svc) 0.6) in
  let out := find_relevant_concept svc cfg question st in
  (forall c, c ∈ concepts -> kw c = true ->
     exists i c0, concepts !! i = Some c0 /\ kw c0 = true
                  /\ (forall j c', (j < i)%nat -> concepts !! j = Some c' -> kw c' = false)
                  /\ out = (Ok (Some c0), st))
  /\ ((forall c, c ∈ concepts -> kw c = false) ->
      forall q w, svc_encode svc question (world st) = (Ok q, w) ->
        snd out = after_call (CallEncode question) w st
        /\ match fst out with
           | Ok (Some c) =>
               exists i, concepts !! i = Some c
                 /\ above q c = true
                 /\ (forall c', c' ∈ concepts -> above q c' = true ->
                       PyFloat.ge (sim q c) (sim q c') = true)
                 /\ (forall j c', (j < i)%nat -> concepts !! j = Some c' ->
                       above q c' = true ->
                       PyFloat.gt (sim q c) (sim q c') = true)
           | Ok None => forall c, c ∈ concepts -> above q c = false
           | Raise _ => False
           end).
Proof.
  intros _ H06 kw sim above out. split.
  - intros c Hc Hkw.
    destruct (List.find kw concepts) as [c0|] eqn:Hfind.
    + destruct (find_first kw concepts c0 Hfind) as (i & Hi & Hk & Hfirst).
      exists i, c0. split; [exact Hi|]. split; [exact Hk|]. split; [exact Hfirst|].
      unfold out, find_relevant_concept. fold kw. rewrite Hfind. reflexivity.
    + exfalso. rewrite find_none_elem in Hfind. rewrite (Hfind c Hc) in Hkw. discriminate.
  - intros Hnone q w He.
    assert (Hfind : List.find kw concepts = None) by (apply find_none_elem; exact Hnone).
    assert (Hout : out = (Ok (scan_concepts (numpy svc) (concept_embeddings cfg) q concepts
                                            None 0%float),
                          after_call (CallEncode question) w st)).
    { unfold out, find_relevant_concept. fold kw. rewrite Hfind.
      unfold bind, call_encode, ret. rewrite He. reflexivity. }
    rewrite Hout. cbn [fst snd]. split; [reflexivity|].
    pose proof (scan_concepts_as_scan_cache (numpy svc) (concept_embeddings cfg) q concepts
                  [] None None 0%float eq_refl) as Hsim.
    destruct (scan_cache_inv (numpy svc) 0.6%float q
                (concept_entry (concept_embeddings cfg) <$> concepts)
                [] None 0%float H06) as [bs Hinv].
    { simpl. split; [reflexivity|]. intros e Hin. apply not_elem_of_nil in Hin. contradiction. }
    cbn [app length] in Hsim, Hinv.
    destruct (scan_cache (numpy svc) 0.6 q (concept_entry (concept_embeddings cfg) <$> concepts)
                         0 None 0%float) as [[i e]|].
    + destruct Hsim as (c & -> & Hi). exists i. split; [exact Hi|].
      destruct Hinv as (_ & Hie & Hq & Hmax & Hfirst).
      rewrite list_lookup_fmap, Hi in Hie. simpl in Hie. inversion Hie; subst e. clear Hie.
      split; [exact Hq|]. split.
      * intros c' Hc' Hq'. apply list_elem_of_lookup in Hc'. destruct Hc' as [j Hj].
        apply (Hmax j (concept_entry (concept_embeddings cfg) c')); [|exact Hq'].
        rewrite list_lookup_fmap, Hj. reflexivity.
      * intros j c' Hlt Hj Hq'.
        apply (Hfirst j (concept_entry (concept_embeddings cfg) c') Hlt); [|exact Hq'].
        rewrite list_lookup_fmap, Hj. reflexivity.
    + rewrite Hsim. destruct Hinv as [_ Hno]. intros c Hc.
      apply (Hno (concept_entry (concept_embeddings cfg) c)).
      apply list_elem_of_fmap. exists c. split; [reflexivity|exact Hc].
Qed.

End ConceptFacts.

(** ** Cache statistics *)

Section StatsFacts.

Context {W : Type} {dim : nat}.
Variable svc : Services W dim.
Variable cfg : Config dim.

Lemma fold_left_add (xs : list Z) (a : Z) :
  fold_left Z.add xs a = a + fold_left Z.add xs 0.
Proof.
  revert a. induction xs as [|x xs IH]; intros a; simpl; [lia|].
  rewrite (IH (a + x)), (IH (0 + x)). lia.
Qed.

Lemma py_sum_cons (x : Z) (xs : list Z) : py_sum (x :: xs) = x + py_sum xs.
Proof. unfold py_sum. simpl. apply fold_left_add. Qed.

Lemma py_sum_app (xs ys : list Z) : py_sum (xs ++ ys) = py_sum xs + py_sum ys.
Proof.
  induction xs as [|x xs IH]; [reflexivity|].
  simpl app. rewrite !py_sum_cons, IH. lia.
Qed.

(** The sum of the hit counts of a cache. *)
Local Abbreviation hits c := (py_sum (hit_count <$> PyDict.values c)).

Lemma hits_cons (x : string * CacheEntry dim) (c : list (string * CacheEntry dim)) :
  hits (x :: c) = hit_count (snd x) + hits c.
Proof. exact (py_sum_cons _ _). Qed.

Lemma hits_bump (c : list (string * CacheEntry dim)) (i : nat) (k : string)
    (e : CacheEntry dim) :
  c !! i = Some (k, e) ->
  hits (<[i := (k, bump_hit e)]> c) = hits c + 1.
Proof.
  revert i. induction c as [|x c IH]; intros i Hi; [discriminate|].
  destruct i as [|i]; simpl in Hi.
  - inversion Hi; subst x.
    change (hits ((k, bump_hit e) :: c) = hits ((k, e) :: c) + 1).
    rewrite !hits_cons. simpl. lia.
  - change (hits (x :: <[i := (k, bump_hit e)]> c) = hits (x :: c) + 1).
    rewrite !hits_cons, (IH i Hi). lia.
Qed.

Lemma hits_set (c : list (string * CacheEntry dim)) (k : string) (e : CacheEntry dim) :
  hits (PyDict.set k e c)
  = hits c - match PyDict.get k c with Some e0 => hit_count e0 | None => 0 end
    + hit_count e.
Proof.
  induction c as [|[k' e'] c IH].
  - change (hits [(k, e)] = hits (@nil (string * CacheEntry dim)) - 0 + hit_count e).
    rewrite hits_cons. simpl. lia.
  - cbn [PyDict.set PyDict.get]. destruct (String.eqb k k').
    + rewrite !hits_cons. simpl. lia.
    + rewrite !hits_cons, IH. simpl. lia.
Qed.

Lemma length_pydict_set {V : Type} (d : list (string * V)) (k : string) (v : V) :
  length (PyDict.set k v d)
  = (length d + match PyDict.get k d with Some _ => 0 | None => 1 end)%nat.
Proof.
  induction d as [|[k' v'] d IH]; simpl; [reflexivity|].
  destruct (String.eqb k k'); simpl; [lia|]. rewrite IH. reflexivity.
Qed.

(** X8: What each answer does to the cache statistics. A response with cached
    true raises the total of hits by one and leaves the number of cached
    queries. A response with cached false adds one cached query when the
    key of the question is new; when the key was there, the number stays
    and the hits counted for that key are lost from the total. *)
Theorem cache_stats_follow_the_answers (question : string) (sid : option string)
    (st : State) (r : gmap string value) :
  fst (ask svc cfg question sid st) = Ok r ->
  let before := get_cache_stats st in
  let after := get_cache_stats (snd (ask svc cfg question sid st)) in
  exists n h n' h',
    before !! "total_cached_queries"%string = Some (VInt n)
    /\ before !! "total_cache_hits"%string = Some (VInt h)
    /\ after !! "total_cached_queries"%string = Some (VInt n')
    /\ after !! "total_cache_hits"%string = Some (VInt h')
    /\ (r !! "cached"%string = Some (VBool true) -> n' = n /\ h' = h + 1)
    /\ (r !! "cached"%string = Some (VBool false) ->
        match PyDict.get (_get_query_key question) (cache st) with
        | None => n' = n + 1 /\ h' = h
        | Some old => n' = n /\ h' = h - hit_count old
        end).
Proof.
  intros Hr before after.
  destruct (ask svc cfg question sid st) as [out st'] eqn:Hrun.
  simpl in Hr. subst out. unfold before, after, get_cache_stats. simpl snd.
  do 4 eexists.
  split; [reflexivity|]. split; [reflexivity|].
  split; [reflexivity|]. split; [reflexivity|].
  split.
  - intros Hcached.
    destruct (ask_hit_run svc cfg question sid st st' r Hrun Hcached)
      as (c & st2 & Hlook & Hhit).
    destruct (get_similar_query_hit svc cfg question (state_before_lookup svc sid st) c)
      as (i & k & e & Hie & _ & Hcache); [rewrite Hlook; reflexivity|].
    rewrite Hlook in Hcache. simpl in Hie, Hcache.
    assert (Hc' : cache st' = cache st2).
    { pose proof (proj1 (ask_cached_frames svc question (fst (svc_now svc (world st))) c) st2)
        as H. rewrite Hhit in H. exact H. }
    rewrite Hc', Hcache. rewrite length_insert, (hits_bump _ _ _ _ Hie). auto.
  - intros Hcached.
    destruct (ask_miss_run svc cfg question sid st st' r Hrun Hcached)
      as (sq & st3 & Hgen & Hc3 & _ & _).
    destruct (ask_generated_persists svc cfg question _ _ sq st3 st' r Hgen)
      as ((e & e0 & Hcache & _ & _ & Hzero & _) & _).
    rewrite Hcache, pydict_set_set, Hc3, length_pydict_set, hits_set, Hzero.
    destruct (PyDict.get (_get_query_key question) (cache st)); split; lia.
Qed.

End StatsFacts.

(** ** Rows of the query engine *)

Section RowFacts.

Context {W : Type} {dim : nat}.
Variable svc : Services W dim.

Lemma pydict_set_new {V : Type} (d : list (string * V)) (k : string) (v : V) :
  k ∉ PyDict.keys d -> PyDict.set k v d = d ++ [(k, v)].
Proof.
  induction d as [|[k' v'] d IH]; simpl; intros Hk; [reflexivity|].
  destruct (String.eqb_spec k k') as [->|Hne].
  - exfalso. apply Hk. apply list_elem_of_here.
  - rewrite IH; [reflexivity|]. intros Hin. apply Hk. apply list_elem_of_further. exact Hin.
Qed.

Lemma fold_set_fresh {V : Type} (l acc : list (string * V)) :
  NoDup (PyDict.keys l) ->
  (forall k, k ∈ PyDict.keys l -> k ∉ PyDict.keys acc) ->
  fold_left (fun d kv => PyDict.set (fst kv) (snd kv) d) l acc = acc ++ l.
Proof.
  revert acc. induction l as [|[k v] l IH]; intros acc Hnd Hfresh; simpl.
  - rewrite app_nil_r. reflexivity.
  - simpl in Hnd. apply NoDup_cons in Hnd. destruct Hnd as [Hk Hnd].
    rewrite pydict_set_new by (apply Hfresh; apply list_elem_of_here).
    rewrite IH; [rewrite <- app_assoc; reflexivity|exact Hnd|].
    intros k' Hk' Hin. unfold PyDict.keys in Hin. rewrite map_app in Hin.
    apply elem_of_app in Hin. destruct Hin as [Hin|Hin].
    + apply (Hfresh k'); [apply list_elem_of_further; exact Hk'|exact Hin].
    + simpl in Hin. apply list_elem_of_singleton in Hin. subst k'. contradiction.
Qed.

Lemma keys_zip_sub {V : Type} (ks : list string) (vs : list V) (k : string) :
  k ∈ PyDict.keys (zip ks vs) -> k ∈ ks.
Proof.
  revert vs. induction ks as [|k0 ks IH]; intros [|v vs]; simpl; intros H;
    try (apply not_elem_of_nil in H; contradiction).
  apply elem_of_cons in H. destruct H as [->|H];
    [apply list_elem_of_here|apply list_elem_of_further; eauto].
Qed.

Lemma NoDup_keys_zip {V : Type} (ks : list string) (vs : list V) :
  NoDup ks -> NoDup (PyDict.keys (zip ks vs)).
Proof.
  revert vs. induction ks as [|k0 ks IH]; intros [|v vs] Hnd; simpl;
    try apply NoDup_nil_2.
  apply NoDup_cons in Hnd. destruct Hnd as [Hk Hnd].
  apply NoDup_cons. split; [|apply IH; exact Hnd].
  intros Hin. apply keys_zip_sub in Hin. contradiction.
Qed.

(** [dict(zip(ks, vs))] with distinct keys is the list of the pairs. *)
Lemma of_zip_NoDup {V : Type} (ks : list string) (vs : list V) :
  NoDup ks -> PyDict.of_zip ks vs = zip ks vs.
Proof.
  intros Hnd. unfold PyDict.of_zip. rewrite fold_set_fresh; [reflexivity| |].
  - apply NoDup_keys_zip. exact Hnd.
  - intros k _ Hin. apply not_elem_of_nil in Hin. exact Hin.
Qed.

(** X11: [_execute_query] calls the query engine once and always returns. With
    an answer of the engine it returns one dictionary per fetched row, in
    order; when the column names are distinct each dictionary pairs the
    names with the values of its row, in column order. With an exception of
    the engine it returns the single row that holds the text of the
    exception under error. *)
Theorem execute_query_rows_or_error (sql_text : string) (st : State) :
  let out := _execute_query svc sql_text st in
  calls (snd out) = calls st ++ [CallExecute sql_text]
  /\ match svc_execute svc sql_text (world st) with
     | (Ok (cols, rows), _) =>
         exists dicts, fst out = Ok dicts
                       /\ length dicts = length rows
                       /\ (NoDup cols -> dicts = map (zip cols) rows)
     | (Raise e, _) => fst out = Ok [[("error"%string, VStr (exn_str e))]]
     end.
Proof.
  intros out. unfold out, _execute_query, try_except, bind, call_execute, ret.
  destruct (svc_execute svc sql_text (world st)) as [[[cols rows]|e] w]; simpl.
  - split; [reflexivity|]. eexists. split; [reflexivity|].
    split; [apply length_map|].
    intros Hnd. apply map_ext. intros row. apply of_zip_NoDup. exact Hnd.
  - split; reflexivity.
Qed.

End RowFacts.

(** ** The key of a question *)

Section KeyFacts.

Local Open Scope string_scope.

Lemma lower_app (a b : string) : PyStr.lower (a ++ b) = PyStr.lower a ++ PyStr.lower b.
Proof. induction a as [|c a IH]; simpl; [reflexivity|]. rewrite IH. reflexivity. Qed.

Lemma is_space_lower (c : ascii) : PyStr.is_space (PyStr.lower_ascii c) = PyStr.is_space c.
Proof. destruct c as [[] [] [] [] [] [] [] []]; reflexivity. Qed.

Lemma blank_lower (s : string) : blank (PyStr.lower s) = blank s.
Proof.
  induction s as [|c s IH]; simpl; [reflexivity|]. rewrite is_space_lower, IH. reflexivity.
Qed.

Lemma lstrip_blank (pre s : string) :
  blank pre = true -> PyStr.lstrip (pre ++ s) = PyStr.lstrip s.
Proof.
  induction pre as [|c pre IH]; simpl; [reflexivity|].
  intros H. apply andb_true_iff in H. destruct H as [Hc Hpre].
  rewrite Hc. auto.
Qed.

Lemma rstrip_blank_all (s : string) : blank s = true -> PyStr.rstrip s = "".
Proof.
  induction s as [|c s IH]; simpl; [reflexivity|].
  intros H. apply andb_true_iff in H. destruct H as [Hc Hs].
  rewrite (IH Hs), Hc. reflexivity.
Qed.

Lemma rstrip_blank (s post : string) :
  blank post = true -> PyStr.rstrip (s ++ post) = PyStr.rstrip s.
Proof.
  intros Hpost. induction s as [|c s IH]; simpl.
  - apply rstrip_blank_all. exact Hpost.
  - rewrite IH. reflexivity.
Qed.

(** [lstrip] removes a blank prefix and leaves a suffix of its argument. *)
Lemma lstrip_suffix (s : string) :
  exists pre, blank pre = true /\ s = pre ++ PyStr.lstrip s.
Proof.
  induction s as [|c s IH]; simpl.
  - exists "". auto.
  - destruct (PyStr.is_space c) eqn:Hc.
    + destruct IH as (pre & Hpre & Hs). exists (String c pre). simpl.
      rewrite Hc, Hpre. split; [reflexivity|].
      change (String c s = String c (pre ++ PyStr.lstrip s)). f_equal. exact Hs.
    + exists "". auto.
Qed.

Lemma lstrip_app_blank (s post : string) :
  blank post = true ->
  PyStr.rstrip (PyStr.lstrip (s ++ post)) = PyStr.rstrip (PyStr.lstrip s).
Proof.
  intros Hpost. induction s as [|c s IH]; simpl.
  - destruct (lstrip_suffix post) as (pre & Hpre & Hs).
    apply rstrip_blank_all.
    assert (Hb : blank (pre ++ PyStr.lstrip post) = true) by (rewrite <- Hs; exact Hpost).
    clear Hs. induction pre as [|c pre IHp]; simpl in *; [exact Hb|].
    apply andb_true_iff in Hb. apply andb_true_iff in Hpre. destruct Hb, Hpre. auto.
  - destruct (PyStr.is_space c); [exact IH|].
    change (PyStr.rstrip (String c s ++ post) = PyStr.rstrip (String c s)).
    apply rstrip_blank. exact Hpost.
Qed.

(** X12: The cache key of a question does not depend on the case of its ASCII
    letters nor on ASCII white space around it: two questions that are
    equal after lowering, each with any white space before and after, have
    the same key. *)
Theorem query_key_ignores_case_and_padding (q1 q2 pre1 post1 pre2 post2 : string) :
  blank pre1 = true -> blank post1 = true ->
  blank pre2 = true -> blank post2 = true ->
  PyStr.lower q1 = PyStr.lower q2 ->
  _get_query_key (pre1 ++ q1 ++ post1) = _get_query_key (pre2 ++ q2 ++ post2).
Proof.
  intros Hpre1 Hpost1 Hpre2 Hpost2 Hlow.
  assert (Hnorm : forall pre q post, blank pre = true -> blank post = true ->
            PyStr.strip (PyStr.lower (pre ++ q ++ post)) = PyStr.strip (PyStr.lower q)).
  { intros pre q post Hpre Hpost. unfold PyStr.strip.
    rewrite !lower_app, lstrip_blank by (rewrite blank_lower; exact Hpre).
    apply lstrip_app_blank. rewrite blank_lower. exact Hpost. }
  unfold _get_query_key. rewrite !Hnorm by assumption. rewrite Hlow. reflexivity.
Qed.

End KeyFacts.

(** ** What the prompt takes from the session *)

Section PromptFacts.

Context {dim : nat}.
Variable cfg : Config dim.

(** X13: The first question of a session is asked without history: for a
    session that has no stored turn, and for the empty session id whatever
    is stored under it, the prompt is the one built when no session is
    given (no conversation history, no follow-up instruction), even when
    the question holds a follow-up keyword. *)
Theorem prompt_without_history (question context sid : string)
    (c : option BusinessConcept) (ss : gmap string (list ConversationTurn)) :
  sid = ""%string \/ default [] (ss !! sid) = [] ->
  generation_prompt cfg question context (Some sid) c ss
  = generation_prompt cfg question context None c ss.
Proof.
  intros Hcase. unfold generation_prompt.
  destruct (String.eqb_spec sid "") as [_|Hne]; [reflexivity|].
  destruct Hcase as [Hsid|Hturns]; [contradiction|].
  assert (Hctx : get_conversation_context ss sid = ""%string).
  { unfold get_conversation_context.
    destruct (ss !! sid) as [[|t turns]|]; simpl in Hturns; try reflexivity. discriminate. }
  assert (Hval : follow_up_instruction_of (validate_follow_up_question ss sid question)
                 = ""%string).
  { unfold validate_follow_up_question.
    destruct (ss !! sid) as [[|t turns]|]; simpl in Hturns; try reflexivity. discriminate. }
  rewrite Hctx, Hval. reflexivity.
Qed.

Lemma last_n_nil_inv {A : Type} (n : nat) (l : list A) :
  (1 <= n)%nat -> last_n n l = [] -> l = [].
Proof.
  intros Hn H. apply (f_equal length) in H. rewrite length_last_n in H. simpl in H.
  destruct l; [reflexivity|]. simpl in H. lia.
Qed.


End PromptFacts.

(** ** The history of a session *)

Section HistoryFacts.

Context {W : Type} {dim : nat}.
Variable svc : Services W dim.
Variable cfg : Config dim.
Variable isoformat : Z -> string.

Lemma last_map {A B : Type} (f : A -> B) (l : list A) :
  last (map f l) = f <$> last l.
Proof.
  induction l as [|a [|b l] IH]; [reflexivity|reflexivity|].
  exact IH.
Qed.

(** X10: The history of a session lists its stored turns. An answer given past
    the cache becomes the last item of the history of its session, with the
    question, the answer and the SQL of the response; a question answered
    from the cache is not recorded: every history stays as it was. *)
Theorem history_records_uncached_answers (question : string) (sid : option string)
    (st : State) (r : gmap string value) :
  1 <= max_turns cfg ->
  fst (ask svc cfg question sid st) = Ok r ->
  let st' := snd (ask svc cfg question sid st) in
  (r !! "cached"%string = Some (VBool false) ->
   exists item,
     last (get_session_history isoformat st' (session_of svc sid st)) = Some item
     /\ PyDict.get "question" item = Some (VStr question)
     /\ PyDict.get "answer" item = r !! "answer"%string
     /\ PyDict.get "sql_used" item = r !! "sql_used"%string)
  /\ (r !! "cached"%string = Some (VBool true) ->
      forall sid', get_session_history isoformat st' sid'
                   = get_session_history isoformat st sid').
Proof.
  intros Hmax Hr st'.
  destruct (ask svc cfg question sid st) as [out st1] eqn:Hrun.
  simpl in Hr. subst out. unfold st'. simpl snd. clear st'.
  split.
  - intros Hcached.
    destruct (ask_miss_run svc cfg question sid st st1 r Hrun Hcached)
      as (sq & st3 & Hgen & _ & Hs3 & _).
    destruct (ask_generated_persists svc cfg question _ _ sq st3 st1 r Hgen)
      as (_ & Hturn & Hused).
    destruct (Hturn Hmax) as (t & old & Hsess & _ & Hq & Ha & Hs & _).
    unfold get_session_history. rewrite Hsess, lookup_insert_eq.
    rewrite last_map, last_n_snoc_last by lia. simpl.
    eexists. split; [reflexivity|]. simpl.
    rewrite Hq, Ha, Hs, Hused. auto.
  - intros Hcached sid'.
    destruct (ask_hit_run svc cfg question sid st st1 r Hrun Hcached)
      as (c & st2 & Hlook & Hhit).
    assert (Hsess : sessions st1 = sessions st).
    { pose proof (proj1 (proj2 (ask_cached_frames svc question
                                  (fst (svc_now svc (world st))) c)) st2) as H1.
      rewrite Hhit in H1. simpl in H1. rewrite H1.
      pose proof (proj1 (get_similar_query_frames svc cfg question)
                        (state_before_lookup svc sid st)) as H2.
      rewrite Hlook in H2. exact H2. }
    unfold get_session_history. rewrite Hsess. reflexivity.
Qed.

End HistoryFacts.

(** ** Session statistics *)

Section SessionStatsFacts.

Context {W : Type} {dim : nat}.
Variable svc : Services W dim.
Variable cfg : Config dim.

Lemma keeps_bounded_of_frame {A : Type} (m : @M W dim A) :
  preserves (@sessions W dim) m -> keeps (sessions_bounded cfg) m.
Proof.
  intros Hm st Hst sid turns. rewrite Hm. apply Hst.
Qed.

Lemma add_turn_keeps_bounded (sid q a s : string) :
  1 <= max_turns cfg -> keeps (sessions_bounded cfg) (add_turn svc cfg sid q a s).
Proof.
  intros Hmax st Hst sid' turns.
  rewrite add_turn_sessions by exact Hmax.
  destruct (decide (sid = sid')) as [->|Hne].
  - rewrite lookup_insert_eq. intros H. inversion H; subst turns.
    rewrite length_last_n. lia.
  - rewrite lookup_insert_ne by exact Hne. apply Hst.
Qed.

Lemma ask_keeps_bounded (question : string) (sid : option string) :
  1 <= max_turns cfg -> keeps (sessions_bounded cfg) (ask svc cfg question sid).
Proof.
  intros Hmax. unfold ask.
  apply keeps_bind; [apply keeps_bounded_of_frame, call_now_frames|intros t0].
  apply keeps_bind;
    [destruct sid; apply keeps_bounded_of_frame;
       [apply preserves_ret|apply call_uuid4_frames]
    |intros session].
  apply keeps_bind; [apply keeps_bounded_of_frame, preserves_get_sessions|intros ss].
  apply keeps_bind; [apply keeps_bounded_of_frame, get_similar_query_frames|intros hit].
  destruct hit as [c|].
  - apply keeps_bounded_of_frame, ask_cached_frames.
  - unfold ask_uncached.
    apply keeps_bind; [apply keeps_bounded_of_frame, generate_sql_frames|intros sq].
    unfold ask_generated.
    apply keeps_bind.
    { destruct (requires_execution sq); apply keeps_bounded_of_frame;
        [apply execute_query_frames|apply preserves_ret]. }
    intros rows.
    apply keeps_bind; [apply keeps_bounded_of_frame, generate_insights_frames|intros ins].
    apply keeps_bind; [apply keeps_bounded_of_frame, call_now_frames|intros now].
    apply keeps_bind; [apply keeps_bounded_of_frame, store_query_frames|intros _].
    apply keeps_bind; [apply add_turn_keeps_bounded; exact Hmax|intros _].
    apply keeps_bind; [apply keeps_bounded_of_frame, set_stored_item_frames|intros _].
    apply keeps_ret.
Qed.

Lemma asks_keeps_bounded (qs : list (string * option string)) (st : State) :
  1 <= max_turns cfg ->
  sessions_bounded cfg st -> sessions_bounded cfg (asks svc cfg qs st).
Proof.
  intros Hmax. revert st.
  induction qs as [|[q sid] qs IH]; intros st Hst; simpl; [exact Hst|].
  apply IH, ask_keeps_bounded; assumption.
Qed.

Lemma py_sum_bound (xs : list Z) (b : Z) :
  Forall (fun x => 0 <= x <= b) xs ->
  0 <= py_sum xs <= Z.of_nat (length xs) * b.
Proof.
  induction 1 as [|x xs Hx Hxs IH].
  - unfold py_sum. simpl. lia.
  - rewrite py_sum_cons. simpl length. lia.
Qed.

(** X9: Memory stays bounded. With room for at least one turn per session, in
    every state reached from one whose sessions are within the bound (an
    empty table is) by any questions, answered or not, every session holds
    at most max_turns turns, and the statistics report a total of turns
    that is at most the number of sessions times max_turns. *)
Theorem session_stats_within_bounds (qs : list (string * option string)) (st : State) :
  1 <= max_turns cfg ->
  sessions_bounded cfg st ->
  let st' := asks svc cfg qs st in
  sessions_bounded cfg st'
  /\ exists n t,
       get_session_stats st' !! "active_sessions"%string = Some (VInt n)
       /\ get_session_stats st' !! "total_conversation_turns"%string = Some (VInt t)
       /\ n = Z.of_nat (size (sessions st'))
       /\ 0 <= t <= n * max_turns cfg.
Proof.
  intros Hmax Hst st'.
  assert (Hb : sessions_bounded cfg st') by (apply asks_keeps_bounded; assumption).
  split; [exact Hb|].
  unfold get_session_stats. do 2 eexists.
  split; [reflexivity|]. split; [reflexivity|]. split; [reflexivity|].
  set (lens := (fun kv : string * list ConversationTurn => Z.of_nat (length (snd kv)))
               <$> map_to_list (sessions st')).
  assert (Hlen : length lens = size (sessions st')).
  { unfold lens. rewrite length_fmap. apply length_map_to_list. }
  rewrite <- Hlen. apply py_sum_bound.
  unfold lens. apply Forall_fmap, Forall_forall. intros [sid turns] Hin. simpl.
  apply elem_of_map_to_list in Hin. specialize (Hb sid turns Hin). lia.
Qed.

End SessionStatsFacts.

(** ** The HTTP handler *)

Section HandlerFacts.

Context {W : Type} {dim : nat}.
Variable svc : Services W dim.
Variable cfg : Config dim.

Lemma chat_message_run (sid message : string) (app : @App W dim) (bot : State) :
  sid <> ""%string ->
  PyStr.strip message <> ""%string ->
  chatbot app = Some bot ->
  let out := ask svc cfg (PyStr.strip message) (Some sid) (bot_at_ask svc app sid bot) in
  exists started,
    chat_message svc cfg (Some sid) (Some message) app
    = (match fst out with
       | Raise e => (error_body (exn_str e), 500)
       | Ok response =>
           match chat_response response sid with
           | Raise e => (error_body (exn_str e), 500)
           | Ok body =>
               match format_2f (get_or response "execution_time" (VInt 0)) with
               | Raise e => (error_body (exn_str e), 500)
               | Ok _ =>
                   match jsonify svc body with
                   | Raise e => (error_body (exn_str e), 500)
                   | Ok _ => (body, 200)
                   end
               end
           end
       end,
       mkApp (Some (snd out)) started).
Proof.
  intros Hsid Hmsg Hbot out. unfold chat_message. simpl default.
  destruct (String.eqb_spec sid "") as [->|_]; [contradiction|].
  destruct (String.eqb_spec (PyStr.strip message) "") as [Heq|_]; [contradiction|].
  simpl orb. cbv iota. rewrite Hbot.
  subst out. unfold bot_at_ask.
  destruct (active_sessions app !! sid) as [info|].
  - destruct (svc_now svc (world bot)) as [now w]. simpl snd.
    destruct (ask svc cfg (PyStr.strip message) (Some sid)
                  (mkState w (cache bot) (sessions bot) (calls bot)))
      as [[response|e] bot']; simpl; [|eexists; reflexivity].
    destruct (chat_response response sid) as [body|e]; [|eexists; reflexivity].
    destruct (format_2f (get_or response "execution_time" (VInt 0)));
      [|eexists; reflexivity].
    destruct (jsonify svc body); eexists; reflexivity.
  - destruct (ask svc cfg (PyStr.strip message) (Some sid) bot) as [[response|e] bot'];
      simpl; [|eexists; reflexivity].
    destruct (chat_response response sid) as [body|e]; [|eexists; reflexivity].
    destruct (format_2f (get_or response "execution_time" (VInt 0)));
      [|eexists; reflexivity].
    destruct (jsonify svc body); eexists; reflexivity.
Qed.


(** What the body of an answer takes from the response. *)
Lemma chat_response_fields (response : gmap string value) (sid : string) (body : value) :
  chat_response response sid = Ok body ->
  response_field "text" body = response !! "answer"%string
  /\ response_field "session_id" body = Some (VStr sid)
  /\ response_field "cached" body = Some (get_or response "cached" (VBool false))
  /\ response_field "sql_executed" body
     = Some (get_or response "sql_executed" (VBool true))
  /\ response_field "confidence" body
     = Some (get_or response "confidence" (VFloat 0.5)).
Proof.
  unfold chat_response. destruct (response !! "answer"%string) as [a|]; [|discriminate].
  intros H. inversion H; subst body. repeat split.
Qed.

(** X14: An answer with status 200 carries the response of [ask] for the
    stripped message: its answer as text, the session of the request, and
    the fields of the response. For a response served from the cache, which
    holds neither sql_executed nor confidence, the answer reports
    sql_executed true and confidence 0.5, whatever was reported when the
    question was first answered. *)
Theorem chat_answer_reports_the_response (sid message : string) (app : @App W dim)
    (bot : State) (body : value) :
  chatbot app = Some bot ->
  fst (chat_message svc cfg (Some sid) (Some message) app) = (body, 200) ->
  exists response,
    fst (ask svc cfg (PyStr.strip message) (Some sid) (bot_at_ask svc app sid bot))
    = Ok response
    /\ response_field "text" body = response !! "answer"%string
    /\ response_field "session_id" body = Some (VStr sid)
    /\ response_field "cached" body = response !! "cached"%string
    /\ (response !! "cached"%string = Some (VBool true) ->
        response_field "sql_executed" body = Some (VBool true)
        /\ response_field "confidence" body = Some (VFloat 0.5))
    /\ (response !! "cached"%string = Some (VBool false) ->
        response_field "sql_executed" body = response !! "sql_executed"%string
        /\ response_field "confidence" body = response !! "confidence"%string).
Proof.
  intros Hbot H200.
  assert (Hsid : sid <> ""%string).
  { intros ->. unfold chat_message in H200. simpl in H200. discriminate. }
  assert (Hmsg : PyStr.strip message <> ""%string).
  { intros Heq. unfold chat_message in H200. simpl default in H200.
    rewrite Heq in H200. rewrite orb_true_r in H200. discriminate. }
  destruct (chat_message_run sid message app bot Hsid Hmsg Hbot) as [started Hrun].
  rewrite Hrun in H200. cbn [fst] in H200.
  destruct (fst (ask svc cfg (PyStr.strip message) (Some sid) (bot_at_ask svc app sid bot)))
    as [response|e] eqn:Hask; [|discriminate].
  exists response. split; [reflexivity|].
  destruct (chat_response response sid) as [b|e] eqn:Hbody; [|discriminate].
  destruct (format_2f _) as [[]|]; [|discriminate].
  destruct (jsonify svc b) as [[]|]; [|discriminate].
  inversion H200; subst b. clear H200.
  destruct (chat_response_fields response sid body Hbody)
    as (Htext & Hsession & Hc & Hexec & Hconf).
  rewrite Htext, Hsession, Hc, Hexec, Hconf. clear Htext Hsession Hc Hexec Hconf Hbody.
  pose proof (ask_result_shape svc cfg _ _ _ response Hask) as Hshape.
  destruct Hshape as [(c & a & d & i & et & _ & ->)|(sq & rows & ins & et & _ & ->)];
    repeat split; try discriminate; reflexivity.
Qed.


End HandlerFacts.

(** ** The first version of the chatbot *)

(** The texts of the prompts, by their digests. *)
Example basic_prompt_digests :
  MD5.hexdigest Basic.sql_prompt_text_0 = "c64144ef02764ee2d46b6d33bacb409d"%string /\
  MD5.hexdigest Basic.sql_prompt_text_1 = "f56ac3d0fc4809ae1c100a6b745ccf4b"%string /\
  MD5.hexdigest Basic.sql_prompt_text_3 = "857673980eb08332c47a198df6085aae"%string /\
  MD5.hexdigest Basic.sql_prompt_text_4 = "459904558d6d1377a48e305fa64a5282"%string /\
  MD5.hexdigest Basic.insight_prompt_text_0 = "aa9fb045198fc5e61b81e5732f377b22"%string /\
  MD5.hexdigest Basic.insight_prompt_text_1 = "7b52b08d8ef880553e4921c3541fdb58"%string /\
  MD5.hexdigest Basic.insight_prompt_text_2 = "a004e2eef06877615151f6c8462c8923"%string.
Proof. vm_compute. repeat split. Qed.

(** The concepts of the first version, by the digest of their texts joined
    with bars and commas. *)
Example basic_concepts_digest :
  MD5.hexdigest
    (PyStr.join "|"
       (map (fun c => (natural_term c ++ "|" ++ sql_pattern c ++ "|"
                       ++ PyStr.join "," (required_columns c) ++ "|"
                       ++ PyStr.join "," (context_keywords c))%string)
            Basic.concepts))
  = "cc37d8ab08f2ac47ef119213eea9fe8a"%string.
Proof. vm_compute. reflexivity. Qed.

Section BasicFacts.

Context {W : Type} {dim : nat}.
Variable svc : Services W dim.
Variable cfg : Config dim.
Variable decode_sql_query : string -> res Basic.SQLQuery.

Local Abbreviation generate := (Basic._generate_sql_with_structured_output svc cfg decode_sql_query).
Local Abbreviation basic_ask := (Basic.ask svc cfg decode_sql_query).

(** X16: In the first version the generation step always returns, after one
    chat completion and no other call: the decoded answer of the model, or,
    when the call raises or its content does not decode, the fallback with
    SQL 'SELECT * FROM tiendas LIMIT 10', confidence 0.1 and the text of
    the error in its reasoning. The cache and the sessions are as before. *)
Theorem basic_generation_always_returns (question context : string) (st : State) :
  let out := generate question context st in
  let prompt := Basic.sql_prompt (schema_context cfg)
                  (concept_context_of (Basic.find_relevant_concept question))
                  context question in
  calls (snd out) = calls st ++ [CallChat "sql_query" prompt (temperature cfg)]
  /\ cache (snd out) = cache st
  /\ sessions (snd out) = sessions st
  /\ match svc_chat svc "sql_query" prompt (temperature cfg) (world st) with
     | (Raise e, _) => fst out = Ok (Basic.fallback_SQLQuery e)
     | (Ok content, _) =>
         match decode_sql_query content with
         | Ok sq => fst out = Ok sq
         | Raise e => fst out = Ok (Basic.fallback_SQLQuery e)
         end
     end
  /\ (forall e, Basic.sql (Basic.fallback_SQLQuery e) = "SELECT * FROM tiendas LIMIT 10"%string
                /\ Basic.confidence (Basic.fallback_SQLQuery e) = 0.1%float
                /\ Basic.reasoning (Basic.fallback_SQLQuery e)
                   = ("Error in SQL generation: " ++ exn_str e)%string).
Proof.
  intros out prompt. unfold out, Basic._generate_sql_with_structured_output.
  fold prompt. unfold try_except, bind, call_chat, lift, ret.
  destruct (svc_chat svc "sql_query" prompt (temperature cfg) (world st))
    as [[content|e] w]; simpl.
  - destruct (decode_sql_query content); simpl; repeat split.
  - repeat split.
Qed.

Lemma basic_generate_returns (question context : string) (st : State) :
  exists sq, fst (generate question context st) = Ok sq.
Proof.
  unfold Basic._generate_sql_with_structured_output, try_except, bind, lift, ret.
  destruct (call_chat svc "sql_query" _ (temperature cfg) st) as [[content|e] st'];
    simpl; [|eauto].
  destruct (decode_sql_query content); simpl; eauto.
Qed.

Lemma basic_generate_frames (question context : string) :
  preserves (@cache W dim) (generate question context)
  /\ preserves (@sessions W dim) (generate question context)
  /\ preserves (@sent_sql W dim) (generate question context).
Proof. repeat split; unfold Basic._generate_sql_with_structured_output; frame. Qed.

Lemma basic_insights_frames (question : string) (rows : list (list (string * value))) :
  preserves (@cache W dim) (Basic._generate_insights svc cfg question rows)
  /\ preserves (@sessions W dim) (Basic._generate_insights svc cfg question rows)
  /\ preserves (@sent_sql W dim) (Basic._generate_insights svc cfg question rows).
Proof. repeat split; unfold Basic._generate_insights; frame. Qed.

(** The state in which [ask] of the first version starts the lookup. *)
Local Abbreviation before_lookup st :=
  (after_call CallNow (snd (svc_now svc (world st))) st).

(** [ask] of the first version is its clock reading, the lookup, and one
    of the two branches. *)
Lemma basic_ask_run (question : string) (st : State) :
  basic_ask question st
  = match get_similar_query svc cfg question (before_lookup st) with
    | (Ok (Some c), st2) => ask_cached svc question (fst (svc_now svc (world st))) c st2
    | (Ok None, st2) =>
        bind (generate question "")
             (fun sq => Basic.ask_generated svc cfg question
                          (fst (svc_now svc (world st))) sq) st2
    | (Raise e, st2) => (Raise e, st2)
    end.
Proof.
  unfold Basic.ask.
  unfold bind at 1. unfold call_now at 1.
  destruct (svc_now svc (world st)) as [t0 w0]. simpl.
  unfold bind at 1.
  destruct (get_similar_query svc cfg question _) as [[[c|]|e] st2]; reflexivity.
Qed.

(** The tail of the miss path keeps the list of executed SQL. *)
Lemma basic_persist_frames (question : string) (t0 : Z) (sq : Basic.SQLQuery)
    (rows : list (list (string * value))) :
  preserves (@sent_sql W dim)
    (bind (Basic._generate_insights svc cfg question rows) (fun insights =>
     bind (call_now svc) (fun now =>
     bind (store_query svc question (Basic.sql sq)
             (Basic.built_response question (Basic.answer_of insights sq) sq rows insights
                                   (total_seconds (now - t0)))) (fun _ =>
     ret (Basic.built_response question (Basic.answer_of insights sq) sq rows insights
                               (total_seconds (now - t0))))))).
Proof.
  apply preserves_bind; [apply basic_insights_frames|intros ins].
  apply preserves_bind; [apply call_now_frames|intros now].
  apply preserves_bind; [apply store_query_frames|intros _].
  apply preserves_ret.
Qed.

Lemma basic_ask_generated_sent_sql (question : string) (t0 : Z) (sq : Basic.SQLQuery)
    (st : State) :
  sent_sql (snd (Basic.ask_generated svc cfg question t0 sq st))
  = sent_sql st ++ [Basic.sql sq].
Proof.
  unfold Basic.ask_generated. unfold bind at 1.
  pose proof (proj2 (proj2 (execute_query_frames svc (Basic.sql sq))) st) as Hex.
  destruct (_execute_query svc (Basic.sql sq) st) as [[rows|e] st1]; simpl in *.
  - rewrite (basic_persist_frames question t0 sq rows st1). exact Hex.
  - exact Hex.
Qed.

Lemma basic_ask_generated_result (question : string) (t0 : Z) (sq : Basic.SQLQuery)
    (st : State) (r : gmap string value) :
  fst (Basic.ask_generated svc cfg question t0 sq st) = Ok r ->
  exists rows ins et,
    r = Basic.built_response question (Basic.answer_of ins sq) sq rows ins et.
Proof.
  unfold Basic.ask_generated. unfold bind at 1.
  destruct (_execute_query svc (Basic.sql sq) st) as [[rows|e] st1]; [|discriminate].
  unfold bind at 1.
  destruct (Basic._generate_insights svc cfg question rows st1) as [[ins|e] st2];
    [|discriminate].
  unfold bind at 1. unfold call_now at 1.
  destruct (svc_now svc (world st2)) as [now w]. simpl.
  unfold bind at 1.
  destruct (store_query svc question (Basic.sql sq) _ _) as [[[]|e] st3]; [|discriminate].
  simpl. intros Hr. inversion Hr. eauto.
Qed.

(** X17: The first version executes every generated query. When the lookup
    misses, the query engine is called exactly once, with the SQL of the
    generated query (the fallback SQL when the language model failed),
    whether the rest of [ask] returns or raises; a returned response reports
    that SQL and holds neither sql_executed nor session_id. When the lookup
    hits or raises, the query engine is not called. *)
Theorem basic_ask_always_executes (question : string) (st : State) :
  let looked := get_similar_query svc cfg question (before_lookup st) in
  let out := basic_ask question st in
  match fst looked with
  | Ok None =>
      exists sq, fst (generate question "" (snd looked)) = Ok sq
                 /\ sent_sql (snd out) = sent_sql st ++ [Basic.sql sq]
                 /\ (forall r, fst out = Ok r ->
                       r !! "sql_used"%string = Some (VStr (Basic.sql sq))
                       /\ r !! "cached"%string = Some (VBool false)
                       /\ r !! "sql_executed"%string = None
                       /\ r !! "session_id"%string = None)
  | _ => sent_sql (snd out) = sent_sql st
  end.
Proof.
  intros looked out.
  assert (Hl : sent_sql (snd looked) = sent_sql st).
  { unfold looked. rewrite (proj2 (get_similar_query_frames svc cfg question) _).
    unfold sent_sql. simpl. rewrite executes_app. simpl. apply app_nil_r. }
  unfold out. rewrite basic_ask_run. fold looked.
  destruct looked as [[[c|]|e] st2]; simpl in *.
  - rewrite (proj2 (proj2 (ask_cached_frames svc question _ c)) st2). exact Hl.
  - destruct (basic_generate_returns question "" st2) as [sq Hgen].
    pose proof (proj2 (proj2 (basic_generate_frames question "")) st2) as Hs.
    destruct (generate question "" st2) as [[sq'|e] st3] eqn:Hg; simpl in Hgen, Hs;
      [|discriminate].
    inversion Hgen; subst sq'.
    assert (Hrun : bind (generate question "")
                     (fun sq => Basic.ask_generated svc cfg question
                                  (fst (svc_now svc (world st))) sq) st2
                   = Basic.ask_generated svc cfg question (fst (svc_now svc (world st)))
                                         sq st3)
      by (unfold bind; rewrite Hg; reflexivity).
    rewrite Hrun.
    exists sq. split; [reflexivity|]. split.
    + rewrite basic_ask_generated_sent_sql, Hs, Hl. reflexivity.
    + intros r Hr. apply basic_ask_generated_result in Hr.
      destruct Hr as (rows & ins & et & ->). repeat split.
  - exact Hl.
Qed.

Lemma basic_ready_built (question answer : string) (sq : Basic.SQLQuery)
    (rows : list (list (string * value))) (ins : DataInsight) (et : float) :
  ready (Basic.built_response question answer sq rows ins et).
Proof. repeat split; eexists; reflexivity. Qed.

Lemma basic_insights_raises_only (question : string)
    (rows : list (list (string * value))) :
  raises_only (from_dumps svc) (Basic._generate_insights svc cfg question rows).
Proof.
  unfold Basic._generate_insights.
  apply raises_only_bind;
    [apply raises_only_lift; intros e He; eexists; exact He|intros summary].
  repeat raise_step.
Qed.

Lemma basic_ask_generated_raises_only (question : string) (t0 : Z) (sq : Basic.SQLQuery) :
  raises_only (from_encoders svc question) (Basic.ask_generated svc cfg question t0 sq).
Proof.
  unfold Basic.ask_generated.
  apply raises_only_bind; [apply execute_query_raises_only|intros rows].
  apply raises_only_bind;
    [apply (raises_only_weaken _ (from_dumps svc));
       [intros e He; right; exact He|apply basic_insights_raises_only]
    |intros ins].
  apply raises_only_bind; [raise_step|intros now].
  apply raises_only_bind;
    [apply (raises_only_weaken _ (from_encoder svc question));
       [intros e He; left; exact He|apply store_query_raises_only]
    |intros _].
  raise_step.
Qed.

Lemma basic_ask_generated_keeps_ready (question : string) (t0 : Z) (sq : Basic.SQLQuery) :
  keeps hit_ready (Basic.ask_generated svc cfg question t0 sq).
Proof.
  unfold Basic.ask_generated.
  apply keeps_bind; [apply keeps_ready_of_frame, execute_query_frames|intros rows].
  apply keeps_bind; [apply keeps_ready_of_frame, basic_insights_frames|intros ins].
  apply keeps_bind; [apply keeps_ready_of_frame, call_now_frames|intros now].
  apply keeps_bind; [apply store_query_keeps_ready, basic_ready_built|intros _].
  apply keeps_ret.
Qed.

Lemma basic_ask_keeps_ready (question : string) : keeps hit_ready (basic_ask question).
Proof.
  intros st Hst. rewrite basic_ask_run.
  assert (H0 : hit_ready (before_lookup st)) by exact Hst.
  pose proof (get_similar_query_keeps_ready svc cfg question _ H0) as H1.
  destruct (get_similar_query svc cfg question (before_lookup st))
    as [[[c|]|e] st2]; simpl in H1.
  - eapply hit_ready_cache; [apply ask_cached_frames|exact H1].
  - apply keeps_bind; [apply keeps_ready_of_frame, basic_generate_frames
                      |intros sq; apply basic_ask_generated_keeps_ready|exact H1].
  - exact H1.
Qed.

Lemma basic_asks_keeps_ready (qs : list string) (st : State) :
  hit_ready st -> hit_ready (Basic.asks svc cfg decode_sql_query qs st).
Proof.
  revert st. induction qs as [|q qs IH]; intros st Hst; simpl; [exact Hst|].
  apply IH, basic_ask_keeps_ready, Hst.
Qed.

(** X18: In the first version, whatever ASCII questions were asked before,
    starting from a ready cache (an empty one is ready), the cache is still
    ready, and an exception that [ask] raises for an ASCII question is one
    the embedding model raised for this question, in the lookup or when the
    answer is stored, or one [json.dumps] raised on the rows; so [ask]
    returns when the embedding model answers every request and [json.dumps]
    serializes every value. Failures of the language model and of the query
    engine never reach the caller. *)
Theorem basic_ask_raises_only_from_encoders (qs : list string) (question : string)
    (st : State) :
  hit_ready st ->
  Forall (fun q => PyStr.is_ascii q = true) qs ->
  PyStr.is_ascii question = true ->
  let st' := Basic.asks svc cfg decode_sql_query qs st in
  hit_ready st'
  /\ (forall e, fst (basic_ask question st') = Raise e ->
        (exists w w', svc_encode svc question w = (Raise e, w'))
        \/ (exists v, json_dumps svc v = Raise e))
  /\ (encode_answers svc -> dumps_answers svc ->
      exists r, fst (basic_ask question st') = Ok r).
Proof.
  intros Hst _ _ st'.
  assert (Hst' : hit_ready st') by (apply basic_asks_keeps_ready; exact Hst).
  assert (Hraise : forall e, fst (basic_ask question st') = Raise e ->
                             from_encoders svc question e).
  { intros e. rewrite basic_ask_run.
    assert (H0 : hit_ready (before_lookup st')) by exact Hst'.
    pose proof (get_similar_query_hit_ready svc cfg question (before_lookup st')) as Hhit.
    pose proof (get_similar_query_raises_only svc cfg question (before_lookup st')) as Hl.
    destruct (get_similar_query svc cfg question (before_lookup st'))
      as [[[c|]|e'] st2]; simpl in *.
    - apply ask_cached_raises_only. apply (Hhit c H0). reflexivity.
    - apply raises_only_bind;
        [unfold Basic._generate_sql_with_structured_output; repeat raise_step
        |intros sq; apply basic_ask_generated_raises_only].
    - intros H. inversion H; subst e'. left. apply Hl. reflexivity. }
  split; [exact Hst'|]. split; [exact Hraise|].
  intros Henc Hdumps.
  destruct (fst (basic_ask question st')) as [r|e] eqn:Hout; [eauto|].
  exfalso. destruct (Hraise e eq_refl) as [(w & w' & He)|(v & Hv)].
  - destruct (Henc question w) as (v & w'' & Hv). congruence.
  - destruct (Hdumps v) as (text & Ht). congruence.
Qed.

End BasicFacts.

(** ** Related queries *)

Section RelatedFacts.

Context {W : Type} {dim : nat}.
Variable svc : Services W dim.
Variable cfg : Config dim.

Lemma last_n_last_n {A : Type} (n m : nat) (l : list A) :
  last_n n (last_n m l) = last_n (Nat.min n m) l.
Proof.
  unfold last_n. rewrite length_drop, drop_drop. f_equal. lia.
Qed.

(** X19: The related queries of a session are the SQL texts of its last three
    stored turns, oldest first: after any [add_turn] calls from an empty
    table, those of the last three calls made for the session, or of the
    last max_turns when that is less than three. *)
Theorem related_queries_are_the_last_three (cs : list TurnArgs) (st : State)
    (sid : string) :
  1 <= max_turns cfg ->
  sessions st = ∅ ->
  get_related_queries (sessions (add_turns svc cfg cs st)) sid
  = last_n (Nat.min 3 (Z.to_nat (max_turns cfg)))
           (ta_sql_used <$> filter (fun c => ta_session_id c = sid) cs).
Proof.
  intros Hmax Hempty.
  assert (Hform : forall ss : gmap string (list ConversationTurn),
            get_related_queries ss sid
            = last_n 3 (ta_sql_used <$> (turn_args <$> default [] (ss !! sid)))).
  { intros ss. unfold get_related_queries.
    destruct (ss !! sid) as [turns|]; [|reflexivity].
    replace (slice_from (-3) turns) with (last_n 3 turns)
      by (symmetry; apply (slice_from_neg_last_n 3); lia).
    change (default [] (Some turns)) with turns.
    rewrite <- list_fmap_compose, <- last_n_fmap. reflexivity. }
  rewrite Hform.
  pose proof (add_turns_args svc cfg cs st sid Hmax) as Hargs.
  unfold turns_of in Hargs. rewrite Hempty, lookup_empty in Hargs.
  change (default [] (@None (list ConversationTurn))) with (@nil ConversationTurn) in Hargs.
  rewrite Hargs by (cbn [length]; lia).
  change (turn_args <$> []) with (@nil TurnArgs). rewrite app_nil_l.
  rewrite <- !last_n_fmap, last_n_last_n. reflexivity.
Qed.

End RelatedFacts.

(** ** How often a question is embedded *)

Section EmbeddingFacts.

Context {W : Type} {dim : nat}.
Variable svc : Services W dim.
Variable cfg : Config dim.

















End EmbeddingFacts.

(* ====================================================================== *)
(** * The further properties on concrete runs *)

(** With an embedding model that always answers, [ask] returns; with a
    [json.dumps] that fails, [ask] raises its exception. *)
Lemma ask_raises_only_from_encoders_witness :
  let svc := Demo.svc_zero in
  let st' := asks svc Demo.cfg_default Cases.two_questions Demo.empty_state in
  let down := Cases.svc_dumps_down in
  hit_ready (@Demo.empty_state 2)
  /\ ascii_questions Cases.two_questions
  /\ PyStr.is_ascii Demo.q_revenue_again = true
  /\ hit_ready st'
  /\ (exists r, fst (ask svc Demo.cfg_default Demo.q_revenue_again None st') = Ok r)
  /\ fst (ask down Demo.cfg_default Demo.q_revenue_again None Demo.empty_state)
     = Raise Cases.bad_keys
  /\ ((exists w w', svc_encode down Demo.q_revenue_again w = (Raise Cases.bad_keys, w'))
      \/ (exists v, json_dumps down v = Raise Cases.bad_keys)).
Proof.
  intros svc st' down.
  assert (H0 : hit_ready (@Demo.empty_state 2)) by apply Forall_nil_2.
  assert (Hqs : ascii_questions Cases.two_questions) by (repeat constructor).
  assert (Hq : PyStr.is_ascii Demo.q_revenue_again = true) by reflexivity.
  split; [exact H0|]. split; [exact Hqs|]. split; [exact Hq|].
  destruct (ask_raises_only_from_encoders svc Demo.cfg_default Cases.two_questions
              Demo.q_revenue_again None Demo.empty_state H0 Hqs Hq)
    as (Hready & _ & Hreturns).
  split; [exact Hready|]. split.
  - apply Hreturns.
    + intros text w. exists [# 0%float; 0%float], w. reflexivity.
    + intros v. exists "[...]"%string. reflexivity.
  - assert (Hraise : fst (ask down Demo.cfg_default Demo.q_revenue_again None
                              Demo.empty_state) = Raise Cases.bad_keys)
      by (vm_compute; reflexivity).
    split; [exact Hraise|].
    destruct (ask_raises_only_from_encoders down Demo.cfg_default [] Demo.q_revenue_again
                None Demo.empty_state H0 (Forall_nil_2 _) Hq) as (_ & Hcases & _).
    exact (Hcases Cases.bad_keys Hraise).
Defined.

Lemma cache_hit_calls_no_model_witness :
  let svc := Demo.svc_up (Demo.a_query 1 true) in
  let st := Demo.after_revenue (Demo.a_query 1 true) in
  let out := ask svc Demo.cfg_default Demo.q_revenue_again (Some "s2"%string) st in
  fst out = Ok (Demo.response_of out)
  /\ Demo.response_of out !! "cached"%string = Some (VBool true)
  /\ calls (snd out) = calls st ++ [CallNow; CallEncode Demo.q_revenue_again; CallNow]
  /\ Demo.response_of out !! "question"%string = Some (VStr Demo.q_revenue_again)
  /\ Demo.response_of out !! "session_id"%string = None.
Proof.
  intros svc st out.
  assert (Hout : fst out = Ok (Demo.response_of out)) by (vm_compute; reflexivity).
  assert (Hcached : Demo.response_of out !! "cached"%string = Some (VBool true))
    by (vm_compute; reflexivity).
  split; [exact Hout|]. split; [exact Hcached|].
  destruct (cache_hit_calls_no_model svc Demo.cfg_default Demo.q_revenue_again
              (Some "s2"%string) st (Demo.response_of out) Hout Hcached)
    as (Hcalls & _ & Hq & Hsid).
  split; [exact Hcalls|]. split; [exact Hq|exact Hsid].
Defined.

Lemma uncached_answer_is_remembered_witness :
  let svc := Demo.svc_up (Demo.a_query 1 true) in
  let out := ask svc Demo.cfg_default Demo.q_revenue (Some "s1"%string) Demo.empty_state in
  1 <= max_turns Demo.cfg_default
  /\ fst out = Ok (Demo.response_of out)
  /\ Demo.response_of out !! "cached"%string = Some (VBool false)
  /\ (exists e, PyDict.get (_get_query_key Demo.q_revenue) (cache (snd out)) = Some e
                /\ results e = Demo.response_of out
                /\ Demo.response_of out !! "sql_used"%string = Some (VStr (sql_query e))
                /\ hit_count e = 0)
  /\ (exists t, last (turns_of (snd out) "s1") = Some t
                /\ turn_question t = Demo.q_revenue
                /\ Demo.response_of out !! "answer"%string = Some (VStr (turn_answer t))
                /\ Demo.response_of out !! "sql_used"%string = Some (VStr (turn_sql_used t))
                /\ turn_session_id t = "s1"%string).
Proof.
  intros svc out.
  assert (Hmax : 1 <= max_turns Demo.cfg_default) by (vm_compute; discriminate).
  assert (Hout : fst out = Ok (Demo.response_of out)) by (vm_compute; reflexivity).
  assert (Hcached : Demo.response_of out !! "cached"%string = Some (VBool false))
    by (vm_compute; reflexivity).
  split; [exact Hmax|]. split; [exact Hout|]. split; [exact Hcached|].
  destruct (uncached_answer_is_remembered svc Demo.cfg_default Demo.q_revenue
              (Some "s1"%string) Demo.empty_state (Demo.response_of out) Hmax Hout Hcached)
    as (Hentry & _ & Hturn & _).
  split; [exact Hentry|exact Hturn].
Defined.

Lemma repeated_question_is_served_from_cache_witness :
  let svc := Demo.svc_up (Demo.a_query 1 false) in
  let threshold := np_float (numpy svc) (similarity_threshold Demo.cfg_default) in
  let out := ask svc Demo.cfg_default Demo.q_revenue (Some "s1"%string) Demo.empty_state in
  PrimFloat.leb 0 threshold = true
  /\ (forall w, exists w', svc_encode svc Demo.q_revenue w = (Ok Demo.east, w'))
  /\ PyFloat.gt (cosine_similarity (numpy svc) Demo.east Demo.east) threshold = true
  /\ fst out = Ok (Demo.response_of out)
  /\ Demo.response_of out !! "cached"%string = Some (VBool false)
  /\ exists r', fst (ask svc Demo.cfg_default Demo.q_revenue (Some "s2"%string) (snd out))
                = Ok r'
                /\ r' !! "cached"%string = Some (VBool true)
                /\ r' !! "answer"%string = Demo.response_of out !! "answer"%string
                /\ r' !! "data"%string = Demo.response_of out !! "data"%string
                /\ r' !! "insights"%string = Demo.response_of out !! "insights"%string
                /\ r' !! "sql_used"%string = Demo.response_of out !! "sql_used"%string.
Proof.
  intros svc threshold out.
  assert (H0 : PrimFloat.leb 0 threshold = true) by (vm_compute; reflexivity).
  assert (Henc : forall w, exists w', svc_encode svc Demo.q_revenue w = (Ok Demo.east, w'))
    by (intros w; exists w; reflexivity).
  assert (Hself : PyFloat.gt (cosine_similarity (numpy svc) Demo.east Demo.east) threshold
                  = true)
    by (vm_compute; reflexivity).
  assert (Hout : fst out = Ok (Demo.response_of out)) by (vm_compute; reflexivity).
  assert (Hcached : Demo.response_of out !! "cached"%string = Some (VBool false))
    by (vm_compute; reflexivity).
  split; [exact H0|]. split; [exact Henc|]. split; [exact Hself|].
  split; [exact Hout|]. split; [exact Hcached|].
  exact (repeated_question_is_served_from_cache svc Demo.cfg_default Demo.q_revenue
           (Some "s1"%string) (Some "s2"%string) Demo.empty_state (Demo.response_of out)
           Demo.east H0 Henc Hself Hout Hcached).
Defined.

(** A question about data that holds the letters hi is answered with the
    greeting. *)
Lemma canned_insights_skip_the_model_witness :
  let svc := Demo.svc_llm_down in
  PyStr.contains "gpt" (PyStr.lower Cases.q_which) = false
  /\ PyStr.any_in ["hola"; "hello"; "hi"]%string (PyStr.lower Cases.q_which) = true
  /\ _generate_insights svc Demo.cfg_default Cases.q_which [] Demo.empty_state
     = (Ok greeting_insight, Demo.empty_state).
Proof.
  intros svc.
  assert (Hgpt : PyStr.contains "gpt" (PyStr.lower Cases.q_which) = false)
    by (vm_compute; reflexivity).
  assert (Hhi : PyStr.any_in ["hola"; "hello"; "hi"]%string (PyStr.lower Cases.q_which) = true)
    by (vm_compute; reflexivity).
  split; [exact Hgpt|]. split; [exact Hhi|].
  exact (proj2 (canned_insights_skip_the_model svc Demo.cfg_default Cases.q_which []
                  Demo.empty_state) Hgpt Hhi).
Defined.


Lemma cache_stats_follow_the_answers_witness :
  let svc := Demo.svc_up (Demo.a_query 1 true) in
  let st := Demo.after_revenue (Demo.a_query 1 true) in
  let out := ask svc Demo.cfg_default Demo.q_revenue_again (Some "s2"%string) st in
  fst out = Ok (Demo.response_of out)
  /\ get_cache_stats st !! "total_cache_hits"%string = Some (VInt 0)
  /\ exists n h n' h',
       get_cache_stats st !! "total_cached_queries"%string = Some (VInt n)
       /\ get_cache_stats st !! "total_cache_hits"%string = Some (VInt h)
       /\ get_cache_stats (snd out) !! "total_cached_queries"%string = Some (VInt n')
       /\ get_cache_stats (snd out) !! "total_cache_hits"%string = Some (VInt h')
       /\ (Demo.response_of out !! "cached"%string = Some (VBool true) ->
           n' = n /\ h' = h + 1)
       /\ (Demo.response_of out !! "cached"%string = Some (VBool false) ->
           match PyDict.get (_get_query_key Demo.q_revenue_again) (cache st) with
           | None => n' = n + 1 /\ h' = h
           | Some old => n' = n /\ h' = h - hit_count old
           end).
Proof.
  intros svc st out.
  assert (Hout : fst out = Ok (Demo.response_of out)) by (vm_compute; reflexivity).
  split; [exact Hout|]. split; [vm_compute; reflexivity|].
  exact (cache_stats_follow_the_answers svc Demo.cfg_default Demo.q_revenue_again
           (Some "s2"%string) st (Demo.response_of out) Hout).
Defined.

Lemma session_stats_within_bounds_witness :
  let svc := Demo.svc_up (Demo.a_query 1 true) in
  let st' := asks svc Demo.cfg_default Cases.two_questions Demo.empty_state in
  1 <= max_turns Demo.cfg_default
  /\ sessions_bounded Demo.cfg_default (@Demo.empty_state 2)
  /\ sessions_bounded Demo.cfg_default st'
  /\ exists n t,
       get_session_stats st' !! "active_sessions"%string = Some (VInt n)
       /\ get_session_stats st' !! "total_conversation_turns"%string = Some (VInt t)
       /\ n = Z.of_nat (size (sessions st'))
       /\ 0 <= t <= n * max_turns Demo.cfg_default.
Proof.
  intros svc st'.
  assert (Hmax : 1 <= max_turns Demo.cfg_default) by (vm_compute; discriminate).
  assert (Hb : sessions_bounded Demo.cfg_default (@Demo.empty_state 2)).
  { intros sid turns H. simpl in H. rewrite lookup_empty in H. discriminate. }
  split; [exact Hmax|]. split; [exact Hb|].
  exact (session_stats_within_bounds svc Demo.cfg_default Cases.two_questions
           Demo.empty_state Hmax Hb).
Defined.

Lemma history_records_uncached_answers_witness :
  let svc := Demo.svc_up (Demo.a_query 1 true) in
  let out := ask svc Demo.cfg_default Demo.q_revenue (Some "s1"%string) Demo.empty_state in
  1 <= max_turns Demo.cfg_default
  /\ fst out = Ok (Demo.response_of out)
  /\ Demo.response_of out !! "cached"%string = Some (VBool false)
  /\ exists item,
       last (get_session_history Cases.iso (snd out) "s1") = Some item
       /\ PyDict.get "question" item = Some (VStr Demo.q_revenue)
       /\ PyDict.get "answer" item = Demo.response_of out !! "answer"%string
       /\ PyDict.get "sql_used" item = Demo.response_of out !! "sql_used"%string.
Proof.
  intros svc out.
  assert (Hmax : 1 <= max_turns Demo.cfg_default) by (vm_compute; discriminate).
  assert (Hout : fst out = Ok (Demo.response_of out)) by (vm_compute; reflexivity).
  assert (Hcached : Demo.response_of out !! "cached"%string = Some (VBool false))
    by (vm_compute; reflexivity).
  split; [exact Hmax|]. split; [exact Hout|]. split; [exact Hcached|].
  exact (proj1 (history_records_uncached_answers svc Demo.cfg_default Cases.iso
                  Demo.q_revenue (Some "s1"%string) Demo.empty_state
                  (Demo.response_of out) Hmax Hout) Hcached).
Defined.

Lemma query_key_ignores_case_and_padding_witness :
  blank "  " = true /\ blank " " = true /\ blank "" = true
  /\ PyStr.lower "Revenue BY Region" = PyStr.lower "revenue by region"
  /\ _get_query_key "  Revenue BY Region " = _get_query_key "revenue by region".
Proof.
  assert (H1 : blank "  " = true) by reflexivity.
  assert (H2 : blank " " = true) by reflexivity.
  assert (H3 : blank "" = true) by reflexivity.
  assert (H4 : PyStr.lower "Revenue BY Region" = PyStr.lower "revenue by region")
    by reflexivity.
  split; [exact H1|]. split; [exact H2|]. split; [exact H3|]. split; [exact H4|].
  exact (query_key_ignores_case_and_padding "Revenue BY Region" "revenue by region"
           "  " " " "" "" H1 H2 H3 H3 H4).
Defined.

Lemma prompt_without_history_witness :
  let ss := sessions (Demo.after_revenue (Demo.a_query 1 true)) in
  default [] (ss !! "s2"%string) = []
  /\ generation_prompt Demo.cfg_default Demo.q_follow_up "" (Some "s2"%string) None ss
     = generation_prompt Demo.cfg_default Demo.q_follow_up "" None None ss.
Proof.
  intros ss.
  assert (H : default [] (ss !! "s2"%string) = []) by (vm_compute; reflexivity).
  split; [exact H|].
  exact (prompt_without_history Demo.cfg_default Demo.q_follow_up "" "s2" None ss
           (or_intror H)).
Defined.

(** A question first answered without execution is reported, when served
    from the cache, as executed and with confidence 0.5. *)
Lemma chat_answer_reports_the_response_witness :
  let svc := Demo.svc_up (Demo.a_query 1 false) in
  let bot := Demo.after_revenue (Demo.a_query 1 false) in
  let out := chat_message svc Demo.cfg_default (Some "s2"%string)
               (Some " Revenue by region? "%string) Cases.app_after_revenue in
  let body := fst (fst out) in
  chatbot Cases.app_after_revenue = Some bot
  /\ fst out = (body, 200)
  /\ (PyDict.get (_get_query_key Demo.q_revenue) (cache bot)
      ≫= fun e => results e !! "sql_executed"%string) = Some (VBool false)
  /\ response_field "cached" body = Some (VBool true)
  /\ response_field "sql_executed" body = Some (VBool true)
  /\ response_field "confidence" body = Some (VFloat 0.5)
  /\ response_field "session_id" body = Some (VStr "s2").
Proof.
  intros svc bot out body.
  assert (Hbot : chatbot Cases.app_after_revenue = Some bot) by reflexivity.
  assert (H200 : fst out = (body, 200)) by (vm_compute; reflexivity).
  split; [exact Hbot|]. split; [exact H200|]. split; [vm_compute; reflexivity|].
  destruct (chat_answer_reports_the_response svc Demo.cfg_default "s2"
              " Revenue by region? " Cases.app_after_revenue bot body Hbot H200)
    as (response & Hask & _ & Hsid & Hc & Hhit & _).
  assert (Hcached : response !! "cached"%string = Some (VBool true)).
  { rewrite <- Hc. vm_compute. reflexivity. }
  destruct (Hhit Hcached) as [Hexec Hconf].
  split; [rewrite Hc; exact Hcached|]. split; [exact Hexec|]. split; [exact Hconf|exact Hsid].
Defined.

(** In the first version too: with an embedding model that always answers,
    [ask] returns, the language model being up or not; with a [json.dumps]
    that fails, [ask] raises its exception. *)
Lemma basic_ask_raises_only_from_encoders_witness :
  let svc := Demo.svc_zero in
  let st' := Basic.asks svc Demo.cfg_default Cases.basic_decode
               [Demo.q_revenue] Demo.empty_state in
  let down := Cases.svc_dumps_down in
  hit_ready (@Demo.empty_state 2)
  /\ Forall (fun q => PyStr.is_ascii q = true) [Demo.q_revenue]
  /\ PyStr.is_ascii Demo.q_follow_up = true
  /\ hit_ready st'
  /\ (exists r, fst (Basic.ask svc Demo.cfg_default Cases.basic_decode
                               Demo.q_follow_up st') = Ok r)
  /\ fst (Basic.ask down Demo.cfg_default Cases.basic_decode Demo.q_follow_up
                    Demo.empty_state) = Raise Cases.bad_keys
  /\ ((exists w w', svc_encode down Demo.q_follow_up w = (Raise Cases.bad_keys, w'))
      \/ (exists v, json_dumps down v = Raise Cases.bad_keys)).
Proof.
  intros svc st' down.
  assert (H0 : hit_ready (@Demo.empty_state 2)) by apply Forall_nil_2.
  assert (Hqs : Forall (fun q => PyStr.is_ascii q = true) [Demo.q_revenue])
    by (repeat constructor).
  assert (Hq : PyStr.is_ascii Demo.q_follow_up = true) by reflexivity.
  split; [exact H0|]. split; [exact Hqs|]. split; [exact Hq|].
  destruct (basic_ask_raises_only_from_encoders svc Demo.cfg_default Cases.basic_decode
              [Demo.q_revenue] Demo.q_follow_up Demo.empty_state H0 Hqs Hq)
    as (Hready & _ & Hreturns).
  split; [exact Hready|]. split.
  - apply Hreturns.
    + intros text w. exists [# 0%float; 0%float], w. reflexivity.
    + intros v. exists "[...]"%string. reflexivity.
  - assert (Hraise : fst (Basic.ask down Demo.cfg_default Cases.basic_decode
                                    Demo.q_follow_up Demo.empty_state)
                     = Raise Cases.bad_keys)
      by (vm_compute; reflexivity).
    split; [exact Hraise|].
    destruct (basic_ask_raises_only_from_encoders down Demo.cfg_default Cases.basic_decode
                [] Demo.q_follow_up Demo.empty_state H0 (Forall_nil_2 _) Hq)
      as (_ & Hcases & _).
    exact (Hcases Cases.bad_keys Hraise).
Defined.

Lemma related_queries_are_the_last_three_witness :
  let svc := Demo.svc_up (Demo.a_query 1 true) in
  let cfg : Config 2 := Demo.config 0.85%float 2 in
  1 <= max_turns cfg
  /\ sessions (@Demo.empty_state 2) = ∅
  /\ get_related_queries (sessions (add_turns svc cfg Demo.three_turns Demo.empty_state))
                         "s1"
     = ["sql2"; "sql3"]%string.
Proof.
  intros svc cfg.
  assert (Hmax : 1 <= max_turns cfg) by (vm_compute; discriminate).
  assert (Hempty : sessions (@Demo.empty_state 2) = ∅) by reflexivity.
  split; [exact Hmax|]. split; [exact Hempty|].
  rewrite (related_queries_are_the_last_three svc cfg Demo.three_turns Demo.empty_state
             "s1" Hmax Hempty).
  vm_compute. reflexivity.
Defined.


(** A question with the keyword mall is matched by keyword, without any
    call; one without keywords is embedded once. *)
Lemma concept_match_is_first_keyword_or_best_witness :
  let svc := Demo.svc_up (Demo.a_query 1 true) in
  let st : @State Z 2 := Demo.empty_state in
  let kw c := PyStr.any_in (context_keywords c) (PyStr.lower "revenue by mall") in
  PyStr.is_ascii "revenue by mall" = true
  /\ PyStr.is_ascii Demo.q_revenue = true
  /\ PrimFloat.leb 0 (np_float (numpy svc) 0.6) = true
  /\ (exists i c0, concepts !! i = Some c0 /\ kw c0 = true
                   /\ (forall j c', (j < i)%nat -> concepts !! j = Some c' -> kw c' = false)
                   /\ find_relevant_concept svc Demo.cfg_default "revenue by mall" st
                      = (Ok (Some c0), st))
  /\ snd (find_relevant_concept svc Demo.cfg_default Demo.q_revenue st)
     = after_call (CallEncode Demo.q_revenue) 0 st
  /\ fst (find_relevant_concept svc Demo.cfg_default Demo.q_revenue st) = Ok None.
Proof.
  intros svc st kw.
  assert (Hmall : PyStr.is_ascii "revenue by mall" = true) by reflexivity.
  assert (Hrev : PyStr.is_ascii Demo.q_revenue = true) by reflexivity.
  assert (H06 : PrimFloat.leb 0 (np_float (numpy svc) 0.6) = true) by reflexivity.
  split; [exact Hmall|]. split; [exact Hrev|]. split; [exact H06|].
  destruct (concept_match_is_first_keyword_or_best svc Demo.cfg_default
              "revenue by mall" st Hmall H06) as [Hkw _].
  destruct (concept_match_is_first_keyword_or_best svc Demo.cfg_default
              Demo.q_revenue st Hrev H06) as [_ Hemb].
  split; [|split].
  - destruct (concepts !! 1%nat) as [c|] eqn:Hc; [|vm_compute in Hc; discriminate].
    apply (Hkw c).
    + eapply list_elem_of_lookup_2. exact Hc.
    + vm_compute in Hc. inversion Hc. vm_compute. reflexivity.
  - assert (Hnone : forall c, c ∈ concepts ->
              PyStr.any_in (context_keywords c) (PyStr.lower Demo.q_revenue) = false).
    { intros c Hc. unfold concepts in Hc.
      repeat (apply elem_of_cons in Hc; destruct Hc as [->|Hc]);
        [vm_compute; reflexivity ..|apply not_elem_of_nil in Hc; contradiction]. }
    exact (proj1 (Hemb Hnone Demo.east 0 eq_refl)).
  - vm_compute. reflexivity.
Defined.

(** The one row of the demonstration engine, as a dictionary. *)
Lemma execute_query_rows_or_error_witness :
  let svc := Demo.svc_up (Demo.a_query 1 true) in
  let out := _execute_query svc "SELECT COUNT(*) AS n FROM tiendas" (@Demo.empty_state 2) in
  calls (snd out) = [CallExecute "SELECT COUNT(*) AS n FROM tiendas"]
  /\ fst out = Ok [[("n"%string, VInt 200)]].
Proof.
  intros svc out.
  destruct (execute_query_rows_or_error svc "SELECT COUNT(*) AS n FROM tiendas"
              (@Demo.empty_state 2)) as [Hcalls Hrows].
  split; [exact Hcalls|].
  change (svc_execute svc "SELECT COUNT(*) AS n FROM tiendas" (world (@Demo.empty_state 2)))
    with (Ok (["n"%string], [[VInt 200]]) : res (list string * list (list value)), 0) in Hrows.
  destruct Hrows as (dicts & Hout & _ & Hzip).
  rewrite (Hzip (NoDup_singleton _)) in Hout. exact Hout.
Defined.


(** With the language model down, the generation of the first version
    returns the fallback. *)
Lemma basic_generation_always_returns_witness :
  let svc := Demo.svc_llm_down in
  let out := Basic._generate_sql_with_structured_output svc Demo.cfg_default
               Cases.basic_decode Demo.q_revenue "" Demo.empty_state in
  fst out = Ok (Basic.fallback_SQLQuery
                  (Exception "ConnectionError" "language model unavailable"))
  /\ cache (snd out) = []
  /\ length (calls (snd out)) = 1%nat.
Proof.
  intros svc out.
  destruct (basic_generation_always_returns svc Demo.cfg_default Cases.basic_decode
              Demo.q_revenue "" Demo.empty_state) as (Hcalls & Hcache & _ & Hcases & _).
  split; [exact Hcases|]. split; [exact Hcache|].
  fold out in Hcalls. rewrite Hcalls. reflexivity.
Defined.

(** With the language model down, the first version runs the fallback
    query. *)
Lemma basic_ask_always_executes_witness :
  let svc := Demo.svc_llm_down in
  let out := Basic.ask svc Demo.cfg_default Cases.basic_decode Demo.q_revenue
               Demo.empty_state in
  sent_sql (snd out) = ["SELECT * FROM tiendas LIMIT 10"%string]
  /\ Demo.field "sql_used" out = Some (VStr "SELECT * FROM tiendas LIMIT 10")
  /\ Demo.field "sql_executed" out = None.
Proof.
  intros svc out.
  pose proof (basic_ask_always_executes svc Demo.cfg_default Cases.basic_decode
                Demo.q_revenue Demo.empty_state) as H.
  cbv zeta in H.
  assert (Hl : get_similar_query svc Demo.cfg_default Demo.q_revenue
                 (after_call CallNow (snd (svc_now svc (world (@Demo.empty_state 2))))
                             Demo.empty_state)
               = (Ok None,
                  mkState 1 [] ∅ [CallNow; CallEncode Demo.q_revenue]))
    by (vm_compute; reflexivity).
  rewrite Hl in H. cbn [fst snd] in H.
  destruct H as (sq & Hgen & Hsent & Hresp).
  assert (Hsq : sq = Basic.fallback_SQLQuery
                       (Exception "ConnectionError" "language model unavailable")).
  { vm_compute in Hgen. inversion Hgen. reflexivity. }
  subst sq. split; [exact Hsent|].
  assert (Hout : fst out = Ok (Demo.response_of out)) by (vm_compute; reflexivity).
  destruct (Hresp _ Hout) as (Hused & _ & Hexec & _).
  unfold Demo.field. rewrite Hout. split; [exact Hused|exact Hexec].
Defined.
